(** * Al-Qur'an reader: the client-side data and state layer

    A shallow embedding of the three modules that hold state
    ([src/modules/storage.js], [src/modules/auth.js], [src/modules/api.js])
    and the properties of them that the specification states.

    Conventions of the embedding.
    - [localStorage] is one record with a field per key the application
      uses.  A field is [None] when the key is absent.  Values are kept in
      their decoded form: [JSON.parse (JSON.stringify v)] is [v] for every
      value the typed fields can hold, and the storage is ideal (a write
      never exceeds a quota), so the [catch] branches of the generic
      [setItem]/[getItem]/[removeItem] wrappers are not reachable.
    - [Date.now ()] is an explicit argument [now : Z] (milliseconds) of every
      operation that reads the clock.
    - a JavaScript [throw] is the left injection of a state-and-error monad;
      the storage written before the throw is kept, as in JavaScript.
    - object literals with a fixed shape are records; objects used as
      dictionaries are [gmap string _]. *)

From Stdlib Require Import ZArith String Ascii List Bool Lia Sorted DecimalString.
From stdpp Require Import base option list gmap strings sorting.

Local Open Scope Z_scope.

(** ** JavaScript values shared by the modules *)

Module Js.

(** [new Error (message)] *)
Record Error : Type := mkError { message : string }.

#[global] Instance Error_eq_dec : EqDecision Error.
Proof. solve_decision. Defined.

(** A computation over a state [S] that returns an [A] or throws. *)
Definition M (S A : Type) : Type := S -> (Error + A) * S.

Definition ret {S A} (a : A) : M S A := fun s => (inr a, s).

Definition throw {S A} (e : Error) : M S A := fun s => (inl e, s).

Definition bind {S A B} (m : M S A) (k : A -> M S B) : M S B :=
  fun s => match m s with
           | (inl e, s') => (inl e, s')
           | (inr a, s') => k a s'
           end.

Definition get {S} : M S S := fun s => (inr s, s).

Definition modify {S} (f : S -> S) : M S unit := fun s => (inr tt, f s).

(** [try { m } catch (error) { h error }] *)
Definition try_catch {S A} (m : M S A) (h : Error -> M S A) : M S A :=
  fun s => match m s with
           | (inl e, s') => h e s'
           | (inr a, s') => (inr a, s')
           end.

(** Truthiness of a string: only the empty string is falsy. *)
Definition truthy_str (s : string) : bool :=
  match s with EmptyString => false | String _ _ => true end.

(** Truthiness of an optional property holding a string:
    [undefined] and [""] are falsy. *)
Definition truthy_opt_str (o : option string) : bool :=
  match o with Some s => truthy_str s | None => false end.

(** Truthiness of an optional property holding an object or an array:
    only [undefined] is falsy. *)
Definition truthy_opt {A} (o : option A) : bool :=
  match o with Some _ => true | None => false end.

End Js.

Declare Scope js_scope.
Delimit Scope js_scope with js.
Notation "x <- m ;; k" := (Js.bind m (fun x => k))
  (at level 100, m at next level, right associativity) : js_scope.
Notation "m ;;; k" := (Js.bind m (fun _ => k))
  (at level 100, right associativity) : js_scope.

Import Js.
Local Open Scope js_scope.

(** ** Strings as [auth.js] uses them

    A string is its sequence of code units; the embedding covers the code
    units below 256 (Latin-1). *)

Module JsString.

Definition code (c : ascii) : Z := Z.of_nat (nat_of_ascii c).

(** [String.prototype.toLowerCase] on one code unit: A-Z, and the Latin-1
    capitals U+00C0..U+00DE without the multiplication sign U+00D7. *)
Definition lower_char (c : ascii) : ascii :=
  let n := code c in
  if ((65 <=? n) && (n <=? 90))
     || ((192 <=? n) && (n <=? 222) && negb (n =? 215))
  then ascii_of_nat (Z.to_nat (n + 32)) else c.

Fixpoint toLowerCase (s : string) : string :=
  match s with
  | EmptyString => EmptyString
  | String c s' => String (lower_char c) (toLowerCase s')
  end.

(** White space and line terminators below 256: TAB, LF, VT, FF, CR, SP
    and NBSP. *)
Definition is_space (c : ascii) : bool :=
  let n := code c in
  ((9 <=? n) && (n <=? 13)) || (n =? 32) || (n =? 160).

Fixpoint trimStart (s : string) : string :=
  match s with
  | EmptyString => EmptyString
  | String c s' => if is_space c then trimStart s' else s
  end.

(** [trimEnd]: a space is dropped when everything after it is dropped. *)
Fixpoint trimEnd (s : string) : string :=
  match s with
  | EmptyString => EmptyString
  | String c s' =>
      match trimEnd s' with
      | EmptyString => if is_space c then EmptyString else String c EmptyString
      | t => String c t
      end
  end.

(** [String.prototype.trim] *)
Definition trim (s : string) : string := trimEnd (trimStart s).

(** [ToInt32]: wrap to the signed 32-bit range. *)
Definition to_int32 (z : Z) : Z := (z + 2 ^ 31) mod 2 ^ 32 - 2 ^ 31.

(** [Number.prototype.toString] of an integer, radix 10. *)
Definition toString (z : Z) : string := NilZero.string_of_int (Z.to_int z).

(** [String.prototype.includes (sub)]: [sub] occurs somewhere in [s]. *)
Fixpoint includes (s sub : string) : bool :=
  if String.prefix sub s then true
  else match s with
       | EmptyString => false
       | String _ s' => includes s' sub
       end.

(** [s.substring (0, n)] for an integer [n]: a negative [n] counts as 0. *)
Definition substring0 (s : string) (n : Z) : string :=
  String.substring 0 (Z.to_nat n) s.

End JsString.

(** ** The persisted data (spec section 3) *)

(** A chapter summary as the controller passes it to [addBookmark ('surat', _)]
    and [addHistory]: the fields those two functions read. *)
Record SuratData : Type := mkSuratData {
  sd_nomor : Z;
  sd_nama : string;
  sd_namaLatin : string;
  sd_jumlahAyat : Z;
  sd_tempatTurun : string
}.

(** The fields [addBookmark ('ayat', _)] reads. *)
Record AyatData : Type := mkAyatData {
  ad_suratId : Z;
  ad_suratNama : string;
  ad_nomorAyat : Z;
  ad_teksArab : string;
  ad_teksIndonesia : string
}.

Record SuratBookmark : Type := mkSuratBookmark {
  sb_nomor : Z;
  sb_nama : string;
  sb_namaLatin : string;
  sb_jumlahAyat : Z;
  sb_tempatTurun : string;
  sb_timestamp : Z
}.

Record AyatBookmark : Type := mkAyatBookmark {
  ab_suratId : Z;
  ab_suratNama : string;
  ab_nomorAyat : Z;
  ab_teksArab : string;
  ab_teksIndonesia : string;
  ab_timestamp : Z
}.

(** [{ surat: [...], ayat: [...] }] *)
Record Bookmarks : Type := mkBookmarks {
  surat : list SuratBookmark;
  ayat : list AyatBookmark
}.

Record HistoryEntry : Type := mkHistoryEntry {
  he_nomor : Z;
  he_nama : string;
  he_namaLatin : string;
  he_timestamp : Z
}.

(** A settings value is a flag or a string. *)
Inductive SettingValue : Type :=
| SBool (b : bool)
| SStr (s : string).

#[global] Instance SettingValue_eq_dec : EqDecision SettingValue.
Proof. solve_decision. Defined.

(** The settings object: a dictionary, since a stored object may hold any
    subset of the keys. *)
Abbreviation Settings := (gmap string SettingValue).

(** [{ username, loginTime, lastActive }] under [quran_user]. *)
Record StoredUser : Type := mkStoredUser {
  st_username : string;
  st_loginTime : Z;
  st_lastActive : Z
}.

(** The user's profile object: [updateProfile] spreads arbitrary keys over
    it, so it is a dictionary. *)
Abbreviation Profile := (gmap string string).

(** An account in the [quran_users] array. *)
Record User : Type := mkUser {
  u_id : string;
  u_username : string;
  u_password : string;
  u_createdAt : Z;
  u_lastLogin : option Z;
  u_isActive : bool;
  u_profile : option Profile;
  u_mustChangePassword : bool
}.

(** The projection of an account kept under [quran_current_user]. *)
Record SessionUser : Type := mkSessionUser {
  su_id : string;
  su_username : string;
  su_displayName : string;
  su_profile : Profile;
  su_loginTime : Z
}.

(** The record kept under [quran_session]. *)
Record Session : Type := mkSession {
  s_userId : string;
  s_createdAt : Z;
  s_expiresAt : Z;
  s_isValid : bool
}.

(** ** [localStorage] *)

Record LocalStorage : Type := mkLocalStorage {
  quran_bookmarks : option Bookmarks;
  quran_history : option (list HistoryEntry);
  quran_theme : option string;
  quran_user : option StoredUser;
  quran_settings : option Settings;
  quran_users : option (list User);
  quran_current_user : option SessionUser;
  quran_session : option Session
}.

(** Nothing stored. *)
Definition empty_storage : LocalStorage :=
  mkLocalStorage None None None None None None None None.

(** One writer per key: [localStorage.setItem (key, JSON.stringify (v))] for
    [Some v], [localStorage.removeItem (key)] for [None]. *)
Definition write_bookmarks (v : option Bookmarks) (ls : LocalStorage) :=
  mkLocalStorage v (quran_history ls) (quran_theme ls) (quran_user ls)
    (quran_settings ls) (quran_users ls) (quran_current_user ls) (quran_session ls).

Definition write_history (v : option (list HistoryEntry)) (ls : LocalStorage) :=
  mkLocalStorage (quran_bookmarks ls) v (quran_theme ls) (quran_user ls)
    (quran_settings ls) (quran_users ls) (quran_current_user ls) (quran_session ls).

Definition write_theme (v : option string) (ls : LocalStorage) :=
  mkLocalStorage (quran_bookmarks ls) (quran_history ls) v (quran_user ls)
    (quran_settings ls) (quran_users ls) (quran_current_user ls) (quran_session ls).

Definition write_settings (v : option Settings) (ls : LocalStorage) :=
  mkLocalStorage (quran_bookmarks ls) (quran_history ls) (quran_theme ls) (quran_user ls)
    v (quran_users ls) (quran_current_user ls) (quran_session ls).

Definition write_users (v : option (list User)) (ls : LocalStorage) :=
  mkLocalStorage (quran_bookmarks ls) (quran_history ls) (quran_theme ls) (quran_user ls)
    (quran_settings ls) v (quran_current_user ls) (quran_session ls).

Definition write_current_user (v : option SessionUser) (ls : LocalStorage) :=
  mkLocalStorage (quran_bookmarks ls) (quran_history ls) (quran_theme ls) (quran_user ls)
    (quran_settings ls) (quran_users ls) v (quran_session ls).

Definition write_session (v : option Session) (ls : LocalStorage) :=
  mkLocalStorage (quran_bookmarks ls) (quran_history ls) (quran_theme ls) (quran_user ls)
    (quran_settings ls) (quran_users ls) (quran_current_user ls) v.

(** ** [StorageManager] (storage.js) *)

Module StorageManager.

(** [setItem (key, value)]: always [true] on the ideal storage. *)
Definition setItem (w : LocalStorage -> LocalStorage) : M LocalStorage bool :=
  fun ls => (inr true, w ls).

Definition default_bookmarks : Bookmarks := mkBookmarks [] [].

(** The object literal that [initializeStorage], [getSettings] and
    [resetSettings] each spell out. *)
Definition default_settings : Settings :=
  <["autoPlayAudio" := SBool false]>
    (<["showTransliteration" := SBool true]>
      (<["showTranslation" := SBool true]>
        (<["fontSize" := SStr "medium"]>
          (<["qariPreference" := SStr ""]>
            (<["notificationsEnabled" := SBool true]> ∅))))).

(** [getTheme]: [getItem (THEME) || 'light']. *)
Definition getTheme (ls : LocalStorage) : string :=
  match quran_theme ls with
  | Some t => if truthy_str t then t else "light"
  | None => "light"
  end.

(** [getBookmarks]: [getItem (BOOKMARKS) || { surat: [], ayat: [] }]. *)
Definition getBookmarks (ls : LocalStorage) : Bookmarks :=
  match quran_bookmarks ls with
  | Some b => b
  | None => default_bookmarks
  end.

(** [getHistory]: [getItem (HISTORY) || []]. *)
Definition getHistory (ls : LocalStorage) : list HistoryEntry :=
  match quran_history ls with
  | Some h => h
  | None => []
  end.

(** [getSettings]: [getItem (SETTINGS) || { ...six defaults... }]. *)
Definition getSettings (ls : LocalStorage) : Settings :=
  match quran_settings ls with
  | Some s => s
  | None => default_settings
  end.

(** [initializeStorage]: each absent key gets its default.  A stored
    empty theme string is falsy and is overwritten as well. *)
Definition initializeStorage (ls : LocalStorage) : LocalStorage :=
  let ls := if truthy_opt (quran_bookmarks ls) then ls
            else write_bookmarks (Some default_bookmarks) ls in
  let ls := if truthy_opt (quran_history ls) then ls
            else write_history (Some []) ls in
  let ls := if truthy_opt_str (quran_theme ls) then ls
            else write_theme (Some "light"%string) ls in
  if truthy_opt (quran_settings ls) then ls
  else write_settings (Some default_settings) ls.

(** The first argument of [addBookmark] selects the branch and the second
    supplies the fields that branch reads; any other [type] string falls
    through both branches. *)
Inductive BookmarkRequest : Type :=
| BSurat (data : SuratData)
| BAyat (data : AyatData)
| BOther (type : string).

(** [addBookmark (type, data)] *)
Definition addBookmark (req : BookmarkRequest) (now : Z) : M LocalStorage bool :=
  fun ls =>
    let bookmarks := getBookmarks ls in
    let bookmarks :=
      match req with
      | BSurat data =>
          let exists_ :=
            existsb (fun s => sb_nomor s =? sd_nomor data) (surat bookmarks) in
          if negb exists_ then
            mkBookmarks
              (mkSuratBookmark (sd_nomor data) (sd_nama data) (sd_namaLatin data)
                 (sd_jumlahAyat data) (sd_tempatTurun data) now :: surat bookmarks)
              (ayat bookmarks)
          else bookmarks
      | BAyat data =>
          let exists_ :=
            existsb (fun a => (ab_suratId a =? ad_suratId data)
                              && (ab_nomorAyat a =? ad_nomorAyat data))
              (ayat bookmarks) in
          if negb exists_ then
            mkBookmarks (surat bookmarks)
              (mkAyatBookmark (ad_suratId data) (ad_suratNama data) (ad_nomorAyat data)
                 (ad_teksArab data) (ad_teksIndonesia data) now :: ayat bookmarks)
          else bookmarks
      | BOther _ => bookmarks
      end in
    setItem (write_bookmarks (Some bookmarks)) ls.

(** [addHistory (suratData)] *)
Definition addHistory (suratData : SuratData) (now : Z) : M LocalStorage bool :=
  fun ls =>
    let history := getHistory ls in
    (* Remove existing entry if exists *)
    let history :=
      filter (fun h => he_nomor h <> sd_nomor suratData) history in
    (* Add to beginning *)
    let history :=
      mkHistoryEntry (sd_nomor suratData) (sd_nama suratData)
        (sd_namaLatin suratData) now :: history in
    (* Keep only last 50 entries *)
    let history :=
      if (50 <? length history)%nat then take 50 history else history in
    setItem (write_history (Some history)) ls.

(** [updateSetting (key, value)]: [settings[key] = value]. *)
Definition updateSetting (key : string) (value : SettingValue)
  : M LocalStorage bool :=
  fun ls =>
    let settings := getSettings ls in
    setItem (write_settings (Some (<[key := value]> settings))) ls.

(** [updateSettings (newSettings)]: [{ ...currentSettings, ...newSettings }],
    the keys of [newSettings] win. *)
Definition updateSettings (newSettings : Settings) : M LocalStorage bool :=
  fun ls =>
    let currentSettings := getSettings ls in
    setItem (write_settings (Some (newSettings ∪ currentSettings))) ls.

(** [resetSettings] *)
Definition resetSettings : M LocalStorage bool :=
  setItem (write_settings (Some default_settings)).

(** The object [JSON.parse (jsonData)] yields, seen through the properties
    [importData] reads.  A property is [None] when it is missing (or
    [null]) in the payload. *)
Record ImportPayload : Type := mkImportPayload {
  p_version : option string;
  p_bookmarks : option Bookmarks;
  p_history : option (list HistoryEntry);
  p_settings : option Settings;
  p_theme : option string
}.

Definition InvalidDataFormat : Error := mkError "Invalid data format".
Definition JsonSyntaxError : Error := mkError "Unexpected token in JSON".

(** The body of the [try] block of [importData].  [parsed] is the outcome
    of [JSON.parse (jsonData)]: [None] when the text is not JSON, and then
    [JSON.parse] throws. *)
Definition importData_try (parsed : option ImportPayload) : M LocalStorage bool :=
  match parsed with
  | None => throw JsonSyntaxError
  | Some data =>
      (* Validate data structure *)
      (if negb (truthy_opt_str (p_version data)) || negb (truthy_opt (p_bookmarks data))
       then throw InvalidDataFormat else ret tt) ;;;
      (* Import bookmarks *)
      (match p_bookmarks data with
       | Some b => setItem (write_bookmarks (Some b))
       | None => ret true
       end) ;;;
      (* Import history *)
      (match p_history data with
       | Some h => setItem (write_history (Some h))
       | None => ret true
       end) ;;;
      (* Import settings *)
      (match p_settings data with
       | Some s => setItem (write_settings (Some s))
       | None => ret true
       end) ;;;
      (* Import theme *)
      (match p_theme data with
       | Some t => if truthy_str t then setItem (write_theme (Some t)) else ret true
       | None => ret true
       end) ;;;
      ret true
  end.

(** [importData (jsonData)]: the [catch] logs the error and returns
    [false]. *)
Definition importData (parsed : option ImportPayload) : M LocalStorage bool :=
  try_catch (importData_try parsed) (fun _ => ret false).

(** The storage a computation leaves behind. *)
Definition run {A} (m : M LocalStorage A) (ls : LocalStorage) : LocalStorage :=
  snd (m ls).

(** A sequence of [addHistory] calls, each with the clock reading it
    sees. *)
Fixpoint addHistory_all (calls : list (SuratData * Z)) (ls : LocalStorage)
  : LocalStorage :=
  match calls with
  | [] => ls
  | (suratData, now) :: calls => addHistory_all calls (run (addHistory suratData now) ls)
  end.

(** The two incremental operations, as the controller issues them. *)
Inductive Op : Type :=
| OpAddHistory (suratData : SuratData) (now : Z)
| OpAddBookmark (req : BookmarkRequest) (now : Z).

Definition step (ls : LocalStorage) (op : Op) : LocalStorage :=
  match op with
  | OpAddHistory suratData now => run (addHistory suratData now) ls
  | OpAddBookmark req now => run (addBookmark req now) ls
  end.

Definition run_ops (ops : list Op) (ls : LocalStorage) : LocalStorage :=
  fold_left step ops ls.

(** The storage right after the constructor ran on an empty
    [localStorage]. *)
Definition fresh_storage : LocalStorage := initializeStorage empty_storage.

(** *** The remaining operations of the store *)

(** [setTheme (theme)]: [['light', 'dark'].includes (theme)] guards the
    write. *)
Definition setTheme (theme : string) : M LocalStorage bool :=
  if existsb (String.eqb theme) ["light"; "dark"]%string
  then setItem (write_theme (Some theme))
  else ret false.

(** What [removeBookmark] and [isBookmarked] compare with.  For ['surat'] the
    identifier is the chapter number.  For ['ayat'] it is the pair that
    [identifier.split ('-').map (Number)] destructures to; a component is
    [None] when it is [undefined], [NaN] or no integer, and then it equals no
    stored number. *)
Inductive BookmarkKey : Type :=
| KSurat (identifier : Z)
| KAyat (suratId ayatNumber : option Z)
| KOther (type : string).

(** [a.suratId === suratId && a.nomorAyat === ayatNumber] *)
Definition ayat_matches (suratId ayatNumber : option Z) (a : AyatBookmark) : bool :=
  match suratId, ayatNumber with
  | Some s, Some n => (ab_suratId a =? s) && (ab_nomorAyat a =? n)
  | _, _ => false
  end.

(** [removeBookmark (type, identifier)] *)
Definition removeBookmark (key : BookmarkKey) : M LocalStorage bool :=
  fun ls =>
    let bookmarks := getBookmarks ls in
    let bookmarks :=
      match key with
      | KSurat identifier =>
          mkBookmarks
            (List.filter (fun s => negb (sb_nomor s =? identifier)) (surat bookmarks))
            (ayat bookmarks)
      | KAyat suratId ayatNumber =>
          mkBookmarks (surat bookmarks)
            (List.filter (fun a => negb (ayat_matches suratId ayatNumber a))
               (ayat bookmarks))
      | KOther _ => bookmarks
      end in
    setItem (write_bookmarks (Some bookmarks)) ls.

(** [isBookmarked (type, identifier)] *)
Definition isBookmarked (key : BookmarkKey) (ls : LocalStorage) : bool :=
  let bookmarks := getBookmarks ls in
  match key with
  | KSurat identifier => existsb (fun s => sb_nomor s =? identifier) (surat bookmarks)
  | KAyat suratId ayatNumber => existsb (ayat_matches suratId ayatNumber) (ayat bookmarks)
  | KOther _ => false
  end.

(** [clearBookmarks] *)
Definition clearBookmarks : M LocalStorage bool :=
  setItem (write_bookmarks (Some default_bookmarks)).

(** [removeFromHistory (suratId)] *)
Definition removeFromHistory (suratId : Z) : M LocalStorage bool :=
  fun ls =>
    let history := getHistory ls in
    let updatedHistory := filter (fun h => he_nomor h <> suratId) history in
    setItem (write_history (Some updatedHistory)) ls.

(** [clearHistory] *)
Definition clearHistory : M LocalStorage bool :=
  setItem (write_history (Some [])).

(** The [data] object of a backup. *)
Record DataBlock : Type := mkDataBlock {
  d_bookmarks : option Bookmarks;
  d_history : option (list HistoryEntry);
  d_settings : option Settings;
  d_theme : option string
}.

(** The [metadata] object of a backup. *)
Record Metadata : Type := mkMetadata {
  m_createdAt : string;
  m_version : string;
  m_userAgent : string
}.

(** A JSON document as [exportData] and [createBackup] write it and as
    [importData] and [restoreBackup] read it: the top-level properties
    either of them uses, [None] for a property the document lacks. *)
Record Document : Type := mkDocument {
  doc_version : option string;
  doc_bookmarks : option Bookmarks;
  doc_history : option (list HistoryEntry);
  doc_settings : option Settings;
  doc_theme : option string;
  doc_exportDate : option string;
  doc_data : option DataBlock;
  doc_metadata : option Metadata
}.

(** The properties of a document that [importData] reads. *)
Definition as_import (d : Document) : ImportPayload :=
  mkImportPayload (doc_version d) (doc_bookmarks d) (doc_history d)
    (doc_settings d) (doc_theme d).

(** [exportData]: the document whose text it returns; [exportDate] is
    [new Date ().toISOString ()]. *)
Definition exportData (exportDate : string) (ls : LocalStorage) : Document :=
  mkDocument (Some "1.0"%string) (Some (getBookmarks ls)) (Some (getHistory ls))
    (Some (getSettings ls)) (Some (getTheme ls)) (Some exportDate) None None.

(** [createBackup]: the document whose text it returns. *)
Definition createBackup (createdAt userAgent : string) (ls : LocalStorage)
  : Document :=
  mkDocument None None None None None None
    (Some (mkDataBlock (Some (getBookmarks ls)) (Some (getHistory ls))
             (Some (getSettings ls)) (Some (getTheme ls))))
    (Some (mkMetadata createdAt "1.0" userAgent)).

Definition InvalidBackupFormat : Error := mkError "Invalid backup format".

(** The body of the [try] block of [restoreBackup]. *)
Definition restoreBackup_try (parsed : option Document) : M LocalStorage bool :=
  match parsed with
  | None => throw JsonSyntaxError
  | Some backup =>
      match doc_data backup, doc_metadata backup with
      | Some data, Some _ =>
          (match d_bookmarks data with
           | Some b => setItem (write_bookmarks (Some b))
           | None => ret true
           end) ;;;
          (match d_history data with
           | Some h => setItem (write_history (Some h))
           | None => ret true
           end) ;;;
          (match d_settings data with
           | Some s => setItem (write_settings (Some s))
           | None => ret true
           end) ;;;
          (match d_theme data with
           | Some t => if truthy_str t then setItem (write_theme (Some t)) else ret true
           | None => ret true
           end) ;;;
          ret true
      | _, _ => throw InvalidBackupFormat
      end
  end.

(** [restoreBackup (backupData)] *)
Definition restoreBackup (parsed : option Document) : M LocalStorage bool :=
  try_catch (restoreBackup_try parsed) (fun _ => ret false).

(** [clearAllData]: every key of [this.keys] is removed, then the defaults
    are written again. *)
Definition clearAllData : M LocalStorage bool :=
  fun ls =>
    let ls :=
      mkLocalStorage None None None None None
        (quran_users ls) (quran_current_user ls) (quran_session ls) in
    (inr true, initializeStorage ls).

(** [cleanupOldData]: history older than six months goes; a bookmark whose
    [timestamp] is falsy (0) gets the clock reading. *)
Definition cleanupOldData (now : Z) : M LocalStorage unit :=
  fun ls =>
    let sixMonthsAgo := now - 6 * 30 * 24 * 60 * 60 * 1000 in
    let history := getHistory ls in
    let recentHistory := filter (fun item => sixMonthsAgo < he_timestamp item) history in
    let ls :=
      if negb (length recentHistory =? length history)%nat
      then write_history (Some recentHistory) ls else ls in
    let bookmarks := getBookmarks ls in
    let updated :=
      existsb (fun s => sb_timestamp s =? 0) (surat bookmarks)
      || existsb (fun a => ab_timestamp a =? 0) (ayat bookmarks) in
    let stamp_surat (s : SuratBookmark) :=
      if sb_timestamp s =? 0
      then mkSuratBookmark (sb_nomor s) (sb_nama s) (sb_namaLatin s)
             (sb_jumlahAyat s) (sb_tempatTurun s) now
      else s in
    let stamp_ayat (a : AyatBookmark) :=
      if ab_timestamp a =? 0
      then mkAyatBookmark (ab_suratId a) (ab_suratNama a) (ab_nomorAyat a)
             (ab_teksArab a) (ab_teksIndonesia a) now
      else a in
    let bookmarks :=
      mkBookmarks (stamp_surat <$> surat bookmarks) (stamp_ayat <$> ayat bookmarks) in
    (inr tt, if updated then write_bookmarks (Some bookmarks) ls else ls).

(** [searchBookmarks (query)] *)
Definition searchBookmarks (query : string) (ls : LocalStorage) : Bookmarks :=
  let bookmarks := getBookmarks ls in
  let searchTerm := JsString.toLowerCase query in
  mkBookmarks
    (List.filter
       (fun s => JsString.includes (JsString.toLowerCase (sb_namaLatin s)) searchTerm
                 || JsString.includes (sb_nama s) searchTerm)
       (surat bookmarks))
    (List.filter
       (fun a => JsString.includes (JsString.toLowerCase (ab_suratNama a)) searchTerm
                 || JsString.includes (JsString.toLowerCase (ab_teksIndonesia a)) searchTerm)
       (ayat bookmarks)).

(** [searchHistory (query)] *)
Definition searchHistory (query : string) (ls : LocalStorage) : list HistoryEntry :=
  let history := getHistory ls in
  let searchTerm := JsString.toLowerCase query in
  List.filter
    (fun item => JsString.includes (JsString.toLowerCase (he_namaLatin item)) searchTerm
                 || JsString.includes (he_nama item) searchTerm)
    history.

(** *** Statistics *)

(** [suratCount[item.nomor] = (suratCount[item.nomor] || 0) + 1] on the
    properties of [suratCount] in the order of their creation. *)
Fixpoint bump (k : Z) (counts : list (Z * nat)) : list (Z * nat) :=
  match counts with
  | [] => [(k, 1%nat)]
  | (k', c) :: rest =>
      if k' =? k then (k', S c) :: rest else (k', c) :: bump k rest
  end.

(** The object [suratCount] after the [forEach] over the history. *)
Definition count_visits (history : list HistoryEntry) : list (Z * nat) :=
  fold_left (fun counts item => bump (he_nomor item) counts) history [].

(** A property key that is an array index: the decimal form of an integer
    from 0 to 2^32 - 2. *)
Definition array_index (k : Z) : Prop := 0 <= k < 2 ^ 32 - 1.

#[global] Instance array_index_dec k : Decision (array_index k).
Proof. unfold array_index. apply _. Defined.

Definition key_le (a b : Z * nat) : Prop := a.1 <= b.1.

#[global] Instance key_le_dec a b : Decision (key_le a b).
Proof. unfold key_le. apply _. Defined.

(** [Object.entries (suratCount)]: the array-index keys in ascending
    numeric order, then the other keys in the order of their creation. *)
Definition object_entries (counts : list (Z * nat)) : list (Z * nat) :=
  merge_sort key_le (filter (fun p => array_index p.1) counts)
  ++ filter (fun p => ~ array_index p.1) counts.

(** [{ ...mostRead, readCount: maxCount }] *)
Record MostRead : Type := mkMostRead {
  mr_entry : HistoryEntry;
  mr_readCount : nat
}.

(** One round of the [forEach] over the entries: the state is
    [(mostRead, maxCount)]. *)
Definition scan_step (history : list HistoryEntry)
    (acc : option HistoryEntry * nat) (entry : Z * nat)
  : option HistoryEntry * nat :=
  if (acc.2 <? entry.2)%nat
  then (List.find (fun h => he_nomor h =? entry.1) history, entry.2)
  else acc.

(** [getMostReadSurat (history)] *)
Definition getMostReadSurat (history : list HistoryEntry) : option MostRead :=
  match history with
  | [] => None
  | _ =>
      let r := fold_left (scan_step history) (object_entries (count_visits history))
                 (None, 0%nat) in
      match r.1 with
      | Some mostRead => Some (mkMostRead mostRead r.2)
      | None => None
      end
  end.

(** [getLastActivity (history)] *)
Definition getLastActivity (history : list HistoryEntry) : option HistoryEntry :=
  head history.

End StorageManager.


(** ** [AuthManager] (auth.js) *)

Module AuthManager.
Import JsString.

Definition err_required : Error := mkError "Username dan password harus diisi".
Definition err_username_short : Error := mkError "Username minimal 3 karakter".
Definition err_password_short : Error := mkError "Password minimal 6 karakter".
Definition err_username_taken : Error := mkError "Username sudah digunakan".
Definition err_username_unknown : Error := mkError "Username tidak ditemukan".
Definition err_inactive : Error := mkError "Akun tidak aktif".
Definition err_wrong_password : Error := mkError "Password salah".
Definition err_not_logged_in : Error := mkError "User tidak login".
Definition err_passwords_required : Error :=
  mkError "Password lama dan baru harus diisi".
Definition err_new_password_short : Error :=
  mkError "Password baru minimal 6 karakter".
Definition err_user_missing : Error := mkError "User tidak ditemukan".
Definition err_old_password_wrong : Error := mkError "Password lama salah".

(** [getStorageItem (USERS) || []] *)
Definition getUsers (ls : LocalStorage) : list User :=
  match quran_users ls with
  | Some us => us
  | None => []
  end.

Definition salt : string := "quran_app_salt_2024".

(** The loop of [hashPassword]:
    [hash = ((hash << 5) - hash) + char; hash = hash & hash]. *)
Fixpoint hash_loop (combined : string) (hash : Z) : Z :=
  match combined with
  | EmptyString => hash
  | String c rest =>
      let char := code c in
      let hash := to_int32 (hash * 32) - hash + char in
      hash_loop rest (to_int32 hash)
  end.

(** [hashPassword (password)] *)
Definition hashPassword (password : string) : string :=
  toString (hash_loop (password +:+ salt) 0).

(** [verifyPassword (password, hashedPassword)] *)
Definition verifyPassword (password hashedPassword : string) : bool :=
  bool_decide (hashPassword password = hashedPassword).

(** [user.password = p] *)
Definition set_password (user : User) (p : string) : User :=
  mkUser (u_id user) (u_username user) p (u_createdAt user) (u_lastLogin user)
    (u_isActive user) (u_profile user) (u_mustChangePassword user).

(** [user.lastLogin = t] *)
Definition set_lastLogin (user : User) (t : Z) : User :=
  mkUser (u_id user) (u_username user) (u_password user) (u_createdAt user) (Some t)
    (u_isActive user) (u_profile user) (u_mustChangePassword user).

(** [logout] *)
Definition logout : M LocalStorage bool :=
  fun ls => (inr true, write_session None (write_current_user None ls)).

(** [isSessionValid (session)] on a session that is present. *)
Definition isSessionValid (session : Session) (now : Z) : bool :=
  if negb (s_isValid session) then false
  else if s_expiresAt session <? now then false
  else true.

(** [getCurrentUser] *)
Definition getCurrentUser (now : Z) : M LocalStorage (option SessionUser) :=
  s <- get ;;
  match quran_session s with
  | Some session =>
      if isSessionValid session now then ret (quran_current_user s)
      else (logout ;;; ret None)
  | None => logout ;;; ret None
  end.

(** [createUserSession (user)] *)
Definition createUserSession (user : User) (now : Z) : M LocalStorage SessionUser :=
  let displayName :=
    match u_profile user with
    | Some p => match p !! "displayName" with
                | Some d => if truthy_str d then d else u_username user
                | None => u_username user
                end
    | None => u_username user
    end in
  let sessionUser :=
    mkSessionUser (u_id user) (u_username user) displayName
      (match u_profile user with Some p => p | None => ∅ end) now in
  let session :=
    mkSession (u_id user) now (now + 24 * 60 * 60 * 1000) true in
  modify (write_current_user (Some sessionUser)) ;;;
  modify (write_session (Some session)) ;;;
  ret sessionUser.

(** The predicate of the [find] in [register], [login] and
    [resetPassword]. *)
Definition same_username (username : string) (u : User) : Prop :=
  toLowerCase (u_username u) = toLowerCase username.

#[global] Instance same_username_dec username u : Decision (same_username username u).
Proof. unfold same_username. apply _. Defined.

(** The object literal [newUser] of [register]; [newId] is what
    [generateUserId ()] returns. *)
Definition newUser (username password : string) (newId : string) (now : Z) : User :=
  mkUser newId (trim username) (hashPassword password) now None true
    (Some (<["displayName" := trim username]>
             (<["preferredQari" := ""%string]>
                (<["fontSize" := "medium"%string]>
                   (<["theme" := "light"%string]> ∅)))))
    false.

(** [register (username, password)] *)
Definition register (username password : string) (newId : string) (now : Z)
  : M LocalStorage SessionUser :=
  (* Validation *)
  (if negb (truthy_str username) || negb (truthy_str password)
   then throw err_required else ret tt) ;;;
  (if (String.length username <? 3)%nat
   then throw err_username_short else ret tt) ;;;
  (if (String.length password <? 6)%nat
   then throw err_password_short else ret tt) ;;;
  (* Check if username already exists *)
  s <- get ;;
  let users := getUsers s in
  match list_find (same_username username) users with
  | Some _ => throw err_username_taken
  | None =>
      (* Create new user *)
      let newUser := newUser username password newId now in
      (* Save user *)
      modify (write_users (Some (users ++ [newUser]))) ;;;
      (* Auto login after registration *)
      createUserSession newUser now
  end.

(** [login (username, password)].  [users.find] hands out the array's own
    object, so the assignment to [user.lastLogin] already changes the
    array at the index where the account was found; [users[userIndex] =
    user] then stores it at the first index holding its id. *)
Definition login (username password : string) (now : Z)
  : M LocalStorage SessionUser :=
  (if negb (truthy_str username) || negb (truthy_str password)
   then throw err_required else ret tt) ;;;
  s <- get ;;
  let users := getUsers s in
  match list_find (same_username username) users with
  | None => throw err_username_unknown
  | Some (i, user) =>
      if negb (u_isActive user) then throw err_inactive
      else if negb (verifyPassword password (u_password user))
      then throw err_wrong_password
      else
        (* Update last login *)
        let user := set_lastLogin user now in
        let users := <[i := user]> users in
        let users :=
          match list_find (fun u => u_id u = u_id user) users with
          | Some (userIndex, _) => <[userIndex := user]> users
          | None => users
          end in
        modify (write_users (Some users)) ;;;
        (* Create session *)
        createUserSession user now
  end.

(** [changePassword (currentPassword, newPassword)].  [find] and
    [findIndex] run the same predicate, so [userIndex] is the index of
    [user]. *)
Definition changePassword (currentPassword newPassword : string) (now : Z)
  : M LocalStorage bool :=
  currentUser <- getCurrentUser now ;;
  match currentUser with
  | None => throw err_not_logged_in
  | Some currentUser =>
      (if negb (truthy_str currentPassword) || negb (truthy_str newPassword)
       then throw err_passwords_required else ret tt) ;;;
      (if (String.length newPassword <? 6)%nat
       then throw err_new_password_short else ret tt) ;;;
      s <- get ;;
      let users := getUsers s in
      match list_find (fun u => u_id u = su_id currentUser) users with
      | None => throw err_user_missing
      | Some (userIndex, user) =>
          if negb (verifyPassword currentPassword (u_password user))
          then throw err_old_password_wrong
          else
            (* Update password *)
            let user := set_password user (hashPassword newPassword) in
            modify (write_users (Some (<[userIndex := user]> users))) ;;;
            ret true
      end
  end.

(** *** The remaining operations of the account simulator *)

Definition err_confirm_required : Error :=
  mkError "Password harus diisi untuk konfirmasi".

(** [validateSession] *)
Definition validateSession (now : Z) : M LocalStorage bool :=
  s <- get ;;
  match quran_session s with
  | Some session =>
      if isSessionValid session now then ret true
      else (logout ;;; ret false)
  | None => logout ;;; ret false
  end.

(** [initializeAuth]: an absent accounts list becomes the empty list, then
    the stored session is validated. *)
Definition initializeAuth (now : Z) : M LocalStorage bool :=
  s <- get ;;
  (if truthy_opt (quran_users s) then ret tt
   else modify (write_users (Some []))) ;;;
  validateSession now.

(** [isLoggedIn] *)
Definition isLoggedIn (now : Z) : M LocalStorage bool :=
  currentUser <- getCurrentUser now ;;
  ret (truthy_opt currentUser).

(** [extendSession] *)
Definition extendSession (now : Z) : M LocalStorage bool :=
  s <- get ;;
  match quran_session s with
  | Some session =>
      if isSessionValid session now then
        let session :=
          mkSession (s_userId session) (s_createdAt session)
            (now + 24 * 60 * 60 * 1000) (s_isValid session) in
        modify (write_session (Some session)) ;;;
        ret true
      else ret false
  | None => ret false
  end.

(** [user.profile = p] *)
Definition set_profile (user : User) (p : Profile) : User :=
  mkUser (u_id user) (u_username user) (u_password user) (u_createdAt user)
    (u_lastLogin user) (u_isActive user) (Some p) (u_mustChangePassword user).

(** [updateProfile (profileData)]: [{ ...profile, ...profileData }]; the keys
    of [profileData] win, and an absent profile spreads as nothing. *)
Definition updateProfile (profileData : Profile) (now : Z) : M LocalStorage bool :=
  currentUser <- getCurrentUser now ;;
  match currentUser with
  | None => throw err_not_logged_in
  | Some currentUser =>
      s <- get ;;
      let users := getUsers s in
      match list_find (fun u => u_id u = su_id currentUser) users with
      | None => throw err_user_missing
      | Some (userIndex, user) =>
          (* Update user profile *)
          let profile := profileData ∪ default ∅ (u_profile user) in
          let users := <[userIndex := set_profile user profile]> users in
          (* Update current user session *)
          let displayName :=
            match profileData !! "displayName" with
            | Some d => if truthy_str d then d else su_displayName currentUser
            | None => su_displayName currentUser
            end in
          let currentUser :=
            mkSessionUser (su_id currentUser) (su_username currentUser) displayName
              profile (su_loginTime currentUser) in
          (* Save updates *)
          modify (write_users (Some users)) ;;;
          modify (write_current_user (Some currentUser)) ;;;
          ret true
      end
  end.

(** [deleteAccount (password)] *)
Definition deleteAccount (password : string) (now : Z) : M LocalStorage bool :=
  currentUser <- getCurrentUser now ;;
  match currentUser with
  | None => throw err_not_logged_in
  | Some currentUser =>
      (if negb (truthy_str password) then throw err_confirm_required else ret tt) ;;;
      s <- get ;;
      let users := getUsers s in
      match list_find (fun u => u_id u = su_id currentUser) users with
      | None => throw err_user_missing
      | Some (_, user) =>
          if negb (verifyPassword password (u_password user))
          then throw err_wrong_password
          else
            (* Remove user from users array *)
            let updatedUsers := filter (fun u => u_id u <> su_id currentUser) users in
            modify (write_users (Some updatedUsers)) ;;;
            (* Logout current user *)
            logout ;;;
            ret true
      end
  end.

(** [isUsernameAvailable (username)] *)
Definition isUsernameAvailable (username : string) (ls : LocalStorage) : bool :=
  negb (bool_decide (Exists (same_username username) (getUsers ls))).

(** [resetPassword (username)]; [tempPassword] is what
    [generateTempPassword ()] returns. *)
Definition resetPassword (username : string) (tempPassword : string)
  : M LocalStorage string :=
  s <- get ;;
  let users := getUsers s in
  match list_find (same_username username) users with
  | None => throw err_username_unknown
  | Some (userIndex, user) =>
      let user :=
        mkUser (u_id user) (u_username user) (hashPassword tempPassword)
          (u_createdAt user) (u_lastLogin user) (u_isActive user) (u_profile user)
          true in
      modify (write_users (Some (<[userIndex := user]> users))) ;;;
      ret tempPassword
  end.

(** [clearAllAuthData] *)
Definition clearAllAuthData (now : Z) : M LocalStorage bool :=
  modify (write_users None) ;;;
  modify (write_current_user None) ;;;
  modify (write_session None) ;;;
  initializeAuth now.

End AuthManager.

(** ** [QuranAPI] (api.js) *)

Module QuranAPI.
Import JsString.

(** A verse as [getSuratDetail] returns it.  [audio] is the per-reciter
    dictionary of the upstream response, absent when the response has
    none. *)
Record Ayat : Type := mkAyat {
  nomorAyat : Z;
  teksArab : string;
  teksLatin : string;
  teksIndonesia : string;
  audio : option (gmap string string)
}.

Record SuratDetail : Type := mkSuratDetail {
  nomor : Z;
  nama : string;
  namaLatin : string;
  jumlahAyat : Z;
  tempatTurun : string;
  arti : string;
  deskripsi : string;
  audioFull : gmap string string;
  ayat : list Ayat
}.

(** [this.qariMapping] *)
Definition qariMapping : gmap string string :=
  <["abdullah_al_juhany" := "01"%string]>
    (<["abdul_muhsin_al_qasim" := "02"%string]>
      (<["abdurrahman_as_sudais" := "03"%string]>
        (<["ibrahim_al_dossari" := "04"%string]>
          (<["misyari_rasyid_al_afasy" := "05"%string]> ∅)))).

Definition err_invalid_id : Error := mkError "ID surat tidak valid".
Definition err_invalid_qari : Error := mkError "Qari tidak valid".
Definition err_no_audio : Error := mkError "Audio tidak tersedia untuk ayat ini".

(** [throw new Error (`${prefix}${error.message}`)] *)
Definition rethrow {A} (prefix : string) (r : Error + A) : Error + A :=
  match r with
  | inl e => inl (mkError (prefix +:+ message e))
  | inr a => inr a
  end.

(** [String (n).padStart (3, '0')] *)
Definition pad3 (n : Z) : string :=
  let s := toString n in
  match String.length s with
  | O => "000" +:+ s
  | S O => "00" +:+ s
  | S (S O) => "0" +:+ s
  | _ => s
  end.

(** The reciter directory names of the second [getAudioUrl]. *)
Definition qariNames : gmap string string :=
  <["abdullah_al_juhany" := "Abdullah-Al-Juhany"%string]>
    (<["abdul_muhsin_al_qasim" := "Abdul-Muhsin-Al-Qasim"%string]>
      (<["abdurrahman_as_sudais" := "Abdurrahman-as-Sudais"%string]>
        (<["ibrahim_al_dossari" := "Ibrahim-Al-Dossari"%string]>
          (<["misyari_rasyid_al_afasy" := "Misyari-Rasyid-Al-Afasi"%string]> ∅)))).

(** [getAudioUrl (suratId, ayatNumber, qariKey)], the second of the two
    methods of that name (in a class body the later one is the method). *)
Definition getAudioUrl (suratId ayatNumber : Z) (qariKey : string)
  : Error + string :=
  match qariMapping !! qariKey with
  | None => inl err_invalid_qari
  | Some qariId =>
      if negb (truthy_str qariId) then inl err_invalid_qari
      else
        let qariName := default "undefined"%string (qariNames !! qariKey) in
        inr ("https://cdn.equran.id/audio-partial/" +:+ qariName +:+ "/"
             +:+ pad3 suratId +:+ pad3 ayatNumber +:+ ".mp3")
  end.

Section Remote.

(** [fetchAPI (`/surat/${suratId}`)]: the upstream service's answer,
    an error when the transport or the API fails. *)
Variable fetchSurat : Z -> Error + SuratDetail.

(** [getSuratDetail (suratId)].  The object it returns copies the fields
    of the response one by one, the verses likewise. *)
Definition getSuratDetail (suratId : Z) : Error + SuratDetail :=
  rethrow "Gagal memuat detail surat: "
    (if (suratId =? 0) || (suratId <? 1) || (114 <? suratId)
     then inl err_invalid_id
     else fetchSurat suratId).

(** [getAyatAudioUrl (suratId, ayatNumber, qariKey)].  The result is
    [None] when the method returns [undefined].  An [undefined]
    [qariId] used as a property key reads the property named
    ["undefined"]. *)
Definition getAyatAudioUrl (suratId ayatNumber : Z) (qariKey : string)
  : Error + option string :=
  rethrow "Gagal mendapatkan URL audio: "
    (match getSuratDetail suratId with
     | inl e => inl e
     | inr suratDetail =>
         match List.find (fun a => nomorAyat a =? ayatNumber) (ayat suratDetail) with
         | None => inl err_no_audio
         | Some a =>
             match audio a with
             | None => inl err_no_audio
             | Some audio =>
                 let qariId := qariMapping !! qariKey in
                 inr (audio !! default "undefined"%string qariId)
             end
         end
     end).

End Remote.

(** *** The response cache *)

Section Cache.

(** [T]: what the producer resolves to.  [W]: the world the producer
    works in (network, clock); [clock w] is [Date.now ()] in [w]. *)
Context {T W : Type}.
Variable clock : W -> Z.

(** [{ data, timestamp }] *)
Record CacheEntry : Type := mkCacheEntry {
  data : T;
  timestamp : Z
}.

(** The state [getCachedData] runs in: [this._cache] and the world. *)
Definition CacheState : Type := gmap string CacheEntry * W.

(** [getCachedData (key, fetchFunction)].  A rejected [fetchFunction]
    rejects the call after the expired entry is gone. *)
Definition getCachedData (key : string) (fetchFunction : W -> (Error + T) * W)
  : M CacheState T :=
  fun '(cache, w) =>
    let fetch (cache : gmap string CacheEntry) :=
      match fetchFunction w with
      | (inl e, w') => (inl e, (cache, w'))
      | (inr data, w') =>
          (inr data, (<[key := mkCacheEntry data (clock w')]> cache, w'))
      end in
    match cache !! key with
    | Some cached =>
        (* Cache valid for 1 hour *)
        if clock w - timestamp cached <? 3600000
        then (inr (data cached), (cache, w))
        else fetch (delete key cache)
    | None => fetch cache
    end.

End Cache.

(** [clearCache] *)
Definition clearCache {T W : Type} (st : CacheState (T := T) (W := W))
  : CacheState (T := T) (W := W) :=
  (∅, snd st).

(** *** Lists and search *)

(** A chapter as [getSuratList] returns it. *)
Record SuratSummary : Type := mkSuratSummary {
  ss_nomor : Z;
  ss_nama : string;
  ss_namaLatin : string;
  ss_jumlahAyat : Z;
  ss_tempatTurun : string;
  ss_arti : string;
  ss_deskripsi : string
}.

(** One commentary entry. *)
Record TafsirEntry : Type := mkTafsirEntry {
  tf_ayat : Z;
  tf_teks : string
}.

Record TafsirDetail : Type := mkTafsirDetail {
  td_nomor : Z;
  td_nama : string;
  td_namaLatin : string;
  td_jumlahAyat : Z;
  td_tempatTurun : string;
  td_arti : string;
  td_deskripsi : string;
  td_tafsir : list TafsirEntry
}.

Definition err_list_failed : Error := mkError "Gagal memuat daftar surat Al-Qur'an".

Section RemoteLists.

(** [fetchAPI ('/surat')] and [fetchAPI (`/tafsir/${suratId}`)]. *)
Variable fetchList : Error + list SuratSummary.
Variable fetchTafsir : Z -> Error + TafsirDetail.
Variable fetchSurat : Z -> Error + SuratDetail.

(** [getSuratList]: whatever fails, the error thrown is the fixed one. *)
Definition getSuratList : Error + list SuratSummary :=
  match fetchList with
  | inl _ => inl err_list_failed
  | inr data => inr data
  end.

(** [getTafsir (suratId)] *)
Definition getTafsir (suratId : Z) : Error + TafsirDetail :=
  rethrow "Gagal memuat tafsir: "
    (if (suratId =? 0) || (suratId <? 1) || (114 <? suratId)
     then inl err_invalid_id
     else fetchTafsir suratId).

(** The predicate of the [filter] in [searchSurat]. *)
Definition surat_matches (searchTerm : string) (surat : SuratSummary) : bool :=
  includes (toLowerCase (ss_nama surat)) searchTerm
  || includes (toLowerCase (ss_namaLatin surat)) searchTerm
  || includes (toLowerCase (ss_arti surat)) searchTerm
  || includes (toString (ss_nomor surat)) searchTerm.

(** [searchSurat (query)] *)
Definition searchSurat (query : string) : Error + list SuratSummary :=
  rethrow "Gagal melakukan pencarian: "
    (match getSuratList with
     | inl e => inl e
     | inr allSurat =>
         let searchTerm := toLowerCase query in
         inr (List.filter (surat_matches searchTerm) allSurat)
     end).

(** The predicate of the [filter] in [searchAyatInSurat]. *)
Definition ayat_matches (query : string) (a : Ayat) : bool :=
  let searchTerm := toLowerCase query in
  includes (toLowerCase (teksIndonesia a)) searchTerm
  || includes (toLowerCase (teksLatin a)) searchTerm
  || includes (teksArab a) query
  || includes (toString (nomorAyat a)) query.

(** [searchAyatInSurat (suratId, query)] *)
Definition searchAyatInSurat (suratId : Z) (query : string) : Error + list Ayat :=
  rethrow "Gagal mencari ayat: "
    (match getSuratDetail fetchSurat suratId with
     | inl e => inl e
     | inr suratDetail => inr (List.filter (ayat_matches query) (ayat suratDetail))
     end).

(** [getMultipleSurat (suratIds)]: [Promise.allSettled] keeps every
    outcome; the rejected ones become [null] and are filtered out. *)
Definition getMultipleSurat (suratIds : list Z) : list SuratDetail :=
  omap (fun id => match getSuratDetail fetchSurat id with
                  | inr detail => Some detail
                  | inl _ => None
                  end) suratIds.

End RemoteLists.

End QuranAPI.

(** ** [Utils] (utils.js) *)

Module Utils.
Import JsString.

(** [truncateText (text, maxLength, suffix)] *)
Definition truncateText (text : string) (maxLength : Z) (suffix : string) : string :=
  if negb (truthy_str text) || (Z.of_nat (String.length text) <=? maxLength)
  then text
  else substring0 text (maxLength - Z.of_nat (String.length suffix)) +:+ suffix.

(** [formatRelativeTime (timestamp)] with [Date.now ()] as [now]. *)
Definition formatRelativeTime (timestamp now : Z) : string :=
  let diff := now - timestamp in
  let minute := 60 * 1000 in
  let hour := minute * 60 in
  let day := hour * 24 in
  let week := day * 7 in
  let month := day * 30 in
  if diff <? minute then "Baru saja"
  else if diff <? hour then toString (diff / minute) +:+ " menit yang lalu"
  else if diff <? day then toString (diff / hour) +:+ " jam yang lalu"
  else if diff <? week then toString (diff / day) +:+ " hari yang lalu"
  else if diff <? month then toString (diff / week) +:+ " minggu yang lalu"
  else toString (diff / month) +:+ " bulan yang lalu".

End Utils.

(** ** [QuranApp] (the application script): the handlers that drive the store *)

Module QuranApp.
Import JsString.

(** What a handler asks of the presentation layer. *)
Inductive UiCall : Type :=
| UpdateAuthUI (user : option SessionUser)
| HideModal (id : string)
| ShowNotification (message type : string)
| UpdateBookmarkButton (id : string) (active : bool).

(** [handleLogin]: the two arguments are the values of the form fields. *)
Definition handleLogin (usernameField passwordField : string) (now : Z)
  : M LocalStorage (list UiCall) :=
  let username := trim usernameField in
  let password := trim passwordField in
  if negb (truthy_str username) || negb (truthy_str password)
  then ret [ShowNotification "Username dan password harus diisi" "error"]
  else
    try_catch
      (user <- AuthManager.login username password now ;;
       ret [UpdateAuthUI (Some user); HideModal "auth-modal";
            ShowNotification ("Selamat datang, " +:+ su_username user +:+ "!") "success"])
      (fun error => ret [ShowNotification (message error) "error"]).

(** [handleRegister]: the three arguments are the values of the form
    fields; [newId] is what [generateUserId ()] returns. *)
Definition handleRegister (usernameField passwordField confirmField : string)
    (newId : string) (now : Z) : M LocalStorage (list UiCall) :=
  let username := trim usernameField in
  let password := trim passwordField in
  let confirmPassword := trim confirmField in
  if negb (truthy_str username) || negb (truthy_str password)
     || negb (truthy_str confirmPassword)
  then ret [ShowNotification "Semua field harus diisi" "error"]
  else if negb (String.eqb password confirmPassword)
  then ret [ShowNotification "Password tidak sama" "error"]
  else if (String.length password <? 6)%nat
  then ret [ShowNotification "Password minimal 6 karakter" "error"]
  else
    try_catch
      (user <- AuthManager.register username password newId now ;;
       ret [UpdateAuthUI (Some user); HideModal "auth-modal";
            ShowNotification ("Akun " +:+ su_username user +:+ " berhasil dibuat!")
              "success"])
      (fun error => ret [ShowNotification (message error) "error"]).

(** [toggleSuratBookmark]; [currentSurat] is [this.state.currentSurat]. *)
Definition toggleSuratBookmark (currentSurat : option SuratData) (now : Z)
  : M LocalStorage (list UiCall) :=
  match currentSurat with
  | None => ret []
  | Some currentSurat =>
      s <- get ;;
      let bookmarks := StorageManager.getBookmarks s in
      let suratId := sd_nomor currentSurat in
      let isBookmarked := existsb (fun b => sb_nomor b =? suratId) (surat bookmarks) in
      if isBookmarked then
        StorageManager.removeBookmark (StorageManager.KSurat suratId) ;;;
        ret [ShowNotification "Bookmark surat dihapus" "info";
             UpdateBookmarkButton "bookmark-surat" (negb isBookmarked)]
      else
        StorageManager.addBookmark (StorageManager.BSurat currentSurat) now ;;;
        ret [ShowNotification "Surat ditambahkan ke bookmark" "success";
             UpdateBookmarkButton "bookmark-surat" (negb isBookmarked)]
  end.

End QuranApp.

(** ** The properties the specification states, as predicates *)

Module Props.
Import StorageManager.

Definition chapter_ids (h : list HistoryEntry) : list Z := he_nomor <$> h.

(** The entry [addHistory] puts at the front. *)
Definition fresh_entry (d : SuratData) (now : Z) : HistoryEntry :=
  mkHistoryEntry (sd_nomor d) (sd_nama d) (sd_namaLatin d) now.

(** Most recent first: every entry is at least as recent as the entries
    after it. *)
Definition most_recent_first (h : list HistoryEntry) : Prop :=
  StronglySorted (fun a b => he_timestamp b <= he_timestamp a) h.

(** The history invariant of spec section 3. *)
Definition history_ok (h : list HistoryEntry) : Prop :=
  NoDup (chapter_ids h) /\ (length h <= 50)%nat /\ most_recent_first h.

(** No stored timestamp is later than [t]. *)
Definition not_after (t : Z) (h : list HistoryEntry) : Prop :=
  Forall (fun e => he_timestamp e <= t) h.

(** The clock readings of a sequence of calls never go back, starting
    from [t]. *)
Fixpoint clock_from (t : Z) (calls : list (SuratData * Z)) : Prop :=
  match calls with
  | [] => True
  | (_, now) :: calls => t <= now /\ clock_from now calls
  end.

(** How many entries the history holds for chapter [n]. *)
Definition history_count (n : Z) (h : list HistoryEntry) : nat :=
  length (filter (fun e => he_nomor e = n) h).

(** How many chapter-level bookmarks carry ordinal [n]. *)
Definition surat_count (n : Z) (b : Bookmarks) : nat :=
  length (filter (fun s => sb_nomor s = n) (surat b)).

(** How many verse-level bookmarks carry the pair [(sid, n)]. *)
Definition ayat_count (sid n : Z) (b : Bookmarks) : nat :=
  length (filter (fun a => ab_suratId a = sid /\ ab_nomorAyat a = n) (ayat b)).

Definition surat_bookmark (d : SuratData) (now : Z) : SuratBookmark :=
  mkSuratBookmark (sd_nomor d) (sd_nama d) (sd_namaLatin d) (sd_jumlahAyat d)
    (sd_tempatTurun d) now.

Definition ayat_bookmark (d : AyatData) (now : Z) : AyatBookmark :=
  mkAyatBookmark (ad_suratId d) (ad_suratNama d) (ad_nomorAyat d) (ad_teksArab d)
    (ad_teksIndonesia d) now.

(** The chapter is stored already. *)
Definition has_surat (n : Z) (b : Bookmarks) : bool :=
  existsb (fun s => sb_nomor s =? n) (surat b).

(** The verse is stored already. *)
Definition has_ayat (sid n : Z) (b : Bookmarks) : bool :=
  existsb (fun a => (ab_suratId a =? sid) && (ab_nomorAyat a =? n)) (ayat b).

Definition ayat_key (a : AyatBookmark) : Z * Z := (ab_suratId a, ab_nomorAyat a).

(** At most one bookmark per uniqueness key. *)
Definition bookmarks_unique (b : Bookmarks) : Prop :=
  NoDup (sb_nomor <$> surat b) /\ NoDup (ayat_key <$> ayat b).

(** What [addHistory] and [addBookmark] maintain. *)
Definition store_ok (ls : LocalStorage) : Prop :=
  NoDup (chapter_ids (getHistory ls))
  /\ (length (getHistory ls) <= 50)%nat
  /\ bookmarks_unique (getBookmarks ls).

(** The six keys of the settings record. *)
Definition setting_keys : list string :=
  ["autoPlayAudio"; "showTransliteration"; "showTranslation";
   "fontSize"; "qariPreference"; "notificationsEnabled"]%string.

Definition fully_populated (s : Settings) : Prop :=
  Forall (fun k => is_Some (s !! k)) setting_keys.

(** The count stored under key [k], 0 when the key is absent. *)
Definition count_of (k : Z) (counts : list (Z * nat)) : nat :=
  match List.find (fun p => p.1 =? k) counts with
  | Some p => p.2
  | None => 0%nat
  end.

(** One of the two themes. *)
Definition valid_theme (t : string) : Prop := t = "light"%string \/ t = "dark"%string.

End Props.

(** ** Sample data for the concrete instances *)

Module Samples.
Import StorageManager.

Definition al_fatihah : SuratData := mkSuratData 1 "Al-Fatihah" "Al-Fatihah" 7 "Mekah".
Definition al_baqarah : SuratData := mkSuratData 2 "Al-Baqarah" "Al-Baqarah" 286 "Madinah".

(** Verse 1 of chapter 1. *)
Definition basmalah : AyatData :=
  mkAyatData 1 "Al-Fatihah" 1 "bismillah" "Dengan nama Allah".

(** A payload without a [version] property. *)
Definition payload_without_version : ImportPayload :=
  mkImportPayload None (Some default_bookmarks) (Some []) None (Some "dark"%string).

(** A payload whose history holds chapter 1 twice. *)
Definition payload_duplicated_history : ImportPayload :=
  mkImportPayload (Some "1.0"%string) (Some default_bookmarks)
    (Some [mkHistoryEntry 1 "Al-Fatihah" "Al-Fatihah" 10;
           mkHistoryEntry 1 "Al-Fatihah" "Al-Fatihah" 5])
    None None.

(** The storage after that payload is imported on the fresh storage. *)
Definition duplicated_history_storage : LocalStorage :=
  run (importData (Some payload_duplicated_history)) fresh_storage.

(** A payload whose settings object holds one key only. *)
Definition payload_partial_settings : ImportPayload :=
  mkImportPayload (Some "1.0"%string) (Some default_bookmarks) None
    (Some (<["autoPlayAudio" := SBool true]> ∅)) None.

(** The storage after that payload is imported on the fresh storage. *)
Definition partial_settings_storage : LocalStorage :=
  run (importData (Some payload_partial_settings)) fresh_storage.

(** A payload that passes the check of [importData] and carries 51 history
    entries for chapter 1 and two bookmarks of each kind for one key. *)
Definition oversized_payload : ImportPayload :=
  mkImportPayload (Some "1.0"%string)
    (Some (mkBookmarks
             [mkSuratBookmark 1 "Al-Fatihah" "Al-Fatihah" 7 "Mekah" 2;
              mkSuratBookmark 1 "Al-Fatihah" "Al-Fatihah" 7 "Mekah" 1]
             [mkAyatBookmark 1 "Al-Fatihah" 1 "bismillah" "Dengan nama Allah" 2;
              mkAyatBookmark 1 "Al-Fatihah" 1 "bismillah" "Dengan nama Allah" 1]))
    (Some (replicate 51 (mkHistoryEntry 1 "Al-Fatihah" "Al-Fatihah" 0)))
    None None.

(** The storage after that payload is imported on the fresh storage. *)
Definition oversized_storage : LocalStorage :=
  run (importData (Some oversized_payload)) fresh_storage.

(** The storage after [register ('hasan', 'rahasia1')] at time 1000. *)
Definition registered_storage : LocalStorage :=
  snd (AuthManager.register "hasan" "rahasia1" "user_1" 1000 fresh_storage).

(** The storage after [register ('ab ', 'secret1')]: a username of three
    code units that ends in a space. *)
Definition untrimmed_registered_storage : LocalStorage :=
  snd (AuthManager.register "ab " "secret1" "user_1" 1000 fresh_storage).

(** The per-reciter audio dictionary of verse 1 of chapter 1. *)
Definition audio_1_1 : gmap string string :=
  <["01" := "https://cdn.equran.id/audio-partial/Abdullah-Al-Juhany/001001.mp3"%string]>
    (<["05" := "https://cdn.equran.id/audio-partial/Misyari-Rasyid-Al-Afasi/001001.mp3"%string]> ∅).

(** An upstream that knows chapter 1 with its first verse. *)
Definition sample_remote (suratId : Z) : Error + QuranAPI.SuratDetail :=
  if suratId =? 1 then
    inr (QuranAPI.mkSuratDetail 1 "Al-Fatihah" "Al-Fatihah" 7 "Mekah" "Pembukaan" "" ∅
           [QuranAPI.mkAyat 1 "bismillah" "bismillah" "Dengan nama Allah"
              (Some audio_1_1)])
  else inl (mkError "Gagal mengambil data: HTTP Error: 404 - Not Found").

(** A cache with one entry, stored at time 1000. *)
Definition sample_cache : gmap string (QuranAPI.CacheEntry (T := string)) :=
  <["surat-1" := QuranAPI.mkCacheEntry "cached"%string 1000]> ∅.

(** A producer that takes 5 ms of a world that is its clock. *)
Definition sample_producer (w : Z) : (Error + string) * Z :=
  (inr "fetched"%string, w + 5).

End Samples.

Import Props.

(** * Theorems *)

(** ** Import (storage.js) *)

Section ImportData.
Import StorageManager.

(** C1: an import payload without a [version] or without a [bookmarks]
    property makes the [try] block throw the invalid-format error before
    any write; [importData] answers [false] and the storage, so all of
    bookmarks, history, settings and theme, is what it was. *)
Theorem importData_missing_field_applies_nothing
    (data : ImportPayload) (ls : LocalStorage) :
  p_version data = None \/ p_bookmarks data = None ->
  importData_try (Some data) ls = (inl InvalidDataFormat, ls)
  /\ importData (Some data) ls = (inr false, ls)
  /\ (let ls' := run (importData (Some data)) ls in
      quran_bookmarks ls' = quran_bookmarks ls
      /\ quran_history ls' = quran_history ls
      /\ quran_settings ls' = quran_settings ls
      /\ quran_theme ls' = quran_theme ls).
Proof.
  intros Hmiss.
  assert (Hguard : negb (truthy_opt_str (p_version data))
                   || negb (truthy_opt (p_bookmarks data)) = true).
  { destruct Hmiss as [-> | ->]; simpl; [reflexivity | apply orb_true_r]. }
  assert (Htry : importData_try (Some data) ls = (inl InvalidDataFormat, ls)).
  { unfold importData_try, bind. rewrite Hguard. reflexivity. }
  assert (Himp : importData (Some data) ls = (inr false, ls)).
  { unfold importData, try_catch. rewrite Htry. reflexivity. }
  split; [exact Htry | split; [exact Himp |]].
  unfold run. rewrite Himp. simpl. auto.
Qed.

Lemma importData_missing_field_witness :
  p_version Samples.payload_without_version = None
  /\ importData (Some Samples.payload_without_version) fresh_storage
     = (inr false, fresh_storage).
Proof.
  split; [reflexivity |].
  apply (importData_missing_field_applies_nothing
           Samples.payload_without_version fresh_storage).
  left. reflexivity.
Defined.

End ImportData.

(** ** Reading history (storage.js) *)

Section History.
Import StorageManager.

Lemma StronglySorted_sublist {A} (R : A -> A -> Prop) (l1 l2 : list A) :
  l1 `sublist_of` l2 -> StronglySorted R l2 -> StronglySorted R l1.
Proof.
  intros Hsub. induction Hsub as [| x l1 l2 Hsub IH | x l1 l2 Hsub IH];
    intros Hs.
  - constructor.
  - apply StronglySorted_cons in Hs as [Hall Hs].
    apply StronglySorted_cons. split; [| auto].
    rewrite Forall_forall in Hall |- *.
    intros y Hy. apply Hall. eapply sublist_subseteq; eauto.
  - apply StronglySorted_cons in Hs as [_ Hs]. auto.
Qed.

(** One call: the stale entries of the chapter go, the fresh entry comes
    first, and the first 50 entries stay. *)
Lemma addHistory_history (d : SuratData) (now : Z) (ls : LocalStorage) :
  getHistory (run (addHistory d now) ls)
  = fresh_entry d now
      :: take 49 (filter (fun h => he_nomor h <> sd_nomor d) (getHistory ls)).
Proof.
  unfold run, addHistory, setItem, getHistory at 1. simpl.
  fold (fresh_entry d now).
  set (f := filter _ _).
  destruct (Nat.ltb_spec 50 (S (length f))) as [Hlt | Hge].
  - reflexivity.
  - rewrite take_ge by lia. reflexivity.
Qed.

(** A call touches the history key only. *)
Lemma addHistory_frame (d : SuratData) (now : Z) (ls : LocalStorage) :
  run (addHistory d now) ls
  = write_history (Some (getHistory (run (addHistory d now) ls))) ls.
Proof. reflexivity. Qed.

Lemma kept_sublist (n : nat) (k : Z) (h : list HistoryEntry) :
  take n (filter (fun e => he_nomor e <> k) h) `sublist_of` h.
Proof.
  etransitivity; [apply sublist_take | apply sublist_filter].
Qed.

Lemma kept_other_chapters (n : nat) (k : Z) (h : list HistoryEntry) :
  Forall (fun e => he_nomor e <> k) (take n (filter (fun e => he_nomor e <> k) h)).
Proof.
  apply Forall_take. apply Forall_forall. intros e He.
  apply list_elem_of_filter in He. tauto.
Qed.

Lemma addHistory_length (d : SuratData) (now : Z) (ls : LocalStorage) :
  (length (getHistory (run (addHistory d now) ls)) <= 50)%nat.
Proof.
  rewrite addHistory_history. simpl. rewrite length_take. lia.
Qed.

Lemma addHistory_count (d : SuratData) (now : Z) (ls : LocalStorage) :
  history_count (sd_nomor d) (getHistory (run (addHistory d now) ls)) = 1%nat.
Proof.
  rewrite addHistory_history. unfold history_count.
  rewrite filter_cons_True by reflexivity. simpl. f_equal.
  apply length_zero_iff_nil.
  pose proof (kept_other_chapters 49 (sd_nomor d) (getHistory ls)) as Hall.
  induction Hall as [| e l He Hall IH]; [reflexivity |].
  rewrite filter_cons_False by (intros Heq; apply He; exact Heq). exact IH.
Qed.

Lemma addHistory_NoDup (d : SuratData) (now : Z) (ls : LocalStorage) :
  NoDup (chapter_ids (getHistory ls)) ->
  NoDup (chapter_ids (getHistory (run (addHistory d now) ls))).
Proof.
  intros Hnd. rewrite addHistory_history. unfold chapter_ids in *.
  rewrite fmap_cons. apply NoDup_cons. split.
  - intros Hin. apply list_elem_of_fmap in Hin as (e & Heq & He).
    pose proof (kept_other_chapters 49 (sd_nomor d) (getHistory ls)) as Hall.
    rewrite Forall_forall in Hall. apply (Hall e He). simpl in Heq. congruence.
  - eapply sublist_NoDup; [exact Hnd |].
    apply fmap_sublist, kept_sublist.
Qed.

Lemma addHistory_sorted (d : SuratData) (now : Z) (ls : LocalStorage) :
  most_recent_first (getHistory ls) ->
  not_after now (getHistory ls) ->
  most_recent_first (getHistory (run (addHistory d now) ls))
  /\ not_after now (getHistory (run (addHistory d now) ls)).
Proof.
  intros Hs Hle. rewrite addHistory_history.
  pose proof (kept_sublist 49 (sd_nomor d) (getHistory ls)) as Hsub.
  assert (Hle' : not_after now
            (take 49 (filter (fun h => he_nomor h <> sd_nomor d) (getHistory ls)))).
  { unfold not_after in *. rewrite Forall_forall in Hle |- *.
    intros e He. apply Hle. eapply sublist_subseteq; eauto. }
  split.
  - unfold most_recent_first. apply StronglySorted_cons. split.
    + exact Hle'.
    + eapply StronglySorted_sublist; eauto.
  - unfold not_after. constructor; [simpl; lia | exact Hle'].
Qed.

Lemma not_after_mono (t t' : Z) (h : list HistoryEntry) :
  t <= t' -> not_after t h -> not_after t' h.
Proof.
  unfold not_after. intros Ht Hall. eapply Forall_impl; [exact Hall |].
  intros e He. simpl in He. lia.
Qed.

Lemma addHistory_all_ok (calls : list (SuratData * Z)) :
  forall (ls : LocalStorage) (t0 : Z),
    history_ok (getHistory ls) ->
    not_after t0 (getHistory ls) ->
    clock_from t0 calls ->
    history_ok (getHistory (addHistory_all calls ls)).
Proof.
  induction calls as [| [d now] calls IH]; intros ls t0 Hok Hle Hclock.
  - exact Hok.
  - simpl in *. destruct Hclock as [Ht Hclock].
    destruct Hok as (Hnd & _ & Hs).
    destruct (addHistory_sorted d now ls Hs (not_after_mono _ _ _ Ht Hle))
      as [Hs' Hle'].
    apply (IH _ now); [| exact Hle' | exact Hclock].
    split; [apply addHistory_NoDup; exact Hnd |].
    split; [apply addHistory_length | exact Hs'].
Qed.

(** C2, as the code has it: from a stored history that has at most one
    entry per chapter id, at most 50 entries, is ordered most-recent-first
    and holds no timestamp later than the first clock reading, every
    sequence of [addHistory] calls whose clock readings never go back leaves
    a history with at most one entry per chapter id, at most 50 entries,
    ordered most-recent-first.  From any stored history whatsoever, one call
    leaves at most 50 entries, puts the fresh entry of the recorded chapter
    at the front and leaves no other entry of that chapter.  Recording X,
    then Y, then X again on the fresh storage yields the two entries X, Y. *)
Theorem addHistory_sequence_invariants
    (ls : LocalStorage) (calls : list (SuratData * Z)) (t0 : Z) :
  history_ok (getHistory ls) ->
  not_after t0 (getHistory ls) ->
  clock_from t0 calls ->
  history_ok (getHistory (addHistory_all calls ls))
  /\ (forall (ls' : LocalStorage) (d : SuratData) (now : Z),
        let h' := getHistory (run (addHistory d now) ls') in
        (length h' <= 50)%nat
        /\ head h' = Some (fresh_entry d now)
        /\ history_count (sd_nomor d) h' = 1%nat
        /\ tail h' `sublist_of` getHistory ls')
  /\ (forall (x y : SuratData) (tx ty tx' : Z),
        sd_nomor x <> sd_nomor y ->
        getHistory (addHistory_all [(x, tx); (y, ty); (x, tx')] fresh_storage)
        = [fresh_entry x tx'; fresh_entry y ty]).
Proof.
  intros Hok Hle Hclock. split; [| split].
  - eapply addHistory_all_ok; eauto.
  - intros ls' d now h'. subst h'. split; [apply addHistory_length |].
    split; [rewrite addHistory_history; reflexivity |].
    split; [apply addHistory_count |].
    rewrite addHistory_history. simpl. apply kept_sublist.
  - intros x y tx ty tx' Hxy. simpl.
    rewrite !addHistory_history. simpl.
    repeat (rewrite ?filter_nil, ?filter_cons; simpl;
            repeat (case_decide; simpl in *; try congruence)).
Qed.

Lemma addHistory_sequence_witness :
  history_ok (getHistory fresh_storage)
  /\ not_after 0 (getHistory fresh_storage)
  /\ clock_from 0 [(Samples.al_fatihah, 10); (Samples.al_baqarah, 20);
                   (Samples.al_fatihah, 30)]
  /\ history_ok
       (getHistory
          (addHistory_all
             [(Samples.al_fatihah, 10); (Samples.al_baqarah, 20);
              (Samples.al_fatihah, 30)] fresh_storage)).
Proof.
  assert (H1 : history_ok (getHistory fresh_storage)).
  { split; [constructor | split; [simpl; lia | constructor]]. }
  assert (H2 : not_after 0 (getHistory fresh_storage)) by constructor.
  assert (H3 : clock_from 0 [(Samples.al_fatihah, 10); (Samples.al_baqarah, 20);
                             (Samples.al_fatihah, 30)]) by (simpl; lia).
  split; [exact H1 | split; [exact H2 | split; [exact H3 |]]].
  apply (addHistory_sequence_invariants fresh_storage _ 0 H1 H2 H3).
Defined.

(** C2 as stated fails: after an import the stored history holds chapter 1
    twice; recording chapter 2 keeps both entries, so the stored history
    has two entries for chapter 1. *)
Lemma addHistory_duplicates_survive :
  chapter_ids
    (getHistory (addHistory_all [(Samples.al_baqarah, 20)]
                   Samples.duplicated_history_storage))
  = [2; 1; 1]
  /\ ~ history_ok
        (getHistory (addHistory_all [(Samples.al_baqarah, 20)]
                       Samples.duplicated_history_storage)).
Proof.
  split; [reflexivity |].
  intros [Hnd _]. vm_compute in Hnd.
  apply NoDup_cons in Hnd as [_ Hnd].
  apply NoDup_cons in Hnd as [Hnotin _].
  apply Hnotin. constructor.
Qed.

End History.

(** ** Bookmarks (storage.js) *)

Section BookmarksOnce.
Import StorageManager.

(** [Array.prototype.some] finds nothing exactly when no element passes. *)
Lemma existsb_false_Forall {A} (p : A -> bool) (l : list A) :
  existsb p l = false <-> Forall (fun x => p x = false) l.
Proof.
  induction l as [| x l IH]; simpl.
  - split; [constructor | reflexivity].
  - rewrite orb_false_iff, IH, Forall_cons. reflexivity.
Qed.

Lemma filter_none_length {A} (P : A -> Prop) `{forall x, Decision (P x)}
    (l : list A) :
  Forall (fun x => ~ P x) l <-> length (filter P l) = 0%nat.
Proof.
  induction l as [| x l IH].
  - split; [reflexivity | constructor].
  - rewrite Forall_cons, filter_cons. destruct (decide (P x)) as [HP | HP]; simpl.
    + split; [tauto | discriminate].
    + rewrite IH. tauto.
Qed.

Lemma has_surat_false (n : Z) (b : Bookmarks) :
  has_surat n b = false <-> Forall (fun s => sb_nomor s <> n) (surat b).
Proof.
  unfold has_surat. rewrite existsb_false_Forall.
  apply Forall_proper; [| reflexivity]. intros s.
  destruct (Z.eqb_spec (sb_nomor s) n); split; congruence.
Qed.

Lemma has_ayat_false (sid n : Z) (b : Bookmarks) :
  has_ayat sid n b = false
  <-> Forall (fun a => ~ (ab_suratId a = sid /\ ab_nomorAyat a = n)) (ayat b).
Proof.
  unfold has_ayat. rewrite existsb_false_Forall.
  apply Forall_proper; [| reflexivity]. intros a.
  destruct (Z.eqb_spec (ab_suratId a) sid), (Z.eqb_spec (ab_nomorAyat a) n);
    simpl; split; try congruence; tauto.
Qed.

(** What one [addBookmark ('surat', d)] stores. *)
Lemma addBookmark_surat (d : SuratData) (now : Z) (ls : LocalStorage) :
  run (addBookmark (BSurat d) now) ls
  = write_bookmarks
      (Some (if has_surat (sd_nomor d) (getBookmarks ls) then getBookmarks ls
             else mkBookmarks (surat_bookmark d now :: surat (getBookmarks ls))
                    (ayat (getBookmarks ls))))
      ls.
Proof.
  unfold run, addBookmark, setItem, has_surat. simpl.
  destruct (existsb _ _); reflexivity.
Qed.

(** What one [addBookmark ('ayat', d)] stores. *)
Lemma addBookmark_ayat (d : AyatData) (now : Z) (ls : LocalStorage) :
  run (addBookmark (BAyat d) now) ls
  = write_bookmarks
      (Some (if has_ayat (ad_suratId d) (ad_nomorAyat d) (getBookmarks ls)
             then getBookmarks ls
             else mkBookmarks (surat (getBookmarks ls))
                    (ayat_bookmark d now :: ayat (getBookmarks ls))))
      ls.
Proof.
  unfold run, addBookmark, setItem, has_ayat. simpl.
  destruct (existsb _ _); reflexivity.
Qed.

Lemma write_bookmarks_twice (b : Bookmarks) (ls : LocalStorage) :
  write_bookmarks (Some b) (write_bookmarks (Some b) ls)
  = write_bookmarks (Some b) ls.
Proof. reflexivity. Qed.

Lemma getBookmarks_write (b : Bookmarks) (ls : LocalStorage) :
  getBookmarks (write_bookmarks (Some b) ls) = b.
Proof. reflexivity. Qed.

Lemma surat_twice (d : SuratData) (t1 t2 : Z) (ls : LocalStorage) :
  let ls1 := run (addBookmark (BSurat d) t1) ls in
  run (addBookmark (BSurat d) t2) ls1 = ls1
  /\ surat_count (sd_nomor d) (getBookmarks ls1)
     = Nat.max 1 (surat_count (sd_nomor d) (getBookmarks ls)).
Proof.
  intros ls1. subst ls1. rewrite (addBookmark_surat d t2), (addBookmark_surat d t1).
  rewrite !getBookmarks_write. set (b := getBookmarks ls).
  destruct (has_surat (sd_nomor d) b) eqn:Hhas.
  - rewrite Hhas. split; [reflexivity |].
    unfold surat_count.
    destruct (length (filter (fun s => sb_nomor s = sd_nomor d) (surat b))) eqn:Hlen.
    + apply filter_none_length in Hlen. apply has_surat_false in Hlen. congruence.
    + lia.
  - assert (Hnow : has_surat (sd_nomor d)
                     (mkBookmarks (surat_bookmark d t1 :: surat b) (ayat b)) = true).
    { unfold has_surat. simpl. rewrite Z.eqb_refl. reflexivity. }
    rewrite Hnow. split; [reflexivity |].
    unfold surat_count. simpl. rewrite filter_cons_True by reflexivity. simpl.
    apply has_surat_false in Hhas.
    apply (filter_none_length (fun s => sb_nomor s = sd_nomor d)) in Hhas.
    rewrite Hhas. reflexivity.
Qed.

Lemma ayat_twice (d : AyatData) (t1 t2 : Z) (ls : LocalStorage) :
  let ls1 := run (addBookmark (BAyat d) t1) ls in
  run (addBookmark (BAyat d) t2) ls1 = ls1
  /\ ayat_count (ad_suratId d) (ad_nomorAyat d) (getBookmarks ls1)
     = Nat.max 1 (ayat_count (ad_suratId d) (ad_nomorAyat d) (getBookmarks ls)).
Proof.
  intros ls1. subst ls1. rewrite (addBookmark_ayat d t2), (addBookmark_ayat d t1).
  rewrite !getBookmarks_write. set (b := getBookmarks ls).
  destruct (has_ayat (ad_suratId d) (ad_nomorAyat d) b) eqn:Hhas.
  - rewrite Hhas. split; [reflexivity |].
    unfold ayat_count.
    destruct (length (filter _ (ayat b))) eqn:Hlen.
    + apply filter_none_length in Hlen. apply has_ayat_false in Hlen. congruence.
    + lia.
  - assert (Hnow : has_ayat (ad_suratId d) (ad_nomorAyat d)
                     (mkBookmarks (surat b) (ayat_bookmark d t1 :: ayat b)) = true).
    { unfold has_ayat. simpl. rewrite !Z.eqb_refl. reflexivity. }
    rewrite Hnow. split; [reflexivity |].
    unfold ayat_count. simpl. rewrite filter_cons_True by (simpl; auto). simpl.
    apply has_ayat_false in Hhas.
    apply (filter_none_length
             (fun a => ab_suratId a = ad_suratId d /\ ab_nomorAyat a = ad_nomorAyat d))
      in Hhas.
    rewrite Hhas. reflexivity.
Qed.

(** C5: when the storage holds at most one chapter-level bookmark with the
    chapter's ordinal, bookmarking the chapter twice leaves exactly one, and
    the second call leaves the storage as the first left it; likewise for a
    verse and its pair of chapter id and verse ordinal. *)
Theorem addBookmark_twice_leaves_one
    (ls : LocalStorage) (c : SuratData) (v : AyatData) (t1 t2 : Z) :
  (surat_count (sd_nomor c) (getBookmarks ls) <= 1)%nat ->
  (ayat_count (ad_suratId v) (ad_nomorAyat v) (getBookmarks ls) <= 1)%nat ->
  let lc1 := run (addBookmark (BSurat c) t1) ls in
  let lc2 := run (addBookmark (BSurat c) t2) lc1 in
  let lv1 := run (addBookmark (BAyat v) t1) ls in
  let lv2 := run (addBookmark (BAyat v) t2) lv1 in
  surat_count (sd_nomor c) (getBookmarks lc2) = 1%nat
  /\ lc2 = lc1
  /\ ayat_count (ad_suratId v) (ad_nomorAyat v) (getBookmarks lv2) = 1%nat
  /\ lv2 = lv1.
Proof.
  intros Hc Hv lc1 lc2 lv1 lv2.
  destruct (surat_twice c t1 t2 ls) as [Hc2 Hcount].
  destruct (ayat_twice v t1 t2 ls) as [Hv2 Hvcount].
  fold lc1 in Hc2, Hcount. fold lv1 in Hv2, Hvcount.
  subst lc2 lv2. rewrite Hc2, Hv2, Hcount, Hvcount.
  repeat split; lia.
Qed.

Lemma addBookmark_twice_witness :
  (surat_count 1 (getBookmarks fresh_storage) <= 1)%nat
  /\ surat_count 1
       (getBookmarks
          (run (addBookmark (BSurat Samples.al_fatihah) 20)
             (run (addBookmark (BSurat Samples.al_fatihah) 10) fresh_storage)))
     = 1%nat.
Proof.
  assert (H1 : (surat_count (sd_nomor Samples.al_fatihah)
                  (getBookmarks fresh_storage) <= 1)%nat) by (vm_compute; lia).
  assert (H2 : (ayat_count (ad_suratId Samples.basmalah) (ad_nomorAyat Samples.basmalah)
                  (getBookmarks fresh_storage) <= 1)%nat) by (vm_compute; lia).
  split; [exact H1 |].
  apply (addBookmark_twice_leaves_one fresh_storage Samples.al_fatihah
           Samples.basmalah 10 20 H1 H2).
Defined.

(** C5 as stated fails: an import that [importData] accepts leaves two
    bookmarks of chapter 1 and two of verse 1 of chapter 1; bookmarking the
    chapter twice, or the verse twice, changes nothing, so two bookmarks
    with the key remain. *)
Lemma addBookmark_twice_leaves_two :
  importData (Some Samples.oversized_payload) fresh_storage
  = (inr true, Samples.oversized_storage)
  /\ surat_count 1
       (getBookmarks
          (run (addBookmark (BSurat Samples.al_fatihah) 20)
             (run (addBookmark (BSurat Samples.al_fatihah) 10)
                Samples.oversized_storage)))
     = 2%nat
  /\ ayat_count 1 1
       (getBookmarks
          (run (addBookmark (BAyat Samples.basmalah) 20)
             (run (addBookmark (BAyat Samples.basmalah) 10)
                Samples.oversized_storage)))
     = 2%nat
  /\ run (addBookmark (BSurat Samples.al_fatihah) 20)
       (run (addBookmark (BSurat Samples.al_fatihah) 10) Samples.oversized_storage)
     = Samples.oversized_storage.
Proof.
  split; [reflexivity |]. split; [reflexivity |]. split; reflexivity.
Qed.

End BookmarksOnce.

(** ** Settings (storage.js) *)

Section SettingsRecord.
Import StorageManager.

Lemma default_settings_populated : fully_populated default_settings.
Proof.
  unfold fully_populated, setting_keys.
  repeat (apply Forall_cons; split); try apply Forall_nil;
    vm_compute; eexists; reflexivity.
Qed.

Lemma updateSettings_populated (newSettings : Settings) (ls : LocalStorage) :
  fully_populated (getSettings ls) ->
  fully_populated (getSettings (run (updateSettings newSettings) ls)).
Proof.
  unfold fully_populated. intros Hall.
  change (getSettings (run (updateSettings newSettings) ls))
    with (newSettings ∪ getSettings ls).
  eapply Forall_impl; [exact Hall |]. intros k Hk. simpl in *.
  apply lookup_union_is_Some. right. exact Hk.
Qed.

Lemma updateSetting_populated (key : string) (value : SettingValue)
    (ls : LocalStorage) :
  fully_populated (getSettings ls) ->
  fully_populated (getSettings (run (updateSetting key value) ls)).
Proof.
  unfold fully_populated. intros Hall.
  change (getSettings (run (updateSetting key value) ls))
    with (<[key := value]> (getSettings ls)).
  eapply Forall_impl; [exact Hall |]. intros k Hk. simpl in *.
  apply lookup_insert_is_Some. destruct (decide (key = k)); auto.
Qed.

(** C6, as the code has it: the getter answers the six defaults when no
    settings record is stored, and the stored record as it is otherwise; so
    its answer has all six fields exactly when nothing is stored or the
    stored record has them.  The routines that write the settings
    ([updateSetting], [updateSettings], [resetSettings]) keep an answer with
    six fields that way. *)
Theorem getSettings_defaults_or_stored (ls : LocalStorage) :
  fully_populated default_settings
  /\ match quran_settings ls with
     | None => getSettings ls = default_settings
     | Some s => getSettings ls = s
     end
  /\ (fully_populated (getSettings ls)
      <-> forall s, quran_settings ls = Some s -> fully_populated s)
  /\ (fully_populated (getSettings ls) ->
      (forall key value,
          fully_populated (getSettings (run (updateSetting key value) ls)))
      /\ (forall newSettings,
             fully_populated (getSettings (run (updateSettings newSettings) ls))))
  /\ fully_populated (getSettings (run resetSettings ls)).
Proof.
  split; [exact default_settings_populated |].
  split; [unfold getSettings; destruct (quran_settings ls); reflexivity |].
  split; [| split].
  - unfold getSettings. destruct (quran_settings ls) as [s |].
    + split; [intros H s' [= <-]; exact H | intros H; apply H; reflexivity].
    + split; [intros _ s' [=] | intros _; exact default_settings_populated].
  - intros H. split; intros.
    + apply updateSetting_populated, H.
    + apply updateSettings_populated, H.
  - exact default_settings_populated.
Qed.

(** C6 as stated fails: after an import the stored settings object holds the
    one key [autoPlayAudio]; the getter answers that object, and [fontSize]
    and four more keys are absent from the answer. *)
Lemma getSettings_partial_record_stays_partial :
  getSettings Samples.partial_settings_storage !! "fontSize"%string = None
  /\ getSettings Samples.partial_settings_storage
     = <["autoPlayAudio"%string := SBool true]> ∅
  /\ ~ fully_populated (getSettings Samples.partial_settings_storage).
Proof.
  split; [reflexivity | split; [reflexivity |]].
  unfold fully_populated, setting_keys. intros Hall.
  apply Forall_cons in Hall as [_ Hall].
  apply Forall_cons in Hall as [Hk _].
  vm_compute in Hk. destruct Hk as [v Hv]. discriminate Hv.
Qed.

End SettingsRecord.

(** ** Import against the incremental operations (storage.js) *)

Section ImportBypass.
Import StorageManager.

Lemma addBookmark_unique (req : BookmarkRequest) (now : Z) (ls : LocalStorage) :
  bookmarks_unique (getBookmarks ls) ->
  bookmarks_unique (getBookmarks (run (addBookmark req now) ls)).
Proof.
  intros [Hs Ha]. destruct req as [d | d | ty].
  - rewrite addBookmark_surat, getBookmarks_write.
    destruct (has_surat _ _) eqn:Hhas; [split; assumption |].
    split; [| exact Ha]. simpl. apply NoDup_cons. split; [| exact Hs].
    apply has_surat_false in Hhas. rewrite Forall_forall in Hhas.
    intros Hin. apply list_elem_of_fmap in Hin as (s & Heq & Hin).
    apply (Hhas s Hin). simpl in Heq. congruence.
  - rewrite addBookmark_ayat, getBookmarks_write.
    destruct (has_ayat _ _ _) eqn:Hhas; [split; assumption |].
    split; [exact Hs |]. simpl. apply NoDup_cons. split; [| exact Ha].
    apply has_ayat_false in Hhas. rewrite Forall_forall in Hhas.
    intros Hin. apply list_elem_of_fmap in Hin as (a & Heq & Hin).
    apply (Hhas a Hin). unfold ayat_key in Heq. simpl in Heq.
    split; congruence.
  - split; assumption.
Qed.

Lemma step_store_ok (op : Op) (ls : LocalStorage) :
  store_ok ls -> store_ok (step ls op).
Proof.
  intros (Hnd & Hlen & Hb). destruct op as [d now | req now]; simpl.
  - split; [apply addHistory_NoDup; exact Hnd |].
    split; [apply addHistory_length | exact Hb].
  - split; [exact Hnd | split; [exact Hlen |]].
    apply addBookmark_unique; exact Hb.
Qed.

Lemma run_ops_store_ok (ops : list Op) :
  forall ls : LocalStorage, store_ok ls -> store_ok (run_ops ops ls).
Proof.
  unfold run_ops. induction ops as [| op ops IH]; intros ls Hok; simpl.
  - exact Hok.
  - apply IH, step_store_ok, Hok.
Qed.

Lemma fresh_storage_ok : store_ok fresh_storage.
Proof.
  split; [constructor | split; [simpl; lia |]].
  split; constructor.
Qed.

(** An import that passes the check stores the payload's bookmarks, and its
    history when it has one, as they are. *)
Lemma importData_verbatim (data : ImportPayload) (ls : LocalStorage)
    (v : string) (b : Bookmarks) :
  p_version data = Some v -> truthy_str v = true -> p_bookmarks data = Some b ->
  fst (importData (Some data) ls) = inr true
  /\ quran_bookmarks (run (importData (Some data)) ls) = Some b
  /\ quran_history (run (importData (Some data)) ls)
     = match p_history data with Some h => Some h | None => quran_history ls end.
Proof.
  intros Hv Ht Hb. unfold run, importData, try_catch, importData_try, bind.
  rewrite Hv, Hb. simpl. rewrite Ht. simpl.
  destruct (p_history data), (p_settings data), (p_theme data) as [t |];
    simpl; try destruct (truthy_str t); simpl; auto.
Qed.

(** C10: a payload with a [version] and a [bookmarks] property is imported
    with success and leaves, verbatim, a history of 51 entries, all of
    chapter 1, and two bookmarks for one chapter and for one verse; no
    sequence of [addHistory] and [addBookmark] calls on the fresh storage
    reaches a history of more than 50 entries, a chapter id held twice, or a
    bookmark key held twice. *)
Theorem importData_bypasses_invariants :
  (exists (data : ImportPayload) (v : string) (b : Bookmarks)
          (h : list HistoryEntry),
      p_version data = Some v /\ truthy_str v = true
      /\ p_bookmarks data = Some b /\ p_history data = Some h
      /\ let ls' := run (importData (Some data)) fresh_storage in
         importData (Some data) fresh_storage = (inr true, ls')
         /\ quran_bookmarks ls' = Some b
         /\ quran_history ls' = Some h
         /\ (50 < length (getHistory ls'))%nat
         /\ ~ NoDup (chapter_ids (getHistory ls'))
         /\ ~ NoDup (sb_nomor <$> surat (getBookmarks ls'))
         /\ ~ NoDup (ayat_key <$> ayat (getBookmarks ls'))
         /\ ~ store_ok ls')
  /\ (forall ops : list Op,
         let ls := run_ops ops fresh_storage in
         NoDup (chapter_ids (getHistory ls))
         /\ (length (getHistory ls) <= 50)%nat
         /\ bookmarks_unique (getBookmarks ls)).
Proof.
  split.
  - exists Samples.oversized_payload. do 3 eexists.
    split; [reflexivity |]. split; [reflexivity |].
    split; [reflexivity |]. split; [reflexivity |].
    assert (Hdup : forall l : list Z, ~ NoDup (1 :: 1 :: l)).
    { intros l Hnd. apply NoDup_cons in Hnd as [Hnotin _].
      apply Hnotin. constructor. }
    assert (Hdup2 : forall l : list (Z * Z), ~ NoDup ((1, 1) :: (1, 1) :: l)).
    { intros l Hnd. apply NoDup_cons in Hnd as [Hnotin _].
      apply Hnotin. constructor. }
    cbv zeta.
    split; [reflexivity |]. split; [reflexivity |]. split; [reflexivity |].
    split; [vm_compute; lia |].
    split; [apply Hdup |]. split; [apply Hdup |]. split; [apply Hdup2 |].
    intros (Hnd & _). revert Hnd. apply Hdup.
  - intros ops. apply (run_ops_store_ok ops), fresh_storage_ok.
Qed.

End ImportBypass.

(** ** Sessions (auth.js) *)

Section Sessions.
Import AuthManager.

(** C3: with a stored session whose [expiresAt] is before the clock reading,
    [getCurrentUser] answers [null] and removes the session record and the
    current-user record; every other key keeps its value. *)
Theorem getCurrentUser_expired_session
    (ls : LocalStorage) (session : Session) (now : Z) :
  quran_session ls = Some session ->
  s_expiresAt session < now ->
  let ls' := write_session None (write_current_user None ls) in
  getCurrentUser now ls = (inr None, ls')
  /\ quran_session ls' = None
  /\ quran_current_user ls' = None
  /\ quran_users ls' = quran_users ls
  /\ quran_bookmarks ls' = quran_bookmarks ls
  /\ quran_history ls' = quran_history ls
  /\ quran_settings ls' = quran_settings ls
  /\ quran_theme ls' = quran_theme ls.
Proof.
  intros Hs Hexp ls'. split; [| repeat split].
  unfold getCurrentUser, bind, get. rewrite Hs.
  assert (Hinv : isSessionValid session now = false).
  { unfold isSessionValid. destruct (s_isValid session); simpl; [| reflexivity].
    destruct (Z.ltb_spec (s_expiresAt session) now); [reflexivity | lia]. }
  rewrite Hinv. reflexivity.
Qed.

(** A session that is valid leaves the storage alone. *)
Lemma getCurrentUser_valid_session
    (ls : LocalStorage) (session : Session) (t : Z) :
  quran_session ls = Some session ->
  isSessionValid session t = true ->
  getCurrentUser t ls = (inr (quran_current_user ls), ls).
Proof.
  intros Hs Hv. unfold getCurrentUser, bind, get. rewrite Hs, Hv. reflexivity.
Qed.

(** What a non-[null] answer of [getCurrentUser] tells. *)
Lemma getCurrentUser_Some (ls ls' : LocalStorage) (cu : SessionUser) (now : Z) :
  getCurrentUser now ls = (inr (Some cu), ls') ->
  ls' = ls /\ quran_current_user ls = Some cu
  /\ exists session, quran_session ls = Some session
                     /\ isSessionValid session now = true.
Proof.
  unfold getCurrentUser, bind, get.
  destruct (quran_session ls) as [session |] eqn:Hs; simpl.
  - destruct (isSessionValid session now) eqn:Hv; simpl.
    + intros [= Hcu <-]. eauto.
    + discriminate.
  - discriminate.
Qed.

Lemma isSessionValid_until (session : Session) (now t : Z) :
  isSessionValid session now = true ->
  t <= s_expiresAt session ->
  isSessionValid session t = true.
Proof.
  unfold isSessionValid. destruct (s_isValid session); simpl; [| discriminate].
  intros _ Ht. destruct (Z.ltb_spec (s_expiresAt session) t); [lia | reflexivity].
Qed.

(** The successful run of [changePassword], read backwards. *)
Lemma changePassword_success
    (currentPassword newPassword : string) (now : Z) (ls ls' : LocalStorage) :
  changePassword currentPassword newPassword now ls = (inr true, ls') ->
  exists (session : Session) (cu : SessionUser) (i : nat) (account : User),
    quran_session ls = Some session
    /\ isSessionValid session now = true
    /\ quran_current_user ls = Some cu
    /\ list_find (fun u => u_id u = su_id cu) (getUsers ls) = Some (i, account)
    /\ verifyPassword currentPassword (u_password account) = true
    /\ ls' = write_users
               (Some (<[i := set_password account (hashPassword newPassword)]>
                        (getUsers ls))) ls.
Proof.
  unfold changePassword. unfold bind at 1.
  destruct (getCurrentUser now ls) as [[e | [cu |]] ls1] eqn:Hcur;
    [discriminate | | discriminate].
  apply getCurrentUser_Some in Hcur as (-> & Hcu & session & Hs & Hv).
  unfold bind, get, throw, ret, modify.
  destruct (negb (truthy_str currentPassword) || negb (truthy_str newPassword));
    [discriminate |].
  destruct (String.length newPassword <? 6)%nat; [discriminate |].
  destruct (list_find _ (getUsers ls)) as [[i account] |] eqn:Hfind;
    [| discriminate].
  destruct (verifyPassword currentPassword (u_password account)) eqn:Hpw;
    simpl; [| discriminate].
  intros [= <-]. exists session, cu, i, account. auto 10.
Qed.

(** C9: a [changePassword] that succeeds leaves the session record and the
    current-user record as they were, so [getCurrentUser] keeps answering
    the same user up to the session's [expiresAt]; in the accounts list it
    replaces the password checksum of the logged-in account and nothing
    else; every other key keeps its value. *)
Theorem changePassword_keeps_session
    (currentPassword newPassword : string) (now : Z) (ls ls' : LocalStorage) :
  changePassword currentPassword newPassword now ls = (inr true, ls') ->
  quran_session ls' = quran_session ls
  /\ quran_current_user ls' = quran_current_user ls
  /\ (exists (session : Session) (cu : SessionUser),
         quran_session ls' = Some session
         /\ quran_current_user ls' = Some cu
         /\ isSessionValid session now = true
         /\ (forall t, t <= s_expiresAt session ->
                       getCurrentUser t ls' = (inr (Some cu), ls'))
         /\ exists (i : nat) (account : User),
             getUsers ls !! i = Some account
             /\ u_id account = su_id cu
             /\ getUsers ls' !! i
                = Some (set_password account (hashPassword newPassword))
             /\ length (getUsers ls') = length (getUsers ls)
             /\ forall j, j <> i -> getUsers ls' !! j = getUsers ls !! j)
  /\ quran_bookmarks ls' = quran_bookmarks ls
  /\ quran_history ls' = quran_history ls
  /\ quran_settings ls' = quran_settings ls
  /\ quran_theme ls' = quran_theme ls
  /\ quran_user ls' = quran_user ls.
Proof.
  intros Hrun.
  apply changePassword_success in Hrun
    as (session & cu & i & account & Hs & Hv & Hcu & Hfind & _ & ->).
  split; [reflexivity |]. split; [reflexivity |].
  split; [| repeat split].
  exists session, cu. split; [exact Hs |]. split; [exact Hcu |].
  split; [exact Hv |]. split.
  - intros t Ht.
    rewrite (getCurrentUser_valid_session _ session t); [| exact Hs |].
    + simpl. rewrite Hcu. reflexivity.
    + eapply isSessionValid_until; eauto.
  - apply list_find_Some in Hfind as (Hi & Hid & _).
    exists i, account. split; [exact Hi |]. split; [exact Hid |].
    change (getUsers (write_users ?v ls)) with
      (<[i := set_password account (hashPassword newPassword)]> (getUsers ls)).
    split; [| split].
    + apply list_lookup_insert_eq. eapply lookup_lt_Some; eauto.
    + apply length_insert.
    + intros j Hj. apply list_lookup_insert_ne. congruence.
Qed.

Lemma getCurrentUser_expired_witness :
  quran_session (snd (getCurrentUser 86401001 Samples.registered_storage)) = None
  /\ fst (getCurrentUser 86401001 Samples.registered_storage) = inr None.
Proof.
  assert (Hs : quran_session Samples.registered_storage
               = Some (mkSession "user_1" 1000 86401000 true)) by reflexivity.
  assert (Hexp : s_expiresAt (mkSession "user_1" 1000 86401000 true) < 86401001)
    by (simpl; lia).
  destruct (getCurrentUser_expired_session _ _ _ Hs Hexp) as [Hrun _].
  rewrite Hrun. split; reflexivity.
Defined.

Lemma changePassword_keeps_session_witness :
  fst (changePassword "rahasia1" "rahasia2" 2000 Samples.registered_storage)
  = inr true
  /\ quran_session
       (snd (changePassword "rahasia1" "rahasia2" 2000 Samples.registered_storage))
     = quran_session Samples.registered_storage.
Proof.
  split; [vm_compute; reflexivity |].
  apply (changePassword_keeps_session "rahasia1" "rahasia2" 2000
           Samples.registered_storage
           (snd (changePassword "rahasia1" "rahasia2" 2000
                   Samples.registered_storage))).
  vm_compute. reflexivity.
Defined.

End Sessions.

(** ** Registration and login (auth.js) *)

Section RegisterLogin.
Import AuthManager JsString.

Example toLowerCase_mixed : toLowerCase "Hasan_01" = "hasan_01"%string.
Proof. reflexivity. Qed.

Example trim_both_ends : trim "  ab c " = "ab c"%string.
Proof. reflexivity. Qed.

Example to_int32_wraps : to_int32 (2 ^ 31) = - 2 ^ 31 /\ to_int32 (-1) = -1.
Proof. split; reflexivity. Qed.

Example toString_negative : toString (-120) = "-120"%string /\ toString 0 = "0"%string.
Proof. split; reflexivity. Qed.

(** One round of the hash loop from 0 is the code unit itself: ['a'] is 97
    and [((0 << 5) - 0) + 97] is 97. *)
Example hash_loop_one_char : hash_loop "a" 0 = 97.
Proof. reflexivity. Qed.

(** The successful run of [register], read backwards. *)
Lemma register_success
    (username password newId : string) (now : Z) (ls ls1 : LocalStorage)
    (su : SessionUser) :
  register username password newId now ls = (inr su, ls1) ->
  truthy_str username = true
  /\ truthy_str password = true
  /\ list_find (same_username username) (getUsers ls) = None
  /\ su_id su = newId
  /\ getUsers ls1 = getUsers ls ++ [newUser username password newId now].
Proof.
  unfold register, bind, get, throw, ret, modify.
  destruct (truthy_str username); simpl; [| discriminate].
  destruct (truthy_str password); simpl; [| discriminate].
  destruct (String.length username <? 3)%nat; [discriminate |].
  destruct (String.length password <? 6)%nat; [discriminate |].
  destruct (list_find _ (getUsers ls)) as [[i u] |] eqn:Hfind; [discriminate |].
  simpl. intros [= <- <-]. auto.
Qed.

Lemma verifyPassword_same (password : string) :
  verifyPassword password (hashPassword password) = true.
Proof. unfold verifyPassword. apply bool_decide_eq_true. reflexivity. Qed.

(** Where the white space that [register] trims away makes no difference,
    [login] with the registered strings succeeds with the registered id. *)
Lemma register_then_login_trimmed
    (username password newId : string) (t1 t2 : Z) (ls ls1 : LocalStorage)
    (su : SessionUser) :
  trim username = username ->
  register username password newId t1 ls = (inr su, ls1) ->
  exists (su' : SessionUser) (ls2 : LocalStorage),
    login username password t2 ls1 = (inr su', ls2)
    /\ su_id su' = su_id su
    /\ su_id su = newId.
Proof.
  intros Htrim Hreg.
  apply register_success in Hreg as (Hu & Hp & Hnone & Hid & Husers).
  unfold login, bind, get, throw, ret, modify.
  rewrite Hu, Hp. simpl. rewrite Husers.
  assert (Hfind : list_find (same_username username)
                    (getUsers ls ++ [newUser username password newId t1])
                  = Some (length (getUsers ls),
                          newUser username password newId t1)).
  { rewrite list_find_app_r by exact Hnone. simpl.
    rewrite decide_True.
    - simpl. first [reflexivity | f_equal; f_equal; lia].
    - unfold same_username, newUser. simpl. rewrite Htrim. reflexivity. }
  rewrite Hfind. simpl. rewrite verifyPassword_same. simpl.
  destruct (list_find _ _) as [[j u] |]; simpl;
    eexists _, _; (split; [reflexivity | split; [simpl; congruence | exact Hid]]).
Qed.

(** C4 at a username that [register] accepts and trims: ['ab '] has three
    code units, so the account is created, with id [user_1] and the stored
    name ['ab']; [login] with the same two strings compares ['ab '] with the
    stored ['ab'] and throws the unknown-username error. *)
Theorem register_then_login_untrimmed :
  (exists su : SessionUser,
      fst (register "ab " "secret1" "user_1" 1000 StorageManager.fresh_storage)
      = inr su
      /\ su_id su = "user_1"%string
      /\ su_username su = "ab"%string)
  /\ u_username <$> getUsers Samples.untrimmed_registered_storage = ["ab"%string]
  /\ login "ab " "secret1" 2000 Samples.untrimmed_registered_storage
     = (inl err_username_unknown, Samples.untrimmed_registered_storage).
Proof.
  split; [eexists; split; [vm_compute; reflexivity | split; reflexivity] |].
  split; vm_compute; reflexivity.
Qed.

End RegisterLogin.

(** ** Verse audio (api.js) *)

Section VerseAudio.
Import QuranAPI.

Variable fetchSurat : Z -> Error + SuratDetail.

(** The verse, or its audio dictionary, is absent from the fetched chapter:
    the call throws the no-audio error, wrapped. *)
Lemma getAyatAudioUrl_not_found
    (suratId ayatNumber : Z) (qariKey : string) (detail : SuratDetail) :
  getSuratDetail fetchSurat suratId = inr detail ->
  (forall a, List.find (fun a => nomorAyat a =? ayatNumber) (ayat detail) = Some a ->
             audio a = None) ->
  getAyatAudioUrl fetchSurat suratId ayatNumber qariKey
  = inl (mkError ("Gagal mendapatkan URL audio: " +:+ message err_no_audio)).
Proof.
  intros Hd Hnone. unfold getAyatAudioUrl. rewrite Hd.
  destruct (List.find _ (ayat detail)) as [a |] eqn:Hfind; [| reflexivity].
  rewrite (Hnone a eq_refl). reflexivity.
Qed.

(** The verse has an audio dictionary and the reciter key is one of the
    five: the call returns what the dictionary holds under the reciter's
    id. *)
Lemma getAyatAudioUrl_found
    (suratId ayatNumber : Z) (qariKey qariId : string) (detail : SuratDetail)
    (a : Ayat) (urls : gmap string string) :
  getSuratDetail fetchSurat suratId = inr detail ->
  List.find (fun a => nomorAyat a =? ayatNumber) (ayat detail) = Some a ->
  audio a = Some urls ->
  qariMapping !! qariKey = Some qariId ->
  getAyatAudioUrl fetchSurat suratId ayatNumber qariKey = inr (urls !! qariId).
Proof.
  intros Hd Hfind Ha Hq. unfold getAyatAudioUrl.
  rewrite Hd, Hfind, Ha, Hq. reflexivity.
Qed.

End VerseAudio.

Section VerseAudioUnknownReciter.
Import QuranAPI.

Example pad3_short : pad3 7 = "007"%string /\ pad3 114 = "114"%string.
Proof. split; reflexivity. Qed.

Example getAudioUrl_known :
  getAudioUrl 114 1 "abdullah_al_juhany"
  = inr "https://cdn.equran.id/audio-partial/Abdullah-Al-Juhany/114001.mp3"%string.
Proof. vm_compute. reflexivity. Qed.

(** C7 at a reciter key that is not one of the five: chapter 1, verse 1 is
    fetched with its audio dictionary, and [getAyatAudioUrl] returns
    [undefined] where the claim has it throw; [getAudioUrl] throws the
    invalid-reciter error on the same key. *)
Theorem getAyatAudioUrl_unknown_reciter :
  qariMapping !! "unknown_qari"%string = None
  /\ getAyatAudioUrl Samples.sample_remote 1 1 "unknown_qari" = inr None
  /\ getAudioUrl 1 1 "unknown_qari" = inl err_invalid_qari
  /\ getAyatAudioUrl Samples.sample_remote 1 1 "abdullah_al_juhany"
     = inr (Some "https://cdn.equran.id/audio-partial/Abdullah-Al-Juhany/001001.mp3"%string)
  /\ getAyatAudioUrl Samples.sample_remote 1 2 "abdullah_al_juhany"
     = inl (mkError "Gagal mendapatkan URL audio: Audio tidak tersedia untuk ayat ini").
Proof. repeat split; vm_compute; reflexivity. Qed.

End VerseAudioUnknownReciter.

(** ** The response cache (api.js) *)

Section CacheWindow.
Import QuranAPI.

Context {T W : Type}.
Variable clock : W -> Z.

(** C8: with an entry for the key that is younger than one hour,
    [getCachedData] returns the entry's value and leaves cache and world as
    they are, whatever the producer is; with no entry, or an entry one hour
    old or older, it runs the producer and, when the producer yields a
    value, stores it under the key with the clock reading taken after the
    producer is done and returns it.  A producer that fails makes the call
    fail, with the expired entry gone. *)
Theorem getCachedData_window
    (key : string) (fetchFunction : W -> (Error + T) * W)
    (cache : gmap string (CacheEntry (T := T))) (w : W) :
  (forall cached,
      cache !! key = Some cached ->
      clock w - timestamp cached < 3600000 ->
      getCachedData clock key fetchFunction (cache, w)
      = (inr (data cached), (cache, w)))
  /\ (forall d w',
         cache !! key = None
         \/ (exists cached, cache !! key = Some cached
                            /\ 3600000 <= clock w - timestamp cached) ->
         fetchFunction w = (inr d, w') ->
         getCachedData clock key fetchFunction (cache, w)
         = (inr d, (<[key := mkCacheEntry d (clock w')]> cache, w')))
  /\ (forall e w',
         cache !! key = None
         \/ (exists cached, cache !! key = Some cached
                            /\ 3600000 <= clock w - timestamp cached) ->
         fetchFunction w = (inl e, w') ->
         getCachedData clock key fetchFunction (cache, w)
         = (inl e, (delete key cache, w'))).
Proof.
  split; [| split].
  - intros cached Hc Hage. unfold getCachedData. rewrite Hc.
    destruct (Z.ltb_spec (clock w - timestamp cached) 3600000); [reflexivity | lia].
  - intros d w' Hmiss Hf. unfold getCachedData.
    destruct Hmiss as [Hc | (cached & Hc & Hage)]; rewrite Hc.
    + rewrite Hf. reflexivity.
    + destruct (Z.ltb_spec (clock w - timestamp cached) 3600000); [lia |].
      rewrite Hf. rewrite insert_delete_eq. reflexivity.
  - intros e w' Hmiss Hf. unfold getCachedData.
    destruct Hmiss as [Hc | (cached & Hc & Hage)]; rewrite Hc.
    + rewrite Hf. rewrite delete_id by exact Hc. reflexivity.
    + destruct (Z.ltb_spec (clock w - timestamp cached) 3600000); [lia |].
      rewrite Hf. reflexivity.
Qed.

End CacheWindow.

Section CacheWindowInstance.
Import QuranAPI.

Lemma getCachedData_window_witness :
  getCachedData id "surat-1" Samples.sample_producer (Samples.sample_cache, 3600999)
  = (inr "cached"%string, (Samples.sample_cache, 3600999))
  /\ getCachedData id "surat-1" Samples.sample_producer (Samples.sample_cache, 3601000)
     = (inr "fetched"%string,
        (<["surat-1" := mkCacheEntry "fetched"%string 3601005]> Samples.sample_cache,
         3601005)).
Proof.
  split.
  - apply (proj1 (getCachedData_window id "surat-1" Samples.sample_producer
                    Samples.sample_cache 3600999)
             (mkCacheEntry "cached"%string 1000)).
    + reflexivity.
    + simpl. lia.
  - apply (proj1 (proj2 (getCachedData_window id "surat-1" Samples.sample_producer
                           Samples.sample_cache 3601000))
             "fetched"%string 3601005).
    + right. exists (mkCacheEntry "cached"%string 1000).
      split; [reflexivity | simpl; lia].
    + reflexivity.
Defined.

End CacheWindowInstance.

(** * Further properties of the modules *)

(** ** Theme and initialisation (storage.js) *)

Section ThemeAndInit.
Import StorageManager.

(** X1: [setTheme] writes ['light'] and ['dark'] and nothing else: a valid value
    is stored and read back by [getTheme]; any other value is refused with
    [false] and the storage stays as it is; so a theme that reads as light
    or dark keeps reading so after any [setTheme]. *)
Theorem setTheme_two_values (theme : string) (ls : LocalStorage) :
  (valid_theme theme ->
   setTheme theme ls = (inr true, write_theme (Some theme) ls)
   /\ getTheme (run (setTheme theme) ls) = theme)
  /\ (~ valid_theme theme -> setTheme theme ls = (inr false, ls))
  /\ (valid_theme (getTheme ls) -> valid_theme (getTheme (run (setTheme theme) ls))).
Proof.
  assert (Hdec : existsb (String.eqb theme) ["light"; "dark"]%string = true
                 <-> valid_theme theme).
  { unfold valid_theme. simpl. rewrite !orb_true_iff, !String.eqb_eq.
    intuition discriminate. }
  split; [| split].
  - intros Hv. pose proof (proj2 Hdec Hv) as He. unfold run, setTheme.
    rewrite He. split; [reflexivity |].
    destruct Hv as [-> | ->]; reflexivity.
  - intros Hn. unfold setTheme.
    destruct (existsb _ _); [| reflexivity].
    exfalso. apply Hn, Hdec. reflexivity.
  - intros Hold. unfold run, setTheme.
    destruct (existsb _ _); [| exact Hold].
    destruct (proj1 Hdec eq_refl) as [-> | ->]; [left | right]; reflexivity.
Qed.

(** X2: [initializeStorage] changes no answer of the four getters, writes
    every absent key, touches no account key and does nothing when run
    again. *)
Theorem initializeStorage_keeps_getters (ls : LocalStorage) :
  let ls' := initializeStorage ls in
  getBookmarks ls' = getBookmarks ls
  /\ getHistory ls' = getHistory ls
  /\ getSettings ls' = getSettings ls
  /\ getTheme ls' = getTheme ls
  /\ (is_Some (quran_bookmarks ls') /\ is_Some (quran_history ls')
      /\ is_Some (quran_settings ls') /\ is_Some (quran_theme ls'))
  /\ (quran_users ls' = quran_users ls
      /\ quran_current_user ls' = quran_current_user ls
      /\ quran_session ls' = quran_session ls
      /\ quran_user ls' = quran_user ls)
  /\ initializeStorage ls' = ls'.
Proof.
  destruct ls as [b h t u st us cu se].
  destruct b, h, st, t as [[| c t] |]; cbv zeta; unfold initializeStorage; simpl;
    repeat split; eauto.
Qed.

End ThemeAndInit.

(** ** Removing bookmarks (storage.js) *)

Section BookmarksRemove.
Import StorageManager.

Lemma filter_out_none {A} (p : A -> bool) (l : list A) :
  existsb p (List.filter (fun x => negb (p x)) l) = false.
Proof.
  induction l as [| x l IH]; simpl; [reflexivity |].
  destruct (p x) eqn:Hp; simpl; [exact IH | rewrite Hp; exact IH].
Qed.

Lemma filter_out_absent {A} (p : A -> bool) (l : list A) :
  existsb p l = false -> List.filter (fun x => negb (p x)) l = l.
Proof.
  induction l as [| x l IH]; simpl; [reflexivity |].
  intros H. apply orb_false_iff in H as [Hp Hl]. rewrite Hp. simpl.
  f_equal. exact (IH Hl).
Qed.


Lemma filter_out_sublist {A} (f : A -> bool) (l : list A) :
  List.filter f l `sublist_of` l.
Proof.
  induction l as [| x l IH]; simpl; [constructor |].
  destruct (f x); [apply sublist_skip | apply sublist_cons]; exact IH.
Qed.

Lemma isBookmarked_add_surat (ls : LocalStorage) (c : SuratData) (now : Z) :
  isBookmarked (KSurat (sd_nomor c)) (run (addBookmark (BSurat c) now) ls) = true.
Proof.
  rewrite addBookmark_surat. unfold isBookmarked. rewrite getBookmarks_write.
  destruct (has_surat _ _) eqn:Hhas; [exact Hhas |].
  simpl. rewrite Z.eqb_refl. reflexivity.
Qed.

Lemma isBookmarked_remove (ls : LocalStorage) (key : BookmarkKey) :
  isBookmarked key (run (removeBookmark key) ls) = false.
Proof.
  destruct key as [n | sid an | ty]; unfold isBookmarked, run, removeBookmark;
    simpl; [| | reflexivity].
  - apply (filter_out_none (fun s => sb_nomor s =? n)).
  - apply (filter_out_none (ayat_matches sid an)).
Qed.

(** X3: After [addBookmark] the chapter, or the verse, is bookmarked whatever the
    storage held; after [removeBookmark] the key removed is not bookmarked,
    whatever the key. *)
Theorem isBookmarked_after_add_and_remove
    (ls : LocalStorage) (c : SuratData) (v : AyatData) (now : Z)
    (key : BookmarkKey) :
  isBookmarked (KSurat (sd_nomor c)) (run (addBookmark (BSurat c) now) ls) = true
  /\ isBookmarked (KAyat (Some (ad_suratId v)) (Some (ad_nomorAyat v)))
       (run (addBookmark (BAyat v) now) ls) = true
  /\ isBookmarked key (run (removeBookmark key) ls) = false.
Proof.
  split; [apply isBookmarked_add_surat | split; [| apply isBookmarked_remove]].
  rewrite addBookmark_ayat. unfold isBookmarked. rewrite getBookmarks_write.
  destruct (has_ayat _ _ _) eqn:Hhas; [exact Hhas |].
  simpl. rewrite !Z.eqb_refl. reflexivity.
Qed.


(** X5: Bookmarking a chapter that is not bookmarked and removing it again
    gives back the stored bookmarks. *)
Theorem addBookmark_removeBookmark_restores
    (ls : LocalStorage) (c : SuratData) (now : Z) :
  isBookmarked (KSurat (sd_nomor c)) ls = false ->
  getBookmarks
    (run (removeBookmark (KSurat (sd_nomor c))) (run (addBookmark (BSurat c) now) ls))
  = getBookmarks ls.
Proof.
  intros Hnot. rewrite addBookmark_surat.
  unfold run at 1, removeBookmark, setItem. simpl.
  rewrite !getBookmarks_write.
  unfold isBookmarked in Hnot. fold (has_surat (sd_nomor c) (getBookmarks ls)) in Hnot.
  rewrite Hnot. simpl. rewrite Z.eqb_refl. simpl.
  rewrite (filter_out_absent (fun s => sb_nomor s =? sd_nomor c)) by exact Hnot.
  destruct (getBookmarks ls); reflexivity.
Qed.

Lemma addBookmark_removeBookmark_witness :
  isBookmarked (KSurat 1) fresh_storage = false
  /\ getBookmarks
       (run (removeBookmark (KSurat 1))
          (run (addBookmark (BSurat Samples.al_fatihah) 10) fresh_storage))
     = getBookmarks fresh_storage.
Proof.
  split; [reflexivity |].
  apply (addBookmark_removeBookmark_restores fresh_storage Samples.al_fatihah 10).
  reflexivity.
Defined.

End BookmarksRemove.

(** ** Removing history (storage.js) *)

Section HistoryRemove.
Import StorageManager.

Lemma filter_filter_count (n m : Z) (h : list HistoryEntry) :
  m <> n ->
  history_count m (filter (fun e => he_nomor e <> n) h) = history_count m h.
Proof.
  intros Hmn. unfold history_count. induction h as [| e h IH]; [reflexivity |].
  rewrite !filter_cons. destruct (decide (he_nomor e <> n)) as [Hne | Heq].
  - rewrite filter_cons. destruct (decide (he_nomor e = m)); simpl; congruence.
  - destruct (decide (he_nomor e = m)) as [Hem | Hem]; [| exact IH].
    exfalso. apply Heq. congruence.
Qed.

(** X6: [removeFromHistory (n)] leaves no entry of chapter [n], keeps the
    entries of every other chapter in their order, keeps the history
    invariant, and touches the history key only. *)
Theorem removeFromHistory_only_that_chapter (ls : LocalStorage) (n : Z) :
  let h := getHistory ls in
  let ls' := run (removeFromHistory n) ls in
  let h' := getHistory ls' in
  history_count n h' = 0%nat
  /\ (forall m, m <> n -> history_count m h' = history_count m h)
  /\ h' `sublist_of` h
  /\ (history_ok h -> history_ok h')
  /\ ls' = write_history (Some h') ls.
Proof.
  cbv zeta.
  change (getHistory (run (removeFromHistory n) ls))
    with (filter (fun e => he_nomor e <> n) (getHistory ls)).
  split; [| split; [| split; [| split]]].
  - unfold history_count.
    apply (filter_none_length (fun e => he_nomor e = n)).
    apply Forall_forall. intros e He. apply list_elem_of_filter in He as [He _].
    exact He.
  - intros m Hm. apply filter_filter_count. exact Hm.
  - apply sublist_filter.
  - intros (Hnd & Hlen & Hs). split; [| split].
    + eapply sublist_NoDup; [exact Hnd |]. apply fmap_sublist, sublist_filter.
    + pose proof (length_filter (fun e => he_nomor e <> n) (getHistory ls)). lia.
    + eapply StronglySorted_sublist; [apply sublist_filter | exact Hs].
  - reflexivity.
Qed.

(** Recording a chapter that the history does not hold, with fewer than 50
    entries stored, and removing it again gives back the stored history. *)
Theorem addHistory_removeFromHistory_restores
    (ls : LocalStorage) (d : SuratData) (now : Z) :
  history_count (sd_nomor d) (getHistory ls) = 0%nat ->
  (length (getHistory ls) < 50)%nat ->
  getHistory (run (removeFromHistory (sd_nomor d)) (run (addHistory d now) ls))
  = getHistory ls.
Proof.
  intros Hcount Hlen.
  change (getHistory (run (removeFromHistory (sd_nomor d)) (run (addHistory d now) ls)))
    with (filter (fun e => he_nomor e <> sd_nomor d)
            (getHistory (run (addHistory d now) ls))).
  rewrite addHistory_history.
  assert (Hid : filter (fun e => he_nomor e <> sd_nomor d) (getHistory ls)
                = getHistory ls).
  { apply (filter_none_length (fun e => he_nomor e = sd_nomor d)) in Hcount.
    induction Hcount as [| e l He Hall IH]; [reflexivity |].
    rewrite filter_cons_True by exact He. f_equal.
    apply IH. simpl in Hlen. lia. }
  rewrite Hid. rewrite take_ge by lia.
  rewrite filter_cons_False by (simpl; intros H; apply H; reflexivity).
  exact Hid.
Qed.

Lemma addHistory_removeFromHistory_witness :
  history_count 1 (getHistory fresh_storage) = 0%nat
  /\ getHistory
       (run (removeFromHistory 1) (run (addHistory Samples.al_fatihah 10) fresh_storage))
     = getHistory fresh_storage.
Proof.
  split; [reflexivity |].
  apply (addHistory_removeFromHistory_restores fresh_storage Samples.al_fatihah 10).
  - reflexivity.
  - simpl. lia.
Defined.

End HistoryRemove.

(** ** Export, backup and their readers (storage.js) *)

Section Envelopes.
Import StorageManager.

(** X7: Importing an export into any storage succeeds and makes the four getters
    answer what they answered on the exporting storage; the account keys of
    the importing storage stay. *)
Theorem exportData_importData_round_trip
    (ls target : LocalStorage) (exportDate : string) :
  let r := importData (Some (as_import (exportData exportDate ls))) target in
  fst r = inr true
  /\ getBookmarks (snd r) = getBookmarks ls
  /\ getHistory (snd r) = getHistory ls
  /\ getSettings (snd r) = getSettings ls
  /\ getTheme (snd r) = getTheme ls
  /\ quran_users (snd r) = quran_users target
  /\ quran_current_user (snd r) = quran_current_user target
  /\ quran_session (snd r) = quran_session target.
Proof.
  assert (Ht : truthy_str (getTheme ls) = true).
  { unfold getTheme. destruct (quran_theme ls) as [[| c t] |]; reflexivity. }
  cbv zeta. unfold importData, try_catch, importData_try, as_import, exportData, bind.
  simpl. rewrite Ht. simpl. repeat split.
  unfold getTheme at 1. simpl. rewrite Ht. reflexivity.
Qed.

(** X8: Restoring a backup into any storage succeeds and makes the four getters
    answer what they answered on the storage backed up. *)
Theorem createBackup_restoreBackup_round_trip
    (ls target : LocalStorage) (createdAt userAgent : string) :
  let r := restoreBackup (Some (createBackup createdAt userAgent ls)) target in
  fst r = inr true
  /\ getBookmarks (snd r) = getBookmarks ls
  /\ getHistory (snd r) = getHistory ls
  /\ getSettings (snd r) = getSettings ls
  /\ getTheme (snd r) = getTheme ls
  /\ quran_users (snd r) = quran_users target
  /\ quran_current_user (snd r) = quran_current_user target
  /\ quran_session (snd r) = quran_session target.
Proof.
  assert (Ht : truthy_str (getTheme ls) = true).
  { unfold getTheme. destruct (quran_theme ls) as [[| c t] |]; reflexivity. }
  cbv zeta. unfold restoreBackup, try_catch, restoreBackup_try, createBackup, bind.
  simpl. rewrite Ht. simpl. repeat split.
  unfold getTheme at 1. simpl. rewrite Ht. reflexivity.
Qed.

(** The two envelopes do not stand in for each other: [importData] refuses
    every backup and [restoreBackup] refuses every export, each with
    [false] and the storage unchanged. *)
Theorem envelopes_not_interchangeable
    (ls target : LocalStorage) (date userAgent : string) :
  importData (Some (as_import (createBackup date userAgent ls))) target
  = (inr false, target)
  /\ restoreBackup (Some (exportData date ls)) target = (inr false, target).
Proof. split; reflexivity. Qed.

(** A backup without its [data] or without its [metadata] object is
    refused and nothing is applied. *)
Theorem restoreBackup_missing_part_applies_nothing
    (backup : Document) (ls : LocalStorage) :
  doc_data backup = None \/ doc_metadata backup = None ->
  restoreBackup_try (Some backup) ls = (inl InvalidBackupFormat, ls)
  /\ restoreBackup (Some backup) ls = (inr false, ls).
Proof.
  intros Hmiss. unfold restoreBackup, try_catch, restoreBackup_try.
  destruct Hmiss as [-> | ->]; [| destruct (doc_data backup)]; split; reflexivity.
Qed.

Lemma restoreBackup_missing_part_witness :
  restoreBackup (Some (exportData "2024-01-01T00:00:00.000Z" fresh_storage))
    Samples.duplicated_history_storage
  = (inr false, Samples.duplicated_history_storage).
Proof.
  apply (restoreBackup_missing_part_applies_nothing
           (exportData "2024-01-01T00:00:00.000Z" fresh_storage)
           Samples.duplicated_history_storage).
  left. reflexivity.
Defined.

(** [clearAllData] puts the four categories back to their defaults, removes
    the stored user record, and leaves the accounts, the current user and
    the session of the account simulator alone. *)
Theorem clearAllData_resets_store_only (ls : LocalStorage) :
  let ls' := run clearAllData ls in
  getBookmarks ls' = default_bookmarks
  /\ getHistory ls' = []
  /\ getSettings ls' = default_settings
  /\ getTheme ls' = "light"%string
  /\ quran_user ls' = None
  /\ quran_users ls' = quran_users ls
  /\ quran_current_user ls' = quran_current_user ls
  /\ quran_session ls' = quran_session ls
  /\ run clearAllData ls' = ls'.
Proof. cbv zeta. repeat split. Qed.

End Envelopes.

(** ** Cleaning up (storage.js) *)

Section Cleanup.
Import StorageManager.

Lemma filter_same_length {A} (P : A -> Prop) `{forall x, Decision (P x)}
    (l : list A) :
  length (filter P l) = length l -> filter P l = l.
Proof.
  induction l as [| x l IH]; [reflexivity |].
  rewrite filter_cons. destruct (decide (P x)); simpl; intros Hlen.
  - f_equal. apply IH. lia.
  - pose proof (length_filter P l). lia.
Qed.

Lemma fmap_if_never {A} (b : A -> bool) (g : A -> A) (l : list A) :
  Forall (fun x => b x = false) l ->
  (fun x => if b x then g x else x) <$> l = l.
Proof.
  induction 1 as [| x l Hx Hall IH]; [reflexivity |].
  rewrite fmap_cons, Hx. f_equal. exact IH.
Qed.

(** The history [cleanupOldData] leaves. *)
Lemma cleanupOldData_history (now : Z) (ls : LocalStorage) :
  getHistory (run (cleanupOldData now) ls)
  = filter (fun e => now - 15552000000 < he_timestamp e) (getHistory ls).
Proof.
  unfold run, cleanupOldData. simpl.
  change (now - 6 * 30 * 24 * 60 * 60 * 1000) with (now - 15552000000).
  set (recent := filter _ (getHistory ls)).
  destruct (Nat.eqb_spec (length recent) (length (getHistory ls))) as [Heq | Hne];
    simpl.
  - apply filter_same_length in Heq. fold recent in Heq.
    destruct (_ || _); [change (getHistory ls = recent) |]; congruence.
  - destruct (_ || _); reflexivity.
Qed.

(** The bookmarks [cleanupOldData] leaves: the stored ones, each with a
    falsy time stamp replaced by the clock reading. *)
Lemma cleanupOldData_bookmarks (now : Z) (ls : LocalStorage) :
  getBookmarks (run (cleanupOldData now) ls)
  = mkBookmarks
      ((fun s => if sb_timestamp s =? 0
                 then mkSuratBookmark (sb_nomor s) (sb_nama s) (sb_namaLatin s)
                        (sb_jumlahAyat s) (sb_tempatTurun s) now
                 else s) <$> surat (getBookmarks ls))
      ((fun a => if ab_timestamp a =? 0
                 then mkAyatBookmark (ab_suratId a) (ab_suratNama a) (ab_nomorAyat a)
                        (ab_teksArab a) (ab_teksIndonesia a) now
                 else a) <$> ayat (getBookmarks ls)).
Proof.
  unfold run, cleanupOldData. simpl.
  set (ls1 := if negb _ then _ else ls).
  assert (Hb : getBookmarks ls1 = getBookmarks ls).
  { subst ls1. destruct (negb _); reflexivity. }
  rewrite Hb.
  destruct (existsb _ (surat (getBookmarks ls)) || existsb _ (ayat (getBookmarks ls)))
    eqn:Hup; [reflexivity |].
  apply orb_false_iff in Hup as [Hs Ha].
  apply existsb_false_Forall in Hs, Ha. rewrite Hb.
  rewrite (fmap_if_never (fun s => sb_timestamp s =? 0)) by exact Hs.
  rewrite (fmap_if_never (fun a => ab_timestamp a =? 0)) by exact Ha.
  destruct (getBookmarks ls); reflexivity.
Qed.

(** What [cleanupOldData] does not write. *)
Lemma cleanupOldData_frame (now : Z) (ls : LocalStorage) :
  let ls' := run (cleanupOldData now) ls in
  quran_theme ls' = quran_theme ls
  /\ quran_settings ls' = quran_settings ls
  /\ quran_user ls' = quran_user ls
  /\ quran_users ls' = quran_users ls
  /\ quran_current_user ls' = quran_current_user ls
  /\ quran_session ls' = quran_session ls.
Proof.
  unfold run, cleanupOldData. simpl.
  destruct (negb _); destruct (_ || _); repeat split; reflexivity.
Qed.

(** X9: [cleanupOldData] keeps exactly the history entries newer than six
    months of 30 days, in their order.  It keeps every bookmark, in its
    place and with every field as it was, except that a falsy (0) time stamp
    becomes the clock reading: a time stamp other than 0 is kept, so are the
    names and the uniqueness key.  With a clock reading other than 0 no
    bookmark is left without a time stamp.  The incremental invariants
    survive, and no key other than the history and the bookmarks is
    written. *)
Theorem cleanupOldData_keeps_recent (now : Z) (ls : LocalStorage) :
  let ls' := run (cleanupOldData now) ls in
  let stamped (t : Z) := if t =? 0 then now else t in
  getHistory ls'
  = filter (fun e => now - 15552000000 < he_timestamp e) (getHistory ls)
  /\ Forall2
       (fun s s' =>
          sb_nomor s' = sb_nomor s /\ sb_nama s' = sb_nama s
          /\ sb_namaLatin s' = sb_namaLatin s
          /\ sb_jumlahAyat s' = sb_jumlahAyat s
          /\ sb_tempatTurun s' = sb_tempatTurun s
          /\ sb_timestamp s' = stamped (sb_timestamp s))
       (surat (getBookmarks ls)) (surat (getBookmarks ls'))
  /\ Forall2
       (fun a a' =>
          ab_suratId a' = ab_suratId a /\ ab_suratNama a' = ab_suratNama a
          /\ ab_nomorAyat a' = ab_nomorAyat a
          /\ ab_teksArab a' = ab_teksArab a
          /\ ab_teksIndonesia a' = ab_teksIndonesia a
          /\ ab_timestamp a' = stamped (ab_timestamp a))
       (ayat (getBookmarks ls)) (ayat (getBookmarks ls'))
  /\ (Forall (fun s => sb_timestamp s <> 0) (surat (getBookmarks ls)) ->
      Forall (fun a => ab_timestamp a <> 0) (ayat (getBookmarks ls)) ->
      getBookmarks ls' = getBookmarks ls)
  /\ sb_nomor <$> surat (getBookmarks ls') = sb_nomor <$> surat (getBookmarks ls)
  /\ ayat_key <$> ayat (getBookmarks ls') = ayat_key <$> ayat (getBookmarks ls)
  /\ (now <> 0 ->
      Forall (fun s => sb_timestamp s <> 0) (surat (getBookmarks ls'))
      /\ Forall (fun a => ab_timestamp a <> 0) (ayat (getBookmarks ls')))
  /\ (store_ok ls -> store_ok ls')
  /\ quran_theme ls' = quran_theme ls
  /\ quran_settings ls' = quran_settings ls
  /\ quran_users ls' = quran_users ls
  /\ quran_current_user ls' = quran_current_user ls
  /\ quran_session ls' = quran_session ls.
Proof.
  cbv zeta.
  destruct (cleanupOldData_frame now ls) as (Ht & Hse & _ & Hus & Hcu & Hss).
  cbv zeta in Ht, Hse, Hus, Hcu, Hss.
  rewrite cleanupOldData_history, cleanupOldData_bookmarks. simpl.
  assert (Hk1 : forall l : list SuratBookmark,
             sb_nomor <$> ((fun s => if sb_timestamp s =? 0
                 then mkSuratBookmark (sb_nomor s) (sb_nama s) (sb_namaLatin s)
                        (sb_jumlahAyat s) (sb_tempatTurun s) now
                 else s) <$> l) = sb_nomor <$> l).
  { intros l. rewrite <- list_fmap_compose. apply list_fmap_ext.
    intros i s _. simpl. destruct (sb_timestamp s =? 0); reflexivity. }
  assert (Hk2 : forall l : list AyatBookmark,
             ayat_key <$> ((fun a => if ab_timestamp a =? 0
                 then mkAyatBookmark (ab_suratId a) (ab_suratNama a) (ab_nomorAyat a)
                        (ab_teksArab a) (ab_teksIndonesia a) now
                 else a) <$> l) = ayat_key <$> l).
  { intros l. rewrite <- list_fmap_compose. apply list_fmap_ext.
    intros i a _. simpl. destruct (ab_timestamp a =? 0); reflexivity. }
  split; [reflexivity |].
  split.
  { apply Forall2_fmap_r, Forall_Forall2_diag, Forall_forall. intros s _.
    unfold compose. cbv beta.
    destruct (sb_timestamp s =? 0); simpl; repeat split; reflexivity. }
  split.
  { apply Forall2_fmap_r, Forall_Forall2_diag, Forall_forall. intros a _.
    unfold compose. cbv beta.
    destruct (ab_timestamp a =? 0); simpl; repeat split; reflexivity. }
  split.
  { intros Hs Ha.
    rewrite (fmap_if_never (fun s => sb_timestamp s =? 0)).
    2: { eapply Forall_impl; [exact Hs |]. intros s Hne. apply Z.eqb_neq, Hne. }
    rewrite (fmap_if_never (fun a => ab_timestamp a =? 0)).
    2: { eapply Forall_impl; [exact Ha |]. intros a Hne. apply Z.eqb_neq, Hne. }
    destruct (getBookmarks ls); reflexivity. }
  split; [apply Hk1 |]. split; [apply Hk2 |]. split.
  - intros Hnow. split; apply Forall_fmap, Forall_forall; intros x _; simpl.
    + destruct (Z.eqb_spec (sb_timestamp x) 0); simpl; congruence.
    + destruct (Z.eqb_spec (ab_timestamp x) 0); simpl; congruence.
  - split; [| repeat split; assumption].
    intros (Hnd & Hlen & Hs & Ha). unfold store_ok, bookmarks_unique.
    rewrite cleanupOldData_history, cleanupOldData_bookmarks.
    split; [| split; [| split]].
    + eapply sublist_NoDup; [exact Hnd |]. apply fmap_sublist, sublist_filter.
    + pose proof (length_filter (fun e => now - 15552000000 < he_timestamp e)
                    (getHistory ls)). lia.
    + simpl. rewrite Hk1. exact Hs.
    + simpl. rewrite Hk2. exact Ha.
Qed.

End Cleanup.

(** ** Failing registration and login (auth.js) *)

Section AuthFailures.
Import AuthManager JsString.

(** X13: A [register] that throws has written nothing, and what it throws is one
    of its four errors. *)
Theorem register_failure_writes_nothing
    (username password newId : string) (now : Z) (ls ls' : LocalStorage)
    (e : Error) :
  register username password newId now ls = (inl e, ls') ->
  ls' = ls
  /\ (e = err_required \/ e = err_username_short \/ e = err_password_short
      \/ e = err_username_taken).
Proof.
  unfold register, bind, get, throw, ret, modify, createUserSession.
  destruct (negb (truthy_str username) || negb (truthy_str password));
    [intros [= <- <-]; auto |].
  destruct (String.length username <? 3)%nat; [intros [= <- <-]; auto |].
  destruct (String.length password <? 6)%nat; [intros [= <- <-]; auto |].
  destruct (list_find _ _) as [[i u] |]; [intros [= <- <-]; auto 6 |].
  simpl. discriminate.
Qed.

Lemma register_failure_witness :
  register "ab" "secret1" "user_2" 2000 Samples.registered_storage
  = (inl err_username_short, Samples.registered_storage)
  /\ snd (register "ab" "secret1" "user_2" 2000 Samples.registered_storage)
     = Samples.registered_storage.
Proof.
  assert (H : register "ab" "secret1" "user_2" 2000 Samples.registered_storage
              = (inl err_username_short, Samples.registered_storage))
    by (vm_compute; reflexivity).
  split; [exact H |].
  rewrite H. simpl.
  apply (register_failure_writes_nothing _ _ _ _ _ _ _ H).
Defined.

(** X14: A [login] that throws has written nothing: no last-login stamp, no
    session; what it throws is one of its four errors. *)
Theorem login_failure_writes_nothing
    (username password : string) (now : Z) (ls ls' : LocalStorage) (e : Error) :
  login username password now ls = (inl e, ls') ->
  ls' = ls
  /\ (e = err_required \/ e = err_username_unknown \/ e = err_inactive
      \/ e = err_wrong_password).
Proof.
  unfold login, bind, get, throw, ret, modify, createUserSession.
  destruct (negb (truthy_str username) || negb (truthy_str password));
    [intros [= <- <-]; auto |].
  destruct (list_find _ _) as [[i u] |]; [| intros [= <- <-]; auto].
  destruct (negb (u_isActive u)); [intros [= <- <-]; auto 6 |].
  destruct (negb (verifyPassword password (u_password u)));
    [intros [= <- <-]; auto 6 |].
  simpl. discriminate.
Qed.

Lemma login_failure_witness :
  login "hasan" "salah123" 2000 Samples.registered_storage
  = (inl err_wrong_password, Samples.registered_storage)
  /\ snd (login "hasan" "salah123" 2000 Samples.registered_storage)
     = Samples.registered_storage.
Proof.
  assert (H : login "hasan" "salah123" 2000 Samples.registered_storage
              = (inl err_wrong_password, Samples.registered_storage))
    by (vm_compute; reflexivity).
  split; [exact H |].
  rewrite H. simpl.
  apply (login_failure_writes_nothing _ _ _ _ _ _ H).
Defined.

(** X15: After a registration under a name that [trim] leaves alone, a second
    registration under a name that differs at most in letter case is
    refused with the name-taken error, whatever password and id it brings,
    and writes nothing. *)
Theorem register_same_name_twice
    (username password newId : string) (t1 : Z) (ls ls1 : LocalStorage)
    (su : SessionUser)
    (username' password' newId' : string) (t2 : Z) :
  trim username = username ->
  register username password newId t1 ls = (inr su, ls1) ->
  toLowerCase username' = toLowerCase username ->
  (3 <= String.length username')%nat ->
  (6 <= String.length password')%nat ->
  register username' password' newId' t2 ls1 = (inl err_username_taken, ls1).
Proof.
  intros Htrim Hreg Hsame Hu Hp.
  apply register_success in Hreg as (_ & _ & Hnone & _ & Husers).
  unfold register, bind, get, throw, ret, modify.
  destruct username' as [| c u']; [simpl in Hu; lia |].
  destruct password' as [| c' p']; [simpl in Hp; lia |].
  destruct (Nat.ltb_spec (String.length (String c u')) 3); [lia |].
  destruct (Nat.ltb_spec (String.length (String c' p')) 6); [lia |].
  change (negb (truthy_str (String c u')) || negb (truthy_str (String c' p')))
    with false.
  cbv beta iota. rewrite Husers.
  destruct (list_find (same_username (String c u')) _) as [[i u] |] eqn:Hfind;
    [reflexivity |].
  exfalso. apply list_find_None in Hfind.
  apply Forall_app in Hfind as [_ Hlast].
  apply Forall_cons in Hlast as [Hlast _]. apply Hlast.
  unfold same_username, newUser. cbn [u_username]. rewrite Htrim.
  symmetry. exact Hsame.
Qed.

Lemma register_same_name_twice_witness :
  register "HASAN" "rahasia9" "user_2" 2000 Samples.registered_storage
  = (inl err_username_taken, Samples.registered_storage).
Proof.
  apply (register_same_name_twice "hasan" "rahasia1" "user_1" 1000
           StorageManager.fresh_storage Samples.registered_storage
           (mkSessionUser "user_1" "hasan" "hasan"
              (<["displayName" := "hasan"%string]>
                 (<["preferredQari" := ""%string]>
                    (<["fontSize" := "medium"%string]>
                       (<["theme" := "light"%string]> ∅)))) 1000)).
  - reflexivity.
  - vm_compute. reflexivity.
  - reflexivity.
  - simpl. lia.
  - simpl. lia.
Defined.

End AuthFailures.

(** ** The life of a session (auth.js) *)

Section SessionLife.
Import AuthManager JsString.

(** A session that is not valid is removed together with the current
    user. *)
Lemma getCurrentUser_invalid_session
    (ls : LocalStorage) (session : Session) (t : Z) :
  quran_session ls = Some session ->
  isSessionValid session t = false ->
  getCurrentUser t ls
  = (inr None, write_session None (write_current_user None ls)).
Proof.
  intros Hs Hv. unfold getCurrentUser, bind, get. rewrite Hs, Hv. reflexivity.
Qed.

(** What [createUserSession] stores. *)
Lemma createUserSession_stores
    (user : User) (now : Z) (ls ls' : LocalStorage) (su : SessionUser) :
  createUserSession user now ls = (inr su, ls') ->
  su_id su = u_id user
  /\ quran_current_user ls' = Some su
  /\ quran_session ls' = Some (mkSession (su_id su) now (now + 86400000) true)
  /\ quran_users ls' = quran_users ls.
Proof.
  unfold createUserSession, bind, modify, ret. intros [= <- <-]. auto.
Qed.

(** A successful [login] leaves a current user and a session of 24 hours. *)
Lemma login_stores
    (username password : string) (now : Z) (ls ls' : LocalStorage)
    (su : SessionUser) :
  login username password now ls = (inr su, ls') ->
  quran_current_user ls' = Some su
  /\ quran_session ls' = Some (mkSession (su_id su) now (now + 86400000) true).
Proof.
  unfold login, bind, get, throw, ret, modify.
  destruct (negb (truthy_str username) || negb (truthy_str password));
    [discriminate |].
  destruct (list_find _ _) as [[i u] |]; [| discriminate].
  destruct (negb (u_isActive u)); [discriminate |].
  destruct (negb (verifyPassword password (u_password u))); [discriminate |].
  intros H. apply createUserSession_stores in H. tauto.
Qed.

(** A successful [register] leaves a current user and a session of 24
    hours. *)
Lemma register_stores
    (username password newId : string) (now : Z) (ls ls' : LocalStorage)
    (su : SessionUser) :
  register username password newId now ls = (inr su, ls') ->
  quran_current_user ls' = Some su
  /\ quran_session ls' = Some (mkSession (su_id su) now (now + 86400000) true).
Proof.
  unfold register, bind, get, throw, ret, modify.
  destruct (negb (truthy_str username) || negb (truthy_str password));
    [discriminate |].
  destruct (String.length username <? 3)%nat; [discriminate |].
  destruct (String.length password <? 6)%nat; [discriminate |].
  destruct (list_find _ _) as [[i u] |]; [discriminate |].
  intros H. apply createUserSession_stores in H. tauto.
Qed.

(** X18: After a successful [login] or [register] at time [now],
    [getCurrentUser] answers the user just returned at every time up to
    [now] plus 24 hours and leaves the storage alone; at any later time it
    answers [null] and removes session and current user; after [logout] it
    answers [null] at every time. *)
Theorem session_lasts_24_hours
    (username password newId : string) (now : Z) (ls ls' : LocalStorage)
    (su : SessionUser) :
  login username password now ls = (inr su, ls')
  \/ register username password newId now ls = (inr su, ls') ->
  (forall t, t <= now + 86400000 -> getCurrentUser t ls' = (inr (Some su), ls'))
  /\ (forall t, now + 86400000 < t ->
        getCurrentUser t ls'
        = (inr None, write_session None (write_current_user None ls')))
  /\ (forall t, getCurrentUser t (snd (logout ls')) = (inr None, snd (logout ls'))).
Proof.
  intros H.
  assert (Hst : quran_current_user ls' = Some su
                /\ quran_session ls'
                   = Some (mkSession (su_id su) now (now + 86400000) true)).
  { destruct H as [H | H]; [eapply login_stores | eapply register_stores]; eauto. }
  destruct Hst as [Hcu Hs]. split; [| split].
  - intros t Ht. rewrite (getCurrentUser_valid_session ls' _ t Hs).
    + rewrite Hcu. reflexivity.
    + unfold isSessionValid. simpl.
      destruct (Z.ltb_spec (now + 86400000) t); [lia | reflexivity].
  - intros t Ht. apply (getCurrentUser_invalid_session ls' _ t Hs).
    unfold isSessionValid. simpl.
    destruct (Z.ltb_spec (now + 86400000) t); [reflexivity | lia].
  - intros t. reflexivity.
Qed.

Lemma session_lasts_24_hours_witness :
  getCurrentUser 86401000 Samples.registered_storage
  = (inr (quran_current_user Samples.registered_storage), Samples.registered_storage).
Proof.
  assert (H : register "hasan" "rahasia1" "user_1" 1000 StorageManager.fresh_storage
              = (inr (mkSessionUser "user_1" "hasan" "hasan"
                        (<["displayName" := "hasan"%string]>
                           (<["preferredQari" := ""%string]>
                              (<["fontSize" := "medium"%string]>
                                 (<["theme" := "light"%string]> ∅)))) 1000),
                 Samples.registered_storage)) by (vm_compute; reflexivity).
  destruct (session_lasts_24_hours "hasan" "rahasia1" "user_1" 1000 _ _ _ (or_intror H))
    as [Hin _].
  rewrite (Hin 86401000) by lia. reflexivity.
Defined.

(** X19: [extendSession] on a valid session moves [expiresAt] to the clock
    reading plus 24 hours, changes nothing else, and [getCurrentUser] keeps
    answering the stored user until then; with no session, or one that is
    no longer valid, it answers [false] and leaves the storage as it is:
    the stale session is not removed. *)
Theorem extendSession_moves_expiry (ls : LocalStorage) (now : Z) :
  match quran_session ls with
  | Some session =>
      if isSessionValid session now then
        let ls' :=
          write_session
            (Some (mkSession (s_userId session) (s_createdAt session)
                     (now + 86400000) (s_isValid session))) ls in
        extendSession now ls = (inr true, ls')
        /\ forall t, t <= now + 86400000 ->
                     getCurrentUser t ls' = (inr (quran_current_user ls), ls')
      else extendSession now ls = (inr false, ls)
  | None => extendSession now ls = (inr false, ls)
  end.
Proof.
  unfold extendSession, bind, get, ret, modify.
  destruct (quran_session ls) as [session |] eqn:Hs; [| reflexivity].
  destruct (isSessionValid session now) eqn:Hv; [| reflexivity].
  split; [reflexivity |]. intros t Ht.
  erewrite getCurrentUser_valid_session; [reflexivity | reflexivity |].
  unfold isSessionValid in *. simpl.
  destruct (s_isValid session); simpl in *; [| discriminate].
  destruct (Z.ltb_spec (now + 86400000) t); [lia | reflexivity].
Qed.

(** The successful run of [deleteAccount], read backwards. *)
Lemma deleteAccount_success (password : string) (now : Z) (ls ls' : LocalStorage) :
  deleteAccount password now ls = (inr true, ls') ->
  exists (cu : SessionUser),
    quran_current_user ls = Some cu
    /\ ls' = write_session None
               (write_current_user None
                  (write_users
                     (Some (filter (fun u => u_id u <> su_id cu) (getUsers ls))) ls)).
Proof.
  unfold deleteAccount. unfold bind at 1.
  destruct (getCurrentUser now ls) as [[e | [cu |]] ls1] eqn:Hcur;
    [discriminate | | discriminate].
  apply getCurrentUser_Some in Hcur as (-> & Hcu & _).
  unfold bind, get, throw, ret, modify, logout.
  destruct (negb (truthy_str password)); [discriminate |].
  destruct (list_find _ (getUsers ls)) as [[i account] |]; [| discriminate].
  destruct (negb (verifyPassword password (u_password account))); [discriminate |].
  intros [= <-]. exists cu. auto.
Qed.

(** X20: A [deleteAccount] that succeeds removes every account carrying the
    current user's id and keeps the others in their order; session and
    current user are gone, so [getCurrentUser] answers [null] at every
    time; bookmarks, history, settings and theme stay. *)
Theorem deleteAccount_removes_account_and_session
    (password : string) (now : Z) (ls ls' : LocalStorage) :
  deleteAccount password now ls = (inr true, ls') ->
  exists cu : SessionUser,
    quran_current_user ls = Some cu
    /\ getUsers ls' = filter (fun u => u_id u <> su_id cu) (getUsers ls)
    /\ Forall (fun u => u_id u <> su_id cu) (getUsers ls')
    /\ quran_session ls' = None
    /\ quran_current_user ls' = None
    /\ (forall t, fst (getCurrentUser t ls') = inr None)
    /\ quran_bookmarks ls' = quran_bookmarks ls
    /\ quran_history ls' = quran_history ls
    /\ quran_settings ls' = quran_settings ls
    /\ quran_theme ls' = quran_theme ls.
Proof.
  intros H. apply deleteAccount_success in H as (cu & Hcu & ->).
  exists cu. split; [exact Hcu |]. split; [reflexivity |]. split.
  - apply Forall_forall. intros u Hu.
    change (getUsers _) with (filter (fun u => u_id u <> su_id cu) (getUsers ls)) in Hu.
    apply list_elem_of_filter in Hu. tauto.
  - repeat split.
Qed.

Lemma deleteAccount_witness :
  fst (deleteAccount "rahasia1" 2000 Samples.registered_storage) = inr true
  /\ getUsers (snd (deleteAccount "rahasia1" 2000 Samples.registered_storage)) = [].
Proof.
  assert (H : deleteAccount "rahasia1" 2000 Samples.registered_storage
              = (inr true,
                 snd (deleteAccount "rahasia1" 2000 Samples.registered_storage)))
    by (vm_compute; reflexivity).
  split; [rewrite H; reflexivity |].
  destruct (deleteAccount_removes_account_and_session _ _ _ _ H)
    as (cu & Hcu & Husers & _).
  rewrite Husers. vm_compute in Hcu. injection Hcu as <-. reflexivity.
Defined.

End SessionLife.

(** ** Passwords and the next login (auth.js) *)

Section PasswordsAndLogin.
Import AuthManager JsString.

(** Overwriting the found element by one that passes the predicate keeps it
    the one found. *)
Lemma list_find_insert_same {A} (P : A -> Prop) `{forall x, Decision (P x)}
    (l : list A) (i : nat) (x y : A) :
  list_find P l = Some (i, x) -> P y ->
  list_find P (<[i := y]> l) = Some (i, y).
Proof.
  intros Hfind Hy. apply list_find_Some in Hfind as (Hi & _ & Hbefore).
  apply list_find_Some. split; [| split].
  - apply list_lookup_insert_eq. eapply lookup_lt_Some; eauto.
  - exact Hy.
  - intros j z Hj Hlt. rewrite list_lookup_insert_ne in Hj by lia.
    eapply Hbefore; eauto.
Qed.

(** A [login] on an accounts list in which the name finds an active account
    whose checksum is the password's. *)
Lemma login_found
    (username password : string) (now : Z) (ls : LocalStorage)
    (i : nat) (account : User) :
  truthy_str username = true ->
  truthy_str password = true ->
  list_find (same_username username) (getUsers ls) = Some (i, account) ->
  u_isActive account = true ->
  u_password account = hashPassword password ->
  exists (su : SessionUser) (ls' : LocalStorage),
    login username password now ls = (inr su, ls') /\ su_id su = u_id account.
Proof.
  intros Hu Hp Hfind Hact Hpw. unfold login, bind, get, throw, ret, modify.
  rewrite Hu, Hp. simpl. rewrite Hfind, Hact, Hpw, verifyPassword_same. simpl.
  destruct (list_find _ _) as [[j u] |]; simpl;
    eexists _, _; (split; [reflexivity | reflexivity]).
Qed.

(** X21: [resetPassword] on a name that finds an active account returns the
    temporary password, marks the account as having to change it, leaves
    session and current user alone, and a [login] with the name and the
    temporary password then succeeds as that account. *)
Theorem resetPassword_then_login
    (username tempPassword : string) (now : Z) (ls : LocalStorage)
    (i : nat) (account : User) :
  truthy_str username = true ->
  truthy_str tempPassword = true ->
  list_find (same_username username) (getUsers ls) = Some (i, account) ->
  u_isActive account = true ->
  exists ls1 : LocalStorage,
    resetPassword username tempPassword ls = (inr tempPassword, ls1)
    /\ (exists account', getUsers ls1 !! i = Some account'
                         /\ u_mustChangePassword account' = true
                         /\ u_id account' = u_id account)
    /\ quran_session ls1 = quran_session ls
    /\ quran_current_user ls1 = quran_current_user ls
    /\ exists (su : SessionUser) (ls2 : LocalStorage),
        login username tempPassword now ls1 = (inr su, ls2)
        /\ su_id su = u_id account.
Proof.
  intros Hu Hp Hfind Hact.
  unfold resetPassword, bind, get, throw, ret, modify. rewrite Hfind. simpl.
  eexists. split; [reflexivity |].
  set (account' := mkUser _ _ _ _ _ _ _ true).
  assert (Hname : same_username username account').
  { apply list_find_Some in Hfind as (_ & Hn & _). exact Hn. }
  pose proof (list_find_insert_same _ _ _ _ account' Hfind Hname) as Hfind'.
  split; [| split; [reflexivity | split; [reflexivity |]]].
  - exists account'. apply list_find_Some in Hfind' as (Hi & _). auto.
  - apply (login_found username tempPassword now
             (write_users (Some (<[i := account']> (getUsers ls))) ls)
             i account' Hu Hp Hfind'); [exact Hact | reflexivity].
Qed.

Lemma resetPassword_then_login_witness :
  fst (resetPassword "hasan" "Ab3dE5gH" Samples.registered_storage) = inr "Ab3dE5gH"%string
  /\ exists (su : SessionUser) (ls2 : LocalStorage),
      login "hasan" "Ab3dE5gH" 5000
        (snd (resetPassword "hasan" "Ab3dE5gH" Samples.registered_storage))
      = (inr su, ls2).
Proof.
  destruct (resetPassword_then_login "hasan" "Ab3dE5gH" 5000
              Samples.registered_storage 0
              (newUser "hasan" "rahasia1" "user_1" 1000))
    as (ls1 & Hreset & _ & _ & _ & su & ls2 & Hlogin & _);
    try reflexivity.
  rewrite Hreset. split; [reflexivity |]. exists su, ls2. exact Hlogin.
Defined.

(** The successful run of [changePassword] has passed its checks on the two
    passwords. *)
Lemma changePassword_success_inputs
    (currentPassword newPassword : string) (now : Z) (ls ls' : LocalStorage) :
  changePassword currentPassword newPassword now ls = (inr true, ls') ->
  truthy_str newPassword = true /\ (6 <= String.length newPassword)%nat.
Proof.
  unfold changePassword. unfold bind at 1.
  destruct (getCurrentUser now ls) as [[e | [cu |]] ls1];
    [discriminate | | discriminate].
  unfold bind, get, throw, ret, modify.
  destruct (truthy_str currentPassword), (truthy_str newPassword); simpl;
    try discriminate.
  destruct (Nat.ltb_spec (String.length newPassword) 6); [discriminate |].
  intros _. split; [reflexivity | lia].
Qed.

(** X22: After a [changePassword] that succeeds, on an accounts list with
    distinct ids in which the current user's name finds the current user's
    active account, a [login] with that name and the new password succeeds
    as the same account; with the old password it fails with the
    wrong-password error unless the two checksums coincide. *)
Theorem changePassword_then_login
    (currentPassword newPassword username : string) (now t : Z)
    (ls ls1 : LocalStorage) (cu : SessionUser) (j : nat) (acc : User) :
  changePassword currentPassword newPassword now ls = (inr true, ls1) ->
  quran_current_user ls = Some cu ->
  NoDup (u_id <$> getUsers ls) ->
  truthy_str username = true ->
  list_find (same_username username) (getUsers ls) = Some (j, acc) ->
  u_id acc = su_id cu ->
  u_isActive acc = true ->
  (exists (su : SessionUser) (ls2 : LocalStorage),
      login username newPassword t ls1 = (inr su, ls2) /\ su_id su = su_id cu)
  /\ (truthy_str currentPassword = true ->
      hashPassword currentPassword <> hashPassword newPassword ->
      login username currentPassword t ls1 = (inl err_wrong_password, ls1)).
Proof.
  intros Hrun Hcu Hnd Hu Hfind Hid Hact.
  pose proof (changePassword_success_inputs _ _ _ _ _ Hrun) as [Hnew _].
  apply changePassword_success in Hrun
    as (session & cu' & i & account & _ & _ & Hcu' & Hbyid & _ & ->).
  rewrite Hcu in Hcu'. injection Hcu' as <-.
  assert (Hij : i = j /\ account = acc).
  { apply list_find_Some in Hbyid as (Hi & Hidi & _).
    pose proof Hfind as Hfind0.
    apply list_find_Some in Hfind0 as (Hj & _ & _).
    assert (i = j).
    { eapply NoDup_lookup; [exact Hnd | |]; rewrite list_lookup_fmap.
      - rewrite Hi. reflexivity.
      - rewrite Hj. simpl. congruence. }
    subst j. split; [reflexivity | congruence]. }
  destruct Hij as [<- <-].
  set (account' := set_password account (hashPassword newPassword)).
  assert (Hname : same_username username account').
  { apply list_find_Some in Hfind as (_ & Hn & _). exact Hn. }
  pose proof (list_find_insert_same _ _ _ _ account' Hfind Hname) as Hfind'.
  split.
  - destruct (login_found username newPassword t
                (write_users (Some (<[i := account']> (getUsers ls))) ls)
                i account' Hu Hnew Hfind' Hact eq_refl) as (su & ls2 & Hl & Hsu).
    exists su, ls2. split; [exact Hl |]. rewrite Hsu. exact Hid.
  - intros Hcur Hdiff. unfold login, bind, get, throw, ret, modify.
    rewrite Hu, Hcur. simpl.
    change (getUsers (write_users _ ls)) with (<[i := account']> (getUsers ls)).
    rewrite Hfind'. simpl. rewrite Hact. simpl.
    unfold verifyPassword. rewrite bool_decide_eq_false_2 by exact Hdiff.
    reflexivity.
Qed.

Lemma changePassword_then_login_witness :
  exists (su : SessionUser) (ls2 : LocalStorage),
    login "hasan" "rahasia2" 3000
      (snd (changePassword "rahasia1" "rahasia2" 2000 Samples.registered_storage))
    = (inr su, ls2)
    /\ su_id su = "user_1"%string.
Proof.
  assert (H : changePassword "rahasia1" "rahasia2" 2000 Samples.registered_storage
              = (inr true,
                 snd (changePassword "rahasia1" "rahasia2" 2000
                        Samples.registered_storage)))
    by (vm_compute; reflexivity).
  destruct (changePassword_then_login "rahasia1" "rahasia2" "hasan" 2000 3000
              Samples.registered_storage _
              (mkSessionUser "user_1" "hasan" "hasan"
                 (<["displayName" := "hasan"%string]>
                    (<["preferredQari" := ""%string]>
                       (<["fontSize" := "medium"%string]>
                          (<["theme" := "light"%string]> ∅)))) 1000)
              0 (newUser "hasan" "rahasia1" "user_1" 1000) H)
    as [Hlogin _]; try reflexivity.
  - vm_compute. apply NoDup_cons. split; [apply not_elem_of_nil | apply NoDup_nil_2].
  - exact Hlogin.
Defined.

End PasswordsAndLogin.

(** ** Profile updates (auth.js) *)

Section ProfileUpdate.
Import AuthManager.

(** X23: An [updateProfile] that succeeds merges the given keys over the
    account's profile: the stored account's profile is the merged one (a
    given key wins, every other key stays) and each of its other fields,
    the password among them, is as before.  The current-user record gets
    the same merged profile, and the given display name when that is a
    non-empty string.  The other accounts, the session and the store's keys
    stay as they were. *)
Theorem updateProfile_merges
    (profileData : Profile) (now : Z) (ls ls' : LocalStorage) :
  updateProfile profileData now ls = (inr true, ls') ->
  exists (cu cu' : SessionUser) (i : nat) (account account' : User),
    let profile := profileData ∪ default ∅ (u_profile account) in
    quran_current_user ls = Some cu
    /\ getUsers ls !! i = Some account
    /\ u_id account = su_id cu
    /\ getUsers ls' !! i = Some account'
    /\ u_profile account' = Some profile
    /\ u_id account' = u_id account
    /\ u_username account' = u_username account
    /\ u_password account' = u_password account
    /\ u_createdAt account' = u_createdAt account
    /\ u_lastLogin account' = u_lastLogin account
    /\ u_isActive account' = u_isActive account
    /\ u_mustChangePassword account' = u_mustChangePassword account
    /\ length (getUsers ls') = length (getUsers ls)
    /\ (forall j, j <> i -> getUsers ls' !! j = getUsers ls !! j)
    /\ quran_current_user ls' = Some cu'
    /\ su_profile cu' = profile
    /\ su_id cu' = su_id cu
    /\ su_username cu' = su_username cu
    /\ su_loginTime cu' = su_loginTime cu
    /\ (forall d, profileData !! "displayName"%string = Some d ->
                  truthy_str d = true -> su_displayName cu' = d)
    /\ ((forall d, profileData !! "displayName"%string = Some d ->
                   truthy_str d = false) ->
        su_displayName cu' = su_displayName cu)
    /\ (forall k v, profileData !! k = Some v -> profile !! k = Some v)
    /\ (forall k, profileData !! k = None ->
                  profile !! k = default ∅ (u_profile account) !! k)
    /\ quran_session ls' = quran_session ls
    /\ quran_bookmarks ls' = quran_bookmarks ls
    /\ quran_history ls' = quran_history ls
    /\ quran_theme ls' = quran_theme ls
    /\ quran_settings ls' = quran_settings ls.
Proof.
  unfold updateProfile. unfold bind at 1.
  destruct (getCurrentUser now ls) as [[e | [cu |]] ls1] eqn:Hcur;
    [discriminate | | discriminate].
  apply getCurrentUser_Some in Hcur as (-> & Hcu & _).
  unfold bind, get, throw, ret, modify.
  destruct (list_find _ (getUsers ls)) as [[i account] |] eqn:Hfind;
    [| discriminate].
  intros [= <-].
  apply list_find_Some in Hfind as (Hi & Hid & _).
  eexists cu, _, i, account, _. cbv zeta.
  split; [exact Hcu |]. split; [exact Hi |]. split; [exact Hid |].
  change (getUsers (write_current_user _ (write_users (Some ?us) ls))) with us.
  split; [apply list_lookup_insert_eq; eapply lookup_lt_Some; eauto |].
  do 8 (split; [reflexivity |]).
  split; [apply length_insert |].
  split; [intros j Hj; apply list_lookup_insert_ne; congruence |].
  do 5 (split; [reflexivity |]).
  split; [intros d Hd Ht; simpl; rewrite Hd, Ht; reflexivity |].
  split.
  { intros Hno. simpl.
    destruct (profileData !! "displayName"%string) as [d |] eqn:Hd;
      [rewrite (Hno d eq_refl) |]; reflexivity. }
  split; [intros k v Hk; apply lookup_union_Some_l; exact Hk |].
  split; [intros k Hk; apply lookup_union_r; exact Hk |].
  repeat split; reflexivity.
Qed.

Lemma updateProfile_merges_witness :
  fst (updateProfile (<["theme" := "dark"%string]> ∅) 2000 Samples.registered_storage)
  = inr true
  /\ exists (cu' : SessionUser) (i : nat) (account account' : User),
      quran_current_user
        (snd (updateProfile (<["theme" := "dark"%string]> ∅) 2000
                Samples.registered_storage)) = Some cu'
      /\ getUsers Samples.registered_storage !! i = Some account
      /\ getUsers (snd (updateProfile (<["theme" := "dark"%string]> ∅) 2000
                          Samples.registered_storage)) !! i = Some account'
      /\ u_profile account'
         = Some ((<["theme" := "dark"%string]> ∅) ∪ default ∅ (u_profile account))
      /\ su_profile cu'
         = (<["theme" := "dark"%string]> ∅) ∪ default ∅ (u_profile account)
      /\ u_password account' = u_password account.
Proof.
  assert (H : updateProfile (<["theme" := "dark"%string]> ∅) 2000
                Samples.registered_storage
              = (inr true,
                 snd (updateProfile (<["theme" := "dark"%string]> ∅) 2000
                        Samples.registered_storage)))
    by (vm_compute; reflexivity).
  split; [rewrite H; reflexivity |].
  destruct (updateProfile_merges _ _ _ _ H)
    as (cu & cu' & i & account & account' & _ & Hi & _ & Hi' & Hprof & _ & _
        & Hpw & _ & _ & _ & _ & _ & _ & Hcu' & Hsu & _).
  exists cu', i, account, account'. auto 10.
Defined.

End ProfileUpdate.

(** ** The handlers of the forms and of the bookmark button *)

Section Handlers.
Import AuthManager JsString QuranApp.

Lemma trimStart_head (s : string) :
  match trimStart s with
  | EmptyString => True
  | String c _ => is_space c = false
  end.
Proof.
  induction s as [| c s IH]; simpl; [exact I |].
  destruct (is_space c) eqn:Hc; [exact IH | exact Hc].
Qed.

Lemma trimEnd_head (s : string) :
  match s with
  | EmptyString => True
  | String c _ => is_space c = false
  end ->
  match trimEnd s with
  | EmptyString => True
  | String c _ => is_space c = false
  end.
Proof.
  destruct s as [| c s]; simpl; [auto |].
  intros Hc. destruct (trimEnd s); [rewrite Hc |]; exact Hc.
Qed.

Lemma trimStart_no_space (s : string) :
  match s with
  | EmptyString => True
  | String c _ => is_space c = false
  end ->
  trimStart s = s.
Proof. destruct s as [| c s]; simpl; [auto |]. intros ->. reflexivity. Qed.

Lemma trimEnd_idempotent (s : string) : trimEnd (trimEnd s) = trimEnd s.
Proof.
  induction s as [| c s IH]; [reflexivity |].
  simpl. destruct (trimEnd s) as [| c' t] eqn:Ht.
  - destruct (is_space c) eqn:Hc; [reflexivity |]. simpl. rewrite Hc. reflexivity.
  - simpl in *. rewrite IH. reflexivity.
Qed.

(** [trim] leaves a trimmed string alone. *)
Lemma trim_idempotent (s : string) : trim (trim s) = trim s.
Proof.
  unfold trim.
  rewrite (trimStart_no_space (trimEnd (trimStart s))).
  - apply trimEnd_idempotent.
  - apply trimEnd_head, trimStart_head.
Qed.

(** X25: Through the forms, registration and login agree: when [handleRegister]
    has created an account from the values of its fields, [handleLogin] with
    the same values of the username and password fields logs in, as the
    account with the same id; both handlers trim the fields before they
    call the account simulator. *)
Theorem handleRegister_then_handleLogin
    (usernameField passwordField confirmField newId : string) (t1 t2 : Z)
    (ls ls1 : LocalStorage) (su : SessionUser) (rest : list UiCall) :
  handleRegister usernameField passwordField confirmField newId t1 ls
  = (inr (UpdateAuthUI (Some su) :: rest), ls1) ->
  exists (su' : SessionUser) (ls2 : LocalStorage),
    handleLogin usernameField passwordField t2 ls1
    = (inr [UpdateAuthUI (Some su'); HideModal "auth-modal";
            ShowNotification ("Selamat datang, " +:+ su_username su' +:+ "!")
              "success"], ls2)
    /\ su_id su' = su_id su
    /\ su_id su = newId.
Proof.
  unfold handleRegister, handleLogin, try_catch, ret.
  destruct (truthy_str (trim usernameField)) eqn:Hu; [| discriminate].
  destruct (truthy_str (trim passwordField)) eqn:Hp; [| discriminate].
  simpl.
  destruct (negb (truthy_str (trim confirmField))); [discriminate |].
  destruct (negb (String.eqb _ _)); [discriminate |].
  destruct (String.length (trim passwordField) <? 6)%nat; [discriminate |].
  unfold bind at 1.
  destruct (register _ _ newId t1 ls) as [[e | su0] ls0] eqn:Hreg;
    [discriminate |].
  intros [= -> _ ->].
  destruct (register_then_login_trimmed _ _ _ t1 t2 _ _ _
              (trim_idempotent usernameField) Hreg)
    as (su' & ls2 & Hlogin & Hid & Hnew).
  exists su', ls2. unfold bind. rewrite Hlogin. auto.
Qed.

Lemma handleRegister_then_handleLogin_witness :
  exists (su' : SessionUser) (ls2 : LocalStorage),
    handleLogin " hasan " "rahasia1 " 2000
      (snd (handleRegister " hasan " "rahasia1 " " rahasia1" "user_1" 1000
              StorageManager.fresh_storage))
    = (inr [UpdateAuthUI (Some su'); HideModal "auth-modal";
            ShowNotification ("Selamat datang, " +:+ su_username su' +:+ "!")
              "success"], ls2)
    /\ su_id su' = "user_1"%string.
Proof.
  destruct (handleRegister " hasan " "rahasia1 " " rahasia1" "user_1" 1000
              StorageManager.fresh_storage) as [[e | calls] ls1] eqn:Hreg;
    [vm_compute in Hreg; discriminate |].
  destruct calls as [| [[su |] | | |] rest];
    try (vm_compute in Hreg; discriminate).
  destruct (handleRegister_then_handleLogin _ _ _ _ _ 2000 _ _ _ _ Hreg)
    as (su' & ls2 & Hlogin & Hid & Hnew).
  exists su', ls2. simpl. split; [exact Hlogin | congruence].
Defined.

(** The bookmark button toggles: after [toggleSuratBookmark] the open
    chapter is bookmarked exactly when it was not before; with no chapter
    open the handler does nothing. *)
Theorem toggleSuratBookmark_flips
    (currentSurat : SuratData) (now : Z) (ls : LocalStorage) :
  StorageManager.isBookmarked (StorageManager.KSurat (sd_nomor currentSurat))
    (snd (toggleSuratBookmark (Some currentSurat) now ls))
  = negb (StorageManager.isBookmarked
            (StorageManager.KSurat (sd_nomor currentSurat)) ls)
  /\ toggleSuratBookmark None now ls = (inr [], ls).
Proof.
  split; [| reflexivity].
  unfold toggleSuratBookmark, bind, get, ret.
  unfold StorageManager.isBookmarked at 2.
  destruct (existsb _ (surat (StorageManager.getBookmarks ls))) eqn:Hhas; simpl.
  - exact (isBookmarked_remove ls (StorageManager.KSurat (sd_nomor currentSurat))).
  - exact (isBookmarked_add_surat ls currentSurat now).
Qed.

End Handlers.

(** ** Chapter ids and batches (api.js) *)

Section ChapterIds.
Import QuranAPI.

Variable fetchList : Error + list SuratSummary.
Variable fetchTafsir : Z -> Error + TafsirDetail.
Variable fetchSurat : Z -> Error + SuratDetail.

(** X26: A chapter id below 1 or above 114 is refused by [getSuratDetail],
    [getTafsir], [getAyatAudioUrl] and [searchAyatInSurat] with the
    invalid-id error, each under its own prefix, whatever the upstream
    would answer: the upstream is not asked. *)
Theorem invalid_chapter_id_is_refused
    (suratId ayatNumber : Z) (qariKey query : string) :
  suratId < 1 \/ 114 < suratId ->
  getSuratDetail fetchSurat suratId
  = inl (mkError "Gagal memuat detail surat: ID surat tidak valid")
  /\ getTafsir fetchTafsir suratId
     = inl (mkError "Gagal memuat tafsir: ID surat tidak valid")
  /\ getAyatAudioUrl fetchSurat suratId ayatNumber qariKey
     = inl (mkError
              "Gagal mendapatkan URL audio: Gagal memuat detail surat: ID surat tidak valid")
  /\ searchAyatInSurat fetchSurat suratId query
     = inl (mkError "Gagal mencari ayat: Gagal memuat detail surat: ID surat tidak valid").
Proof.
  intros Hout.
  assert (Hbad : (suratId =? 0) || (suratId <? 1) || (114 <? suratId) = true).
  { destruct Hout as [H | H].
    - apply (proj2 (Z.ltb_lt suratId 1)) in H. rewrite H.
      rewrite orb_true_r. reflexivity.
    - apply (proj2 (Z.ltb_lt 114 suratId)) in H. rewrite H.
      apply orb_true_r. }
  assert (Hd : getSuratDetail fetchSurat suratId
               = inl (mkError "Gagal memuat detail surat: ID surat tidak valid")).
  { unfold getSuratDetail. rewrite Hbad. reflexivity. }
  split; [exact Hd |]. split; [unfold getTafsir; rewrite Hbad; reflexivity |].
  split.
  - unfold getAyatAudioUrl. rewrite Hd. reflexivity.
  - unfold searchAyatInSurat. rewrite Hd. reflexivity.
Qed.

(** For an id from 1 to 114 [getSuratDetail] hands on what the upstream
    answers, an error under its prefix. *)
Lemma getSuratDetail_valid_id (suratId : Z) :
  1 <= suratId <= 114 ->
  getSuratDetail fetchSurat suratId
  = rethrow "Gagal memuat detail surat: " (fetchSurat suratId).
Proof.
  intros [Hlo Hhi]. unfold getSuratDetail.
  destruct (Z.eqb_spec suratId 0); [lia |].
  destruct (Z.ltb_spec suratId 1); [lia |].
  destruct (Z.ltb_spec 114 suratId); [lia |]. reflexivity.
Qed.

(** [getMultipleSurat] answers the details of the ids that load, in the
    order of the ids; an id that fails to load leaves the batch as if it
    had not been asked for, and a batch whose ids all load has one detail
    per id. *)
Theorem getMultipleSurat_skips_failures
    (before after : list Z) (bad : Z) (e : Error) :
  getSuratDetail fetchSurat bad = inl e ->
  getMultipleSurat fetchSurat (before ++ bad :: after)
  = getMultipleSurat fetchSurat (before ++ after)
  /\ (forall ids d, d ∈ getMultipleSurat fetchSurat ids
                    <-> exists id, id ∈ ids /\ getSuratDetail fetchSurat id = inr d)
  /\ (forall ids,
         Forall (fun id => exists d, getSuratDetail fetchSurat id = inr d) ids ->
         length (getMultipleSurat fetchSurat ids) = length ids).
Proof.
  intros Hbad. split; [| split].
  - unfold getMultipleSurat. rewrite !omap_app. simpl. rewrite Hbad. reflexivity.
  - intros ids d. unfold getMultipleSurat. rewrite list_elem_of_omap.
    split; intros (id & Hid & H); exists id; split; try exact Hid.
    + destruct (getSuratDetail fetchSurat id); congruence.
    + rewrite H. reflexivity.
  - intros ids Hall. unfold getMultipleSurat.
    induction Hall as [| id ids (d & Hd) Hall IH]; [reflexivity |].
    simpl. rewrite Hd. simpl. f_equal. exact IH.
Qed.

End ChapterIds.

Section ChapterIdsInstance.
Import QuranAPI.

Lemma invalid_chapter_id_witness :
  getSuratDetail Samples.sample_remote 115
  = inl (mkError "Gagal memuat detail surat: ID surat tidak valid").
Proof.
  apply (invalid_chapter_id_is_refused (fun _ => inl err_invalid_id)
           Samples.sample_remote 115 1 "abdullah_al_juhany" "").
  right. lia.
Defined.

Lemma getMultipleSurat_witness :
  getMultipleSurat Samples.sample_remote ([1] ++ 2 :: [1])
  = getMultipleSurat Samples.sample_remote ([1] ++ [1]).
Proof.
  apply (getMultipleSurat_skips_failures Samples.sample_remote [1] [1] 2
           (mkError "Gagal memuat detail surat: Gagal mengambil data: HTTP Error: 404 - Not Found")).
  reflexivity.
Defined.

End ChapterIdsInstance.

(** ** Repeated reads of the cache (api.js) *)

Section CacheRepeat.
Import QuranAPI.

Context {T W : Type}.
Variable clock : W -> Z.

(** X27: After a call of [getCachedData] that returned a value, the cache holds
    that value under the key, stamped with the clock reading after the
    producer when the key was absent before; every other key is as it was;
    and any further call for the key in a world less than one hour past the
    stamp returns the same value and leaves cache and world alone, whatever
    producer it is given.  After [clearCache] a call for any key runs its
    producer. *)
Theorem getCachedData_repeat
    (key : string) (fetchFunction : W -> (Error + T) * W)
    (cache cache1 : gmap string (CacheEntry (T := T))) (w w1 : W) (d : T) :
  getCachedData clock key fetchFunction (cache, w) = (inr d, (cache1, w1)) ->
  (exists entry : CacheEntry,
      cache1 !! key = Some entry
      /\ data entry = d
      /\ (cache !! key = None -> timestamp entry = clock w1)
      /\ forall (producer : W -> (Error + T) * W) (w2 : W),
          clock w2 - timestamp entry < 3600000 ->
          getCachedData clock key producer (cache1, w2) = (inr d, (cache1, w2)))
  /\ (forall key', key' <> key -> cache1 !! key' = cache !! key')
  /\ (forall (key' : string) (producer : W -> (Error + T) * W) (w2 w3 : W) (d' : T),
         producer w2 = (inr d', w3) ->
         getCachedData clock key' producer (clearCache (cache1, w2))
         = (inr d', (<[key' := mkCacheEntry d' (clock w3)]> ∅, w3))).
Proof.
  intros Hrun.
  assert (Hhit : forall (entry : CacheEntry) (c : gmap string CacheEntry),
             c !! key = Some entry ->
             forall (producer : W -> (Error + T) * W) (w2 : W),
               clock w2 - timestamp entry < 3600000 ->
               getCachedData clock key producer (c, w2) = (inr (data entry), (c, w2))).
  { intros entry c Hc producer w2 Hage. unfold getCachedData. rewrite Hc.
    destruct (Z.ltb_spec (clock w2 - timestamp entry) 3600000); [reflexivity | lia]. }
  unfold getCachedData in Hrun.
  destruct (cache !! key) as [cached |] eqn:Hc.
  - destruct (clock w - timestamp cached <? 3600000) eqn:Hage.
    + injection Hrun as <- <- <-. split; [| split].
      * exists cached. split; [exact Hc |]. split; [reflexivity |].
        split; [discriminate |]. apply Hhit. exact Hc.
      * reflexivity.
      * intros key' producer w2 w3 d' Hp. unfold clearCache, getCachedData. simpl.
        rewrite lookup_empty, Hp. reflexivity.
    + destruct (fetchFunction w) as [[e | d0] w'] eqn:Hf; [discriminate |].
      injection Hrun as <- <- <-. split; [| split].
      * exists (mkCacheEntry d0 (clock w')).
        split; [apply lookup_insert_eq |]. split; [reflexivity |].
        split; [discriminate |].
        apply (Hhit (mkCacheEntry d0 (clock w'))). apply lookup_insert_eq.
      * intros key' Hk. rewrite lookup_insert_ne by congruence.
        apply lookup_delete_ne. congruence.
      * intros key' producer w2 w3 d' Hp. unfold clearCache, getCachedData. simpl.
        rewrite lookup_empty, Hp. reflexivity.
  - destruct (fetchFunction w) as [[e | d0] w'] eqn:Hf; [discriminate |].
    injection Hrun as <- <- <-. split; [| split].
    + exists (mkCacheEntry d0 (clock w')).
      split; [apply lookup_insert_eq |]. split; [reflexivity |].
      split; [reflexivity |].
      apply (Hhit (mkCacheEntry d0 (clock w'))). apply lookup_insert_eq.
    + intros key' Hk. apply lookup_insert_ne. congruence.
    + intros key' producer w2 w3 d' Hp. unfold clearCache, getCachedData. simpl.
      rewrite lookup_empty, Hp. reflexivity.
Qed.

End CacheRepeat.

Section CacheRepeatInstance.
Import QuranAPI.

Lemma getCachedData_repeat_witness :
  getCachedData id "surat-2" (fun w => (inr "other"%string, w + 1))
    (<["surat-2" := mkCacheEntry "fetched"%string 105]> Samples.sample_cache, 3600104)
  = (inr "fetched"%string,
     (<["surat-2" := mkCacheEntry "fetched"%string 105]> Samples.sample_cache, 3600104)).
Proof.
  destruct (getCachedData_repeat id "surat-2" Samples.sample_producer
              Samples.sample_cache
              (<["surat-2" := mkCacheEntry "fetched"%string 105]> Samples.sample_cache)
              100 105 "fetched"%string eq_refl)
    as ((entry & Hentry & Hdata & Hstamp & Hagain) & _).
  apply Hagain. rewrite (Hstamp eq_refl). simpl. lia.
Defined.

End CacheRepeatInstance.

(** ** Searching (storage.js, api.js) *)

Section Searching.
Import JsString StorageManager.

Lemma includes_empty (s : string) : includes s "" = true.
Proof. destruct s; reflexivity. Qed.

Lemma prefix_refl (s : string) : String.prefix s s = true.
Proof.
  induction s as [| c s IH]; [reflexivity |].
  simpl. destruct (ascii_dec c c); [exact IH | congruence].
Qed.

Lemma includes_refl (s : string) : includes s s = true.
Proof.
  destruct s as [| c s]; [reflexivity |].
  change (includes (String c s) (String c s))
    with (if String.prefix (String c s) (String c s) then true
          else includes s (String c s)).
  rewrite prefix_refl. reflexivity.
Qed.

Lemma lower_char_idempotent (c : ascii) : lower_char (lower_char c) = lower_char c.
Proof. destruct c as [[] [] [] [] [] [] [] []]; reflexivity. Qed.

Lemma toLowerCase_idempotent (s : string) :
  toLowerCase (toLowerCase s) = toLowerCase s.
Proof.
  induction s as [| c s IH]; [reflexivity |].
  simpl. rewrite lower_char_idempotent, IH. reflexivity.
Qed.

Lemma filter_all {A} (f : A -> bool) (l : list A) :
  (forall x, f x = true) -> List.filter f l = l.
Proof.
  intros Hf. induction l as [| x l IH]; [reflexivity |].
  simpl. rewrite Hf, IH. reflexivity.
Qed.

(** X10: The searches of the store: the empty query finds everything stored; any
    query finds stored items only, in their stored order; and the letter
    case of the query makes no difference. *)
Theorem stored_search_finds_stored (query : string) (ls : LocalStorage) :
  searchHistory "" ls = getHistory ls
  /\ searchBookmarks "" ls = getBookmarks ls
  /\ searchHistory query ls `sublist_of` getHistory ls
  /\ surat (searchBookmarks query ls) `sublist_of` surat (getBookmarks ls)
  /\ ayat (searchBookmarks query ls) `sublist_of` ayat (getBookmarks ls)
  /\ searchHistory (toLowerCase query) ls = searchHistory query ls
  /\ searchBookmarks (toLowerCase query) ls = searchBookmarks query ls.
Proof.
  split; [| split; [| split; [| split; [| split; [| split]]]]].
  - unfold searchHistory. apply filter_all. intros e. simpl.
    rewrite includes_empty. reflexivity.
  - unfold searchBookmarks. simpl.
    rewrite !filter_all by (intros x; rewrite includes_empty; reflexivity).
    destruct (getBookmarks ls); reflexivity.
  - apply filter_out_sublist.
  - apply filter_out_sublist.
  - apply filter_out_sublist.
  - unfold searchHistory. rewrite toLowerCase_idempotent. reflexivity.
  - unfold searchBookmarks. rewrite toLowerCase_idempotent. reflexivity.
Qed.

End Searching.

Section SearchingChapters.
Import JsString QuranAPI.

Variable fetchList : Error + list SuratSummary.

Lemma toLowerCase_digits (d : Decimal.uint) :
  toLowerCase (NilEmpty.string_of_uint d) = NilEmpty.string_of_uint d.
Proof. induction d; simpl; [reflexivity | rewrite IHd; reflexivity ..]. Qed.

Lemma toLowerCase_toString (n : Z) : toLowerCase (toString n) = toString n.
Proof.
  unfold toString, NilZero.string_of_int.
  destruct (Z.to_int n) as [d | d]; unfold NilZero.string_of_uint;
    destruct d; try reflexivity; simpl; rewrite ?toLowerCase_digits; reflexivity.
Qed.

(** X28: [searchSurat] on a list that loaded: the empty query returns the whole
    list; any query returns chapters of the list that match, in the order of
    the list; and the query that is a chapter's number in decimal finds that
    chapter.  When the list fails to load the error is the same fixed
    message under the search prefix, whatever went wrong. *)
Theorem searchSurat_on_loaded_list (all : list SuratSummary) (query : string) :
  fetchList = inr all ->
  searchSurat fetchList "" = inr all
  /\ (exists found,
         searchSurat fetchList query = inr found
         /\ found `sublist_of` all
         /\ Forall (fun c => surat_matches (toLowerCase query) c = true) found)
  /\ (forall c, c ∈ all ->
        exists found,
          searchSurat fetchList (toString (ss_nomor c)) = inr found /\ c ∈ found).
Proof.
  intros Hload. unfold searchSurat, getSuratList. rewrite Hload. simpl.
  split; [| split].
  - f_equal. apply filter_all. intros c. unfold surat_matches.
    rewrite includes_empty. reflexivity.
  - eexists. split; [reflexivity |]. split; [apply filter_out_sublist |].
    apply Forall_forall. intros c Hc.
    apply list_elem_of_In, filter_In in Hc. tauto.
  - intros c Hc. eexists. split; [reflexivity |].
    apply list_elem_of_In, filter_In. split; [apply list_elem_of_In; exact Hc |].
    unfold surat_matches. rewrite toLowerCase_toString, includes_refl.
    apply orb_true_r.
Qed.

(** When the list does not load, [searchSurat] throws one fixed message. *)
Lemma searchSurat_list_failed (e : Error) (query : string) :
  fetchList = inl e ->
  searchSurat fetchList query
  = inl (mkError "Gagal melakukan pencarian: Gagal memuat daftar surat Al-Qur'an").
Proof.
  intros Hfail. unfold searchSurat, getSuratList. rewrite Hfail. reflexivity.
Qed.

End SearchingChapters.

Section SearchingChaptersInstance.
Import JsString QuranAPI.

Lemma searchSurat_witness :
  searchSurat (inr [mkSuratSummary 1 "Al-Fatihah" "Al-Fatihah" 7 "Mekah" "Pembukaan" ""]) ""
  = inr [mkSuratSummary 1 "Al-Fatihah" "Al-Fatihah" 7 "Mekah" "Pembukaan" ""].
Proof.
  apply (searchSurat_on_loaded_list
           (inr [mkSuratSummary 1 "Al-Fatihah" "Al-Fatihah" 7 "Mekah" "Pembukaan" ""])
           [mkSuratSummary 1 "Al-Fatihah" "Al-Fatihah" 7 "Mekah" "Pembukaan" ""]
           "fat" eq_refl).
Defined.

End SearchingChaptersInstance.

(** ** Text helpers (utils.js) *)

Section TextHelpers.
Import JsString Utils.

Lemma length_append (s1 s2 : string) :
  String.length (s1 +:+ s2) = (String.length s1 + String.length s2)%nat.
Proof. induction s1 as [| c s1 IH]; simpl; [reflexivity | rewrite IH; reflexivity]. Qed.

Lemma length_substring_0 (n : nat) (s : string) :
  String.length (String.substring 0 n s) = Nat.min n (String.length s).
Proof.
  revert s. induction n as [| n IH]; intros s.
  - destruct s; reflexivity.
  - destruct s as [| c s]; simpl; [reflexivity | rewrite IH; reflexivity].
Qed.

(** X29: [truncateText] returns a text that fits, and the empty text, as it is;
    a longer text is cut so that, with the suffix appended, it has exactly
    [maxLength] code units, provided the suffix itself fits; so the result
    never exceeds [maxLength] then.  A suffix that does not fit is returned
    alone in place of a text that is not empty and does not fit. *)
Theorem truncateText_fits (text suffix : string) (maxLength : Z) :
  (Z.of_nat (String.length text) <= maxLength -> truncateText text maxLength suffix = text)
  /\ truncateText "" maxLength suffix = ""%string
  /\ (maxLength < Z.of_nat (String.length text) ->
      Z.of_nat (String.length suffix) <= maxLength ->
      Z.of_nat (String.length (truncateText text maxLength suffix)) = maxLength
      /\ truncateText text maxLength suffix
         = substring0 text (maxLength - Z.of_nat (String.length suffix)) +:+ suffix)
  /\ (Z.of_nat (String.length suffix) <= maxLength ->
      Z.of_nat (String.length (truncateText text maxLength suffix)) <= maxLength)
  /\ (text <> ""%string ->
      maxLength < Z.of_nat (String.length text) ->
      maxLength <= Z.of_nat (String.length suffix) ->
      truncateText text maxLength suffix = suffix).
Proof.
  assert (Hlong : text <> ""%string ->
                  maxLength < Z.of_nat (String.length text) ->
                  truncateText text maxLength suffix
                  = substring0 text (maxLength - Z.of_nat (String.length suffix))
                    +:+ suffix).
  { intros Hne Hlen. unfold truncateText.
    destruct text as [| c text]; [congruence |].
    change (truthy_str (String c text)) with true. cbn [negb orb].
    destruct (Z.leb_spec (Z.of_nat (String.length (String c text))) maxLength);
      [lia | reflexivity]. }
  assert (Hcut : maxLength < Z.of_nat (String.length text) ->
                 Z.of_nat (String.length suffix) <= maxLength ->
                 Z.of_nat (String.length (truncateText text maxLength suffix))
                 = maxLength).
  { intros Hlen Hsuf. rewrite Hlong.
    - unfold substring0. rewrite length_append, length_substring_0. lia.
    - intros ->. simpl in Hlen. lia.
    - exact Hlen. }
  split; [| split; [| split; [| split]]].
  - intros Hfit. unfold truncateText.
    destruct (Z.leb_spec (Z.of_nat (String.length text)) maxLength); [| lia].
    rewrite orb_true_r. reflexivity.
  - reflexivity.
  - intros Hlen Hsuf. split; [apply Hcut; assumption |].
    apply Hlong; [| exact Hlen]. intros ->. simpl in Hlen. lia.
  - intros Hsuf.
    destruct (Z.le_gt_cases (Z.of_nat (String.length text)) maxLength) as [Hfit | Hlen].
    + unfold truncateText.
      destruct (Z.leb_spec (Z.of_nat (String.length text)) maxLength); [| lia].
      rewrite orb_true_r. exact Hfit.
    + rewrite Hcut by (try assumption; lia). lia.
  - intros Hne Hlen Hsuf. rewrite (Hlong Hne Hlen). unfold substring0.
    replace (Z.to_nat (maxLength - Z.of_nat (String.length suffix))) with 0%nat by lia.
    destruct text; reflexivity.
Qed.

(** X30: [formatRelativeTime] picks its unit by the age [now - timestamp]: under
    a minute, and for a time stamp in the future, it says 'Baru saja';
    otherwise it counts whole minutes (1 to 59), hours (1 to 23), days (1 to
    6), weeks (1 to 4) or months of 30 days (1 and more). *)
Theorem formatRelativeTime_units (timestamp now : Z) :
  let diff := now - timestamp in
  (diff < 60000 -> formatRelativeTime timestamp now = "Baru saja"%string)
  /\ (60000 <= diff < 3600000 ->
      formatRelativeTime timestamp now = toString (diff / 60000) +:+ " menit yang lalu"
      /\ 1 <= diff / 60000 <= 59)
  /\ (3600000 <= diff < 86400000 ->
      formatRelativeTime timestamp now = toString (diff / 3600000) +:+ " jam yang lalu"
      /\ 1 <= diff / 3600000 <= 23)
  /\ (86400000 <= diff < 604800000 ->
      formatRelativeTime timestamp now = toString (diff / 86400000) +:+ " hari yang lalu"
      /\ 1 <= diff / 86400000 <= 6)
  /\ (604800000 <= diff < 2592000000 ->
      formatRelativeTime timestamp now
      = toString (diff / 604800000) +:+ " minggu yang lalu"
      /\ 1 <= diff / 604800000 <= 4)
  /\ (2592000000 <= diff ->
      formatRelativeTime timestamp now
      = toString (diff / 2592000000) +:+ " bulan yang lalu"
      /\ 1 <= diff / 2592000000).
Proof.
  cbv zeta. unfold formatRelativeTime.
  change (60 * 1000) with 60000. change (60000 * 60) with 3600000.
  change (3600000 * 24) with 86400000. change (86400000 * 7) with 604800000.
  change (86400000 * 30) with 2592000000.
  set (diff := now - timestamp).
  assert (Hdiv : forall c hi, 0 < c -> diff < (hi + 1) * c -> diff / c <= hi).
  { intros c hi Hc Hhi.
    assert (diff / c < hi + 1) by (apply Z.div_lt_upper_bound; lia). lia. }
  assert (Hdiv1 : forall c, 0 < c -> c <= diff -> 1 <= diff / c).
  { intros c Hc Hlo. apply Z.div_le_lower_bound; lia. }
  repeat match goal with
         | |- _ /\ _ => split
         | |- _ -> _ => intros
         end;
    repeat match goal with
           | |- context [?a <? ?b] => destruct (Z.ltb_spec a b); try lia
           end;
    try reflexivity;
    try (apply Hdiv; lia); try (apply Hdiv1; lia).
Qed.

End TextHelpers.

(** ** The most-read chapter (storage.js) *)

Section MostReadChapter.
Import StorageManager.

Lemma count_of_bump (k k' : Z) (counts : list (Z * nat)) :
  count_of k' (bump k counts)
  = (count_of k' counts + if (k' =? k)%Z then 1 else 0)%nat.
Proof.
  unfold count_of. induction counts as [| [k0 c] rest IH]; simpl.
  - rewrite (Z.eqb_sym k k'). destruct (k' =? k); reflexivity.
  - destruct (Z.eqb_spec k0 k) as [-> | Hk0]; simpl.
    + destruct (Z.eqb_spec k k') as [-> | Hkk']; simpl.
      * rewrite Z.eqb_refl. lia.
      * destruct (Z.eqb_spec k' k); [congruence | lia].
    + destruct (Z.eqb_spec k0 k') as [-> | Hk0']; simpl.
      * destruct (Z.eqb_spec k' k); [congruence | lia].
      * exact IH.
Qed.

Lemma keys_bump (k : Z) (counts : list (Z * nat)) :
  NoDup counts.*1 -> Forall (fun p => (1 <= p.2)%nat) counts ->
  NoDup (bump k counts).*1
  /\ Forall (fun p => (1 <= p.2)%nat) (bump k counts)
  /\ (forall k', k' ∈ (bump k counts).*1 <-> k' = k \/ k' ∈ counts.*1).
Proof.
  induction counts as [| [k0 c] rest IH]; intros Hnd Hpos; simpl.
  - split; [apply NoDup_singleton |]. split; [repeat constructor |].
    intros k'. rewrite list_elem_of_singleton. split; [auto |].
    intros [Hk | Hk]; [exact Hk | apply elem_of_nil in Hk; contradiction].
  - apply NoDup_cons in Hnd as [Hk0 Hnd]. apply Forall_cons in Hpos as [Hc Hpos].
    destruct (IH Hnd Hpos) as (IH1 & IH2 & IH3).
    destruct (Z.eqb_spec k0 k) as [-> | Hne]; simpl.
    + split; [apply NoDup_cons; auto |]. split; [constructor; simpl in *; [lia | auto] |].
      intros k'. rewrite elem_of_cons. tauto.
    + split; [| split].
      * apply NoDup_cons. split; [| exact IH1]. rewrite IH3.
        intros [-> | Hin]; [congruence | contradiction].
      * constructor; assumption.
      * intros k'. rewrite !elem_of_cons, IH3. tauto.
Qed.

(** The counts object after the scan of a history, from any counts object
    to start with. *)
Lemma fold_bump (h : list HistoryEntry) :
  forall counts : list (Z * nat),
    NoDup counts.*1 -> Forall (fun p => (1 <= p.2)%nat) counts ->
    let counts' := fold_left (fun m item => bump (he_nomor item) m) h counts in
    NoDup counts'.*1
    /\ Forall (fun p => (1 <= p.2)%nat) counts'
    /\ (forall k, k ∈ counts'.*1 <-> k ∈ chapter_ids h \/ k ∈ counts.*1)
    /\ (forall k, count_of k counts' = (count_of k counts + history_count k h)%nat).
Proof.
  induction h as [| e h IH]; intros counts Hnd Hpos; simpl.
  - split; [exact Hnd |]. split; [exact Hpos |]. split.
    + intros k. unfold chapter_ids. simpl. rewrite elem_of_nil. tauto.
    + intros k. unfold history_count. simpl. lia.
  - destruct (keys_bump (he_nomor e) counts Hnd Hpos) as (B1 & B2 & B3).
    destruct (IH _ B1 B2) as (I1 & I2 & I3 & I4).
    split; [exact I1 |]. split; [exact I2 |]. split.
    + intros k. rewrite I3, B3. unfold chapter_ids.
      change (he_nomor <$> e :: h) with (he_nomor e :: (he_nomor <$> h)).
      rewrite elem_of_cons. tauto.
    + intros k. rewrite I4, count_of_bump. unfold history_count.
      rewrite filter_cons.
      destruct (Z.eqb_spec k (he_nomor e)) as [-> | Hne].
      * rewrite decide_True by reflexivity. simpl. lia.
      * rewrite decide_False by congruence. lia.
Qed.

Lemma count_of_member (counts : list (Z * nat)) (k : Z) (c : nat) :
  NoDup counts.*1 -> (k, c) ∈ counts -> count_of k counts = c.
Proof.
  unfold count_of. induction counts as [| [k0 c0] rest IH]; intros Hnd Hin.
  - apply not_elem_of_nil in Hin. contradiction.
  - simpl in Hnd. apply NoDup_cons in Hnd as [Hk0 Hnd].
    apply elem_of_cons in Hin as [[= <- <-] | Hin]; simpl.
    + rewrite Z.eqb_refl. reflexivity.
    + destruct (Z.eqb_spec k0 k) as [-> | Hne]; [| apply IH; assumption].
      exfalso. apply Hk0. apply list_elem_of_fmap. exists (k, c). auto.
Qed.

Lemma member_of_key (counts : list (Z * nat)) (k : Z) :
  k ∈ counts.*1 -> (k, count_of k counts) ∈ counts.
Proof.
  unfold count_of. induction counts as [| [k0 c0] rest IH]; simpl; intros Hin.
  - apply not_elem_of_nil in Hin. contradiction.
  - destruct (Z.eqb_spec k0 k) as [-> | Hne]; simpl; [left |].
    apply elem_of_cons in Hin as [-> | Hin]; [congruence |].
    right. apply IH. exact Hin.
Qed.

(** The entries are the properties of the counts object, in some order. *)
Lemma object_entries_Permutation (counts : list (Z * nat)) :
  object_entries counts ≡ₚ counts.
Proof.
  unfold object_entries. rewrite merge_sort_Permutation.
  apply filter_app_complement.
Qed.

(** The scan keeps the largest count seen, and the entry it keeps was found
    under a key that carries that count. *)
Lemma scan_result (h : list HistoryEntry) (entries : list (Z * nat)) :
  forall acc : option HistoryEntry * nat,
    let r := fold_left (scan_step h) entries acc in
    Forall (fun p => (p.2 <= r.2)%nat) entries
    /\ (acc.2 <= r.2)%nat
    /\ (r = acc
        \/ exists k, (k, r.2) ∈ entries
                     /\ r.1 = List.find (fun e => he_nomor e =? k) h).
Proof.
  induction entries as [| [k c] entries IH]; intros acc; simpl.
  - split; [constructor |]. split; [lia | left; reflexivity].
  - destruct (IH (scan_step h acc (k, c))) as (I1 & I2 & I3).
    assert (Hstep : (acc.2 <= (scan_step h acc (k, c)).2)%nat
                    /\ (c <= (scan_step h acc (k, c)).2)%nat
                    /\ (scan_step h acc (k, c) = acc
                        \/ scan_step h acc (k, c)
                           = (List.find (fun e => he_nomor e =? k) h, c))).
    { unfold scan_step. simpl.
      destruct (Nat.ltb_spec acc.2 c); simpl; split; try lia; split; try lia; auto. }
    destruct Hstep as (S1 & S2 & S3).
    split; [constructor; [simpl; lia | exact I1] |]. split; [lia |].
    destruct I3 as [I3 | (k' & Hin & Hfind)].
    + destruct S3 as [S3 | S3]; [left; congruence |].
      right. exists k. rewrite I3, S3. simpl. split; [left | reflexivity].
    + right. exists k'. split; [right; exact Hin | exact Hfind].
Qed.

Lemma find_chapter (h : list HistoryEntry) (k : Z) :
  k ∈ chapter_ids h ->
  exists e, List.find (fun e => he_nomor e =? k) h = Some e
            /\ he_nomor e = k /\ e ∈ h.
Proof.
  unfold chapter_ids. induction h as [| e h IH]; simpl; intros Hin.
  - apply not_elem_of_nil in Hin. contradiction.
  - destruct (Z.eqb_spec (he_nomor e) k) as [Heq | Hne].
    + exists e. split; [reflexivity |]. split; [exact Heq | left].
    + apply elem_of_cons in Hin as [-> | Hin]; [congruence |].
      destruct (IH Hin) as (e' & Hf & Hk & He'). exists e'.
      split; [exact Hf |]. split; [exact Hk | right; exact He'].
Qed.

Lemma count_visits_facts (h : list HistoryEntry) :
  NoDup (count_visits h).*1
  /\ Forall (fun p => (1 <= p.2)%nat) (count_visits h)
  /\ (forall k, k ∈ (count_visits h).*1 <-> k ∈ chapter_ids h)
  /\ (forall k, count_of k (count_visits h) = history_count k h).
Proof.
  destruct (fold_bump h [] (NoDup_nil_2 : NoDup ([] : list (Z * nat)).*1)
              (Forall_nil_2 _)) as (F1 & F2 & F3 & F4).
  unfold count_visits. split; [exact F1 |]. split; [exact F2 |]. split.
  - intros k. rewrite (F3 k). simpl. rewrite elem_of_nil. tauto.
  - intros k. rewrite (F4 k). reflexivity.
Qed.

Lemma getMostReadSurat_nonempty (h : list HistoryEntry) :
  h <> [] ->
  getMostReadSurat h
  = match (fold_left (scan_step h) (object_entries (count_visits h)) (None, 0%nat)).1
    with
    | Some mostRead =>
        Some (mkMostRead mostRead
                (fold_left (scan_step h) (object_entries (count_visits h))
                   (None, 0%nat)).2)
    | None => None
    end.
Proof. destruct h; [congruence | reflexivity]. Qed.

Lemma some_chapter_counted (h : list HistoryEntry) :
  h <> [] -> exists n, (1 <= history_count n h)%nat.
Proof.
  destruct h as [| e h]; [congruence |]. intros _. exists (he_nomor e).
  unfold history_count. rewrite filter_cons_True by reflexivity. simpl. lia.
Qed.

(** X11: [getMostReadSurat] answers [null] on the empty history only; on any
    other history it answers an entry of the history, the first one of its
    chapter, with [readCount] the number of entries of that chapter, and no
    chapter has more entries. *)
Theorem getMostReadSurat_is_a_maximum (h : list HistoryEntry) :
  (getMostReadSurat h = None <-> h = [])
  /\ (forall r, getMostReadSurat h = Some r ->
        mr_entry r ∈ h
        /\ List.find (fun e => he_nomor e =? he_nomor (mr_entry r)) h
           = Some (mr_entry r)
        /\ mr_readCount r = history_count (he_nomor (mr_entry r)) h
        /\ forall n, (history_count n h <= mr_readCount r)%nat).
Proof.
  destruct (count_visits_facts h) as (Hnd & Hpos & Hkeys & Hcount).
  pose proof (object_entries_Permutation (count_visits h)) as Hperm.
  destruct (scan_result h (object_entries (count_visits h)) (None, 0%nat))
    as (Hmax & _ & Hwho).
  cbv zeta in Hmax, Hwho.
  set (r0 := fold_left (scan_step h) (object_entries (count_visits h)) (None, 0%nat))
    in *.
  assert (Hall : forall n, (history_count n h <= r0.2)%nat).
  { intros n. destruct (decide (n ∈ chapter_ids h)) as [Hin | Hout].
    - apply Hkeys in Hin. apply member_of_key in Hin.
      rewrite Hcount in Hin. rewrite <- Hperm in Hin.
      rewrite Forall_forall in Hmax. apply (Hmax _ Hin).
    - unfold history_count.
      replace (length (filter (fun e => he_nomor e = n) h)) with 0%nat; [lia |].
      symmetry. apply (filter_none_length (fun e => he_nomor e = n)).
      apply Forall_forall. intros e He Heq. apply Hout.
      apply list_elem_of_fmap. exists e. auto. }
  destruct (decide (h = [])) as [Hnil | Hne].
  { subst h. split; [tauto | discriminate]. }
  assert (Hpos0 : (1 <= r0.2)%nat).
  { destruct (some_chapter_counted h Hne) as (n & Hn). specialize (Hall n). lia. }
  destruct Hwho as [Hsame | (k & Hin & Hfind)];
    [rewrite Hsame in Hpos0; simpl in Hpos0; lia |].
  rewrite Hperm in Hin.
  assert (Hk : k ∈ chapter_ids h).
  { apply Hkeys. apply list_elem_of_fmap. exists (k, r0.2). auto. }
  destruct (find_chapter h k Hk) as (e & Hfe & Hek & Heh).
  assert (Hget : getMostReadSurat h = Some (mkMostRead e r0.2)).
  { rewrite getMostReadSurat_nonempty by exact Hne.
    change (fold_left (scan_step h) (object_entries (count_visits h)) (None, 0%nat))
      with r0.
    rewrite Hfind, Hfe. reflexivity. }
  split.
  - rewrite Hget. split; [discriminate | intros; contradiction].
  - intros r Hr. rewrite Hget in Hr. injection Hr as <-. simpl.
    split; [exact Heh |]. split; [rewrite Hek; exact Hfe |].
    split; [| exact Hall].
    rewrite Hek. rewrite <- Hcount. symmetry.
    apply count_of_member; assumption.
Qed.

End MostReadChapter.

Section MostReadTies.
Import StorageManager.

#[local] Instance key_le_transitive : Transitive key_le.
Proof. intros a b c. unfold key_le. lia. Qed.

#[local] Instance key_le_total : Total key_le.
Proof. intros a b. unfold key_le. lia. Qed.

Lemma history_count_unique (h : list HistoryEntry) (k : Z) :
  NoDup (chapter_ids h) -> k ∈ chapter_ids h -> history_count k h = 1%nat.
Proof.
  unfold chapter_ids, history_count. induction h as [| e h IH]; simpl; intros Hnd Hin.
  - apply elem_of_nil in Hin. contradiction.
  - apply NoDup_cons in Hnd as [Hnot Hnd]. rewrite filter_cons.
    apply elem_of_cons in Hin as [-> | Hin].
    + rewrite decide_True by reflexivity. simpl. f_equal.
      apply (filter_none_length (fun e0 => he_nomor e0 = he_nomor e)).
      apply Forall_forall. intros e' He' Heq. apply Hnot.
      apply list_elem_of_fmap. exists e'. auto.
    + rewrite decide_False; [apply IH; assumption |].
      intros Heq. apply Hnot. rewrite Heq. exact Hin.
Qed.

Lemma filter_keeps_all {A} (P : A -> Prop) `{forall x, Decision (P x)} (l : list A) :
  Forall P l -> filter P l = l /\ filter (fun x => ~ P x) l = [].
Proof.
  induction 1 as [| x l Hx Hall [IH1 IH2]]; [split; reflexivity |].
  rewrite filter_cons_True by exact Hx.
  rewrite filter_cons_False by tauto. rewrite IH1. auto.
Qed.

Lemma scan_no_better (h : list HistoryEntry) (entries : list (Z * nat)) :
  forall acc : option HistoryEntry * nat,
    Forall (fun p => (p.2 <= acc.2)%nat) entries ->
    fold_left (scan_step h) entries acc = acc.
Proof.
  induction entries as [| p entries IH]; intros acc Hall; [reflexivity |].
  apply Forall_cons in Hall as [Hp Hall]. simpl.
  unfold scan_step at 2. destruct (Nat.ltb_spec acc.2 p.2); [lia |].
  apply IH. exact Hall.
Qed.

(** X12: While the history has one entry per chapter and the chapter numbers are
    array indices (the 114 chapter numbers are), every chapter counts once
    and the scan runs over the chapter numbers in ascending order; so
    [getMostReadSurat] answers the entry of the lowest chapter number, with
    [readCount] 1, wherever that entry stands in the history. *)
Theorem getMostReadSurat_ties_go_to_lowest_number (h : list HistoryEntry) :
  h <> [] ->
  NoDup (chapter_ids h) ->
  Forall array_index (chapter_ids h) ->
  exists e : HistoryEntry,
    getMostReadSurat h = Some (mkMostRead e 1)
    /\ e ∈ h
    /\ forall e', e' ∈ h -> he_nomor e <= he_nomor e'.
Proof.
  intros Hne Hnd Hidx.
  destruct (count_visits_facts h) as (Cnd & Cpos & Ckeys & Ccount).
  assert (Hones : Forall (fun p => p.2 = 1%nat) (count_visits h)).
  { apply Forall_forall. intros [k c] Hin. simpl.
    rewrite <- (count_of_member _ _ _ Cnd Hin), Ccount.
    apply history_count_unique; [exact Hnd |].
    apply Ckeys. apply list_elem_of_fmap. exists (k, c). auto. }
  assert (Hallidx : Forall (fun p : Z * nat => array_index p.1) (count_visits h)).
  { apply Forall_forall. intros [k c] Hin. simpl.
    rewrite Forall_forall in Hidx. apply Hidx, Ckeys.
    apply list_elem_of_fmap. exists (k, c). auto. }
  destruct (filter_keeps_all _ _ Hallidx) as [Hf1 Hf2].
  assert (Hentries : object_entries (count_visits h)
                     = merge_sort key_le (count_visits h)).
  { unfold object_entries. rewrite Hf1, Hf2. apply app_nil_r. }
  pose proof (merge_sort_Permutation key_le (count_visits h)) as Hperm.
  pose proof (StronglySorted_merge_sort key_le (count_visits h)) as Hsorted.
  rewrite getMostReadSurat_nonempty by exact Hne. rewrite Hentries.
  destruct (merge_sort key_le (count_visits h)) as [| [k c] rest] eqn:Hsort.
  { exfalso. destruct (some_chapter_counted h Hne) as (n & Hn).
    assert (Hin : n ∈ (count_visits h).*1).
    { apply Ckeys. destruct (decide (n ∈ chapter_ids h)) as [Hi | Ho]; [exact Hi |].
      exfalso. unfold history_count in Hn.
      assert (Hz : length (filter (fun e => he_nomor e = n) h) = 0%nat).
      { apply (filter_none_length (fun e => he_nomor e = n)).
        apply Forall_forall. intros e He Heq. apply Ho.
        apply list_elem_of_fmap. exists e. auto. }
      lia. }
    apply list_elem_of_fmap in Hin as (p & _ & Hp).
    rewrite <- Hperm in Hp. apply elem_of_nil in Hp. exact Hp. }
  assert (Hones' : Forall (fun p => p.2 = 1%nat) ((k, c) :: rest)).
  { rewrite <- Hperm in Hones. exact Hones. }
  apply Forall_cons in Hones' as [Hc Hrest]. simpl in Hc. subst c.
  apply StronglySorted_cons in Hsorted as [Hmin _].
  assert (Hk : k ∈ chapter_ids h).
  { apply Ckeys. apply list_elem_of_fmap. exists (k, 1%nat).
    split; [reflexivity |]. rewrite <- Hperm. left. }
  destruct (find_chapter h k Hk) as (e & Hfe & Hek & Heh).
  exists e. split; [| split; [exact Heh |]].
  - assert (Hfold : fold_left (scan_step h) ((k, 1%nat) :: rest) (None, 0%nat)
                    = (Some e, 1%nat)).
    { simpl. unfold scan_step at 2. simpl. rewrite Hfe.
      apply scan_no_better.
      eapply Forall_impl; [exact Hrest |]. intros p Hp. simpl in *. lia. }
    rewrite Hfold. reflexivity.
  - intros e' He'. rewrite Hek.
    assert (Hin' : he_nomor e' ∈ (count_visits h).*1).
    { apply Ckeys. apply list_elem_of_fmap. exists e'. auto. }
    apply list_elem_of_fmap in Hin' as ([k' c'] & Hk' & Hp'). simpl in Hk'. subst k'.
    rewrite <- Hperm in Hp'. apply elem_of_cons in Hp' as [Heq | Hp'];
      [injection Heq as Hk1 Hc1; lia |].
    rewrite Forall_forall in Hmin. apply (Hmin _ Hp').
Qed.

Lemma getMostReadSurat_ties_witness :
  getMostReadSurat
    [mkHistoryEntry 2 "Al-Baqarah" "Al-Baqarah" 20;
     mkHistoryEntry 1 "Al-Fatihah" "Al-Fatihah" 10]
  = Some (mkMostRead (mkHistoryEntry 1 "Al-Fatihah" "Al-Fatihah" 10) 1).
Proof.
  destruct (getMostReadSurat_ties_go_to_lowest_number
              [mkHistoryEntry 2 "Al-Baqarah" "Al-Baqarah" 20;
               mkHistoryEntry 1 "Al-Fatihah" "Al-Fatihah" 10])
    as (e & Hget & _ & _).
  - discriminate.
  - apply NoDup_cons. split.
    + intros Hin. apply list_elem_of_singleton in Hin. discriminate.
    + apply NoDup_singleton.
  - repeat constructor; simpl; lia.
  - rewrite Hget. vm_compute in Hget. symmetry. exact Hget.
Defined.

End MostReadTies.

(** ** Registration, once more (auth.js) *)

Section RegisterExactly.
Import AuthManager JsString.

Lemma isUsernameAvailable_find (username : string) (ls : LocalStorage) :
  isUsernameAvailable username ls = true
  <-> list_find (same_username username) (getUsers ls) = None.
Proof.
  unfold isUsernameAvailable. rewrite negb_true_iff, bool_decide_eq_false.
  rewrite list_find_None, <- Forall_Exists_neg. reflexivity.
Qed.

(** X16: [register] succeeds exactly when the username has at least 3 code units,
    the password at least 6, and [isUsernameAvailable] says the name is
    free; it then returns the user with the generated id and appends one
    account to the list. *)
Theorem register_succeeds_exactly_when
    (username password newId : string) (now : Z) (ls : LocalStorage) :
  (exists (su : SessionUser) (ls' : LocalStorage),
      register username password newId now ls = (inr su, ls'))
  <-> ((3 <= String.length username)%nat
       /\ (6 <= String.length password)%nat
       /\ isUsernameAvailable username ls = true).
Proof.
  rewrite isUsernameAvailable_find.
  unfold register, bind, get, throw, ret, modify, createUserSession.
  split.
  - intros (su & ls' & H).
    destruct username as [| c u]; [discriminate |].
    destruct password as [| c' p]; [discriminate |].
    cbn [truthy_str negb orb] in H. cbv beta iota in H.
    destruct (Nat.ltb_spec (String.length (String c u)) 3); [discriminate |].
    destruct (Nat.ltb_spec (String.length (String c' p)) 6); [discriminate |].
    destruct (list_find _ _) as [[i x] |]; [discriminate |]. auto.
  - intros (Hu & Hp & Hfree).
    destruct username as [| c u]; [simpl in Hu; lia |].
    destruct password as [| c' p]; [simpl in Hp; lia |].
    cbn [truthy_str negb orb]. cbv beta iota.
    destruct (Nat.ltb_spec (String.length (String c u)) 3); [lia |].
    destruct (Nat.ltb_spec (String.length (String c' p)) 6); [lia |].
    rewrite Hfree. eexists _, _. reflexivity.
Qed.

(** X17: Under a name that [trim] leaves alone, [register] followed by [login]
    with the same two strings succeeds and answers the registered id. *)
Theorem register_then_login_round_trip
    (username password newId : string) (t1 t2 : Z) (ls ls1 : LocalStorage)
    (su : SessionUser) :
  trim username = username ->
  register username password newId t1 ls = (inr su, ls1) ->
  exists (su' : SessionUser) (ls2 : LocalStorage),
    login username password t2 ls1 = (inr su', ls2)
    /\ su_id su' = su_id su
    /\ su_id su = newId
    /\ quran_current_user ls2 = Some su'
    /\ quran_session ls2 = Some (mkSession newId t2 (t2 + 86400000) true).
Proof.
  intros Htrim Hreg.
  destruct (register_then_login_trimmed _ _ _ t1 t2 _ _ _ Htrim Hreg)
    as (su' & ls2 & Hlogin & Hid & Hnew).
  exists su', ls2. split; [exact Hlogin |]. split; [exact Hid |].
  split; [exact Hnew |].
  destruct (login_stores _ _ _ _ _ _ Hlogin) as [Hcu Hs].
  split; [exact Hcu |]. rewrite Hs. congruence.
Qed.

Lemma register_then_login_witness :
  exists (su' : SessionUser) (ls2 : LocalStorage),
    login "hasan" "rahasia1" 2000 Samples.registered_storage = (inr su', ls2)
    /\ su_id su' = "user_1"%string.
Proof.
  assert (H : register "hasan" "rahasia1" "user_1" 1000 StorageManager.fresh_storage
              = (inr (mkSessionUser "user_1" "hasan" "hasan"
                        (<["displayName" := "hasan"%string]>
                           (<["preferredQari" := ""%string]>
                              (<["fontSize" := "medium"%string]>
                                 (<["theme" := "light"%string]> ∅)))) 1000),
                 Samples.registered_storage)) by (vm_compute; reflexivity).
  destruct (register_then_login_round_trip "hasan" "rahasia1" "user_1" 1000 2000
              _ _ _ eq_refl H) as (su' & ls2 & Hlogin & Hid & _).
  exists su', ls2. split; [exact Hlogin | exact Hid].
Defined.

(** X24: After [initializeAuth] the accounts list is stored, with the accounts it
    had; a stored session is one that is valid at the clock reading, and
    then session and current user are as they were; without a valid
    session neither a session nor a current user is left. *)
Theorem initializeAuth_keeps_valid_sessions_only (now : Z) (ls : LocalStorage) :
  let ls' := snd (initializeAuth now ls) in
  is_Some (quran_users ls')
  /\ getUsers ls' = getUsers ls
  /\ match quran_session ls with
     | Some session =>
         if isSessionValid session now
         then quran_session ls' = Some session
              /\ quran_current_user ls' = quran_current_user ls
              /\ fst (initializeAuth now ls) = inr true
         else quran_session ls' = None /\ quran_current_user ls' = None
              /\ fst (initializeAuth now ls) = inr false
     | None => quran_session ls' = None /\ quran_current_user ls' = None
               /\ fst (initializeAuth now ls) = inr false
     end.
Proof.
  cbv zeta. unfold initializeAuth, validateSession, bind, get, ret, modify, logout.
  destruct ls as [b h t u st us cu se]. simpl.
  destruct us as [us |], se as [session |]; simpl;
    try destruct (isSessionValid session now); simpl; eauto.
Qed.

End RegisterExactly.

(** ** The two ways to an audio address (api.js) *)

Section AudioAddress.
Import QuranAPI JsString.

Variable fetchSurat : Z -> Error + SuratDetail.

(** [getAyatAudioUrl] on a chapter that loaded: when the verse is not among
    the verses, or has no audio dictionary, it throws the no-audio error
    under its prefix; when the verse has a dictionary and the key is a
    known reciter, it returns what the dictionary holds under the reciter's
    id, [undefined] when it holds nothing there. *)
Theorem getAyatAudioUrl_outcomes
    (suratId ayatNumber : Z) (qariKey : string) (detail : SuratDetail) :
  getSuratDetail fetchSurat suratId = inr detail ->
  match List.find (fun a => nomorAyat a =? ayatNumber) (ayat detail) with
  | None =>
      getAyatAudioUrl fetchSurat suratId ayatNumber qariKey
      = inl (mkError "Gagal mendapatkan URL audio: Audio tidak tersedia untuk ayat ini")
  | Some a =>
      match audio a with
      | None =>
          getAyatAudioUrl fetchSurat suratId ayatNumber qariKey
          = inl (mkError
                   "Gagal mendapatkan URL audio: Audio tidak tersedia untuk ayat ini")
      | Some urls =>
          forall qariId, qariMapping !! qariKey = Some qariId ->
                         getAyatAudioUrl fetchSurat suratId ayatNumber qariKey
                         = inr (urls !! qariId)
      end
  end.
Proof.
  intros Hd.
  destruct (List.find _ (ayat detail)) as [a |] eqn:Hfind.
  - destruct (audio a) as [urls |] eqn:Ha.
    + intros qariId Hq. eapply getAyatAudioUrl_found; eauto.
    + apply (getAyatAudioUrl_not_found fetchSurat suratId ayatNumber qariKey detail Hd).
      intros a' Ha'. congruence.
  - apply (getAyatAudioUrl_not_found fetchSurat suratId ayatNumber qariKey detail Hd).
    intros a' Ha'. congruence.
Qed.

End AudioAddress.

Section AudioAddressInstance.
Import QuranAPI JsString.

Lemma getAyatAudioUrl_outcomes_witness :
  getAyatAudioUrl Samples.sample_remote 1 7 "abdullah_al_juhany"
  = inl (mkError "Gagal mendapatkan URL audio: Audio tidak tersedia untuk ayat ini").
Proof.
  apply (getAyatAudioUrl_outcomes Samples.sample_remote 1 7 "abdullah_al_juhany"
           (mkSuratDetail 1 "Al-Fatihah" "Al-Fatihah" 7 "Mekah" "Pembukaan" "" ∅
              [mkAyat 1 "bismillah" "bismillah" "Dengan nama Allah"
                 (Some Samples.audio_1_1)])).
  reflexivity.
Defined.

Lemma pad3_three_digits (n : Z) :
  0 <= n <= 999 -> String.length (pad3 n) = 3%nat.
Proof.
  intros Hn.
  assert (Hall : forallb (fun i => (String.length (pad3 (Z.of_nat i)) =? 3)%nat)
                   (seq 0 1000) = true) by (vm_compute; reflexivity).
  rewrite forallb_forall in Hall.
  specialize (Hall (Z.to_nat n)). rewrite Z2Nat.id in Hall by lia.
  apply Nat.eqb_eq, Hall. apply in_seq. lia.
Qed.

Lemma append_assoc (s1 s2 s3 : string) :
  (s1 +:+ s2) +:+ s3 = s1 +:+ (s2 +:+ s3).
Proof.
  induction s1 as [| c s1 IH]; [reflexivity |].
  change (String c ((s1 +:+ s2) +:+ s3) = String c (s1 +:+ (s2 +:+ s3))).
  rewrite IH. reflexivity.
Qed.

Lemma known_reciter (qariKey qariId : string) :
  qariMapping !! qariKey = Some qariId ->
  truthy_str qariId = true /\ is_Some (qariNames !! qariKey).
Proof.
  unfold qariMapping, qariNames. intros H.
  repeat (apply lookup_insert_Some in H as [[<- <-] | [_ H]];
          [split; [reflexivity | vm_compute; eauto] |]).
  rewrite lookup_empty in H. discriminate.
Qed.

(** [getAudioUrl] builds, for a known reciter and chapter and verse numbers
    from 0 to 999, the address of the reciter's directory followed by
    exactly six digits and [.mp3]; for any other reciter key it throws the
    invalid-reciter error. *)
Theorem getAudioUrl_six_digits (suratId ayatNumber : Z) (qariKey : string) :
  (forall qariId,
      qariMapping !! qariKey = Some qariId ->
      0 <= suratId <= 999 -> 0 <= ayatNumber <= 999 ->
      exists qariName digits : string,
        qariNames !! qariKey = Some qariName
        /\ String.length digits = 6%nat
        /\ digits = pad3 suratId +:+ pad3 ayatNumber
        /\ getAudioUrl suratId ayatNumber qariKey
           = inr ("https://cdn.equran.id/audio-partial/" +:+ qariName +:+ "/"
                  +:+ digits +:+ ".mp3"))
  /\ (qariMapping !! qariKey = None ->
      getAudioUrl suratId ayatNumber qariKey = inl err_invalid_qari).
Proof.
  split.
  - intros qariId Hq Hs Ha.
    destruct (known_reciter _ _ Hq) as [Ht [qariName Hname]].
    exists qariName, (pad3 suratId +:+ pad3 ayatNumber).
    split; [exact Hname |]. split.
    + rewrite length_append, !pad3_three_digits by assumption. reflexivity.
    + split; [reflexivity |].
      unfold getAudioUrl. rewrite Hq, Ht, Hname. simpl.
      rewrite append_assoc. reflexivity.
  - intros Hq. unfold getAudioUrl. rewrite Hq. reflexivity.
Qed.

End AudioAddressInstance.
